(** * libdns/porkbun: the record translator and the Provider operations

    A shallow embedding of the Porkbun provider for libdns.  The sources hold
    three design iterations, embedded here as three modules:

    - [V1]: the first provider (provider.go, first part, with the request
      types and the coordinate [Set]): records are matched by a
      "name-type" coordinate string against one zone listing;
    - [V2]: the second provider (provider.go, second part, with client.go and
      the first part of models.go): records are addressed by identifier,
      recovered through a name+type lookup when missing;
    - [V3]: the typed record translator (models.go, second part) that the
      table test of the repository exercises.

    HTTP round trips are modelled by explicit state passing over an abstract
    server; every exchange is appended to a trace, so that what was sent and
    what came back can be stated. *)

From Stdlib Require Import ZArith List String Ascii Bool Lia DecimalString.
From stdpp Require Import gmap strings.
Import ListNotations.
Open Scope string_scope.
Open Scope list_scope.
Open Scope Z_scope.

(** ** The Go standard library functions the code calls *)

Module Go.

(** [strings.HasPrefix]. *)
Fixpoint HasPrefix (s prefix : string) {struct prefix} : bool :=
  match prefix with
  | EmptyString => true
  | String a prefix' =>
      match s with
      | EmptyString => false
      | String b s' => Ascii.eqb a b && HasPrefix s' prefix'
      end
  end.

(** [strings.HasSuffix]. *)
Definition HasSuffix (s suffix : string) : bool :=
  (String.length suffix <=? String.length s)%nat &&
  String.eqb
    (substring (String.length s - String.length suffix) (String.length suffix) s)
    suffix.

(** [strings.TrimSuffix]: [s] without the trailing [suffix], or [s] itself. *)
Definition TrimSuffix (s suffix : string) : string :=
  if HasSuffix s suffix
  then substring 0 (String.length s - String.length suffix) s
  else s.

(** The loop of [strings.genSplit] for a non-empty separator: at most
    [cuts] cuts, the last element is the unsplit remainder. *)
Fixpoint splitLoop (cuts : nat) (s sep : string) : list string :=
  match cuts with
  | O => [s]
  | S cuts' =>
      match index 0 sep s with
      | None => [s]
      | Some m =>
          substring 0 m s ::
          splitLoop cuts'
            (substring (m + String.length sep)
               (String.length s - (m + String.length sep)) s) sep
      end
  end.

(** [strings.SplitN(s, sep, n)] for a non-empty [sep] and [n > 0] (the only
    use in the sources is [SplitN(content, " ", 3)]); [n = 0] gives nil. *)
Definition SplitN (s sep : string) (n : nat) : list string :=
  match n with
  | O => []
  | S cuts => splitLoop (Nat.min cuts (String.length s)) s sep
  end.

(** The two errors of [strconv]. *)
Inductive NumError := ErrSyntax | ErrRange.

Definition maxInt : Z := 2 ^ 63 - 1.
Definition minInt : Z := - 2 ^ 63.

Definition digitValue (c : ascii) : option Z :=
  let n := Z.of_N (N_of_ascii c) in
  if (48 <=? n) && (n <=? 57) then Some (n - 48) else None.

Fixpoint parseDigits (s : string) (acc : Z) : option Z :=
  match s with
  | EmptyString => Some acc
  | String c s' =>
      match digitValue c with
      | Some d => parseDigits s' (acc * 10 + d)
      | None => None
      end
  end.

(** [strconv.Atoi] on a 64-bit platform: an optional sign and decimal
    digits.  A syntax error gives 0, a range error the nearest bound. *)
Definition Atoi (s : string) : Z * option NumError :=
  let '(neg, body) :=
    match s with
    | String "-" r => (true, r)
    | String "+" r => (false, r)
    | _ => (false, s)
    end in
  match body with
  | EmptyString => (0, Some ErrSyntax)
  | _ =>
      match parseDigits body 0 with
      | None => (0, Some ErrSyntax)
      | Some n =>
          let v := if neg then - n else n in
          if v <? minInt then (minInt, Some ErrRange)
          else if maxInt <? v then (maxInt, Some ErrRange)
          else (v, None)
      end
  end.

(** [strconv.Itoa]. *)
Definition Itoa (n : Z) : string := NilZero.string_of_int (Z.to_int n).

(** Conversions to the unsigned integer types wrap around. *)
Definition uint (n : Z) : Z := n mod 2 ^ 64.
Definition uint16 (n : Z) : Z := n mod 2 ^ 16.
Definition uint8 (n : Z) : Z := n mod 2 ^ 8.

(** [time.Second], in nanoseconds ([time.Duration] is an int64 count of
    nanoseconds). *)
Definition Second : Z := 1000000000.

End Go.

(** ** libdns *)

Module libdns.

(** [libdns.Record] as the first two iterations use it: one flat struct. *)
Record Record := mkRecord {
  ID : string;
  Type_ : string;
  Name : string;
  Value : string;
  TTL : Z;
  Priority : Z
}.

Definition withTTL (r : Record) (ttl : Z) : Record :=
  mkRecord (ID r) (Type_ r) (Name r) (Value r) ttl (Priority r).

Definition withID (r : Record) (id : string) : Record :=
  mkRecord id (Type_ r) (Name r) (Value r) (TTL r) (Priority r).

(** Modelled from the spec: [libdns.RelativeName] belongs to the libdns
    library, whose code is not in the sources.  The spec (4.1) has the zone
    suffix stripped from the name and a name equal to the zone give the root
    sentinel "@"; trailing dots are ignored, as the zone is stripped of its
    trailing separator before use (4.3); letters are compared as they are.
    The provider code below takes the function as a parameter; this
    definition instantiates it in the examples. *)
Definition RelativeName (fqdn zone : string) : string :=
  let rel :=
    Go.TrimSuffix
      (Go.TrimSuffix (Go.TrimSuffix fqdn ".") (Go.TrimSuffix zone ".")) "." in
  if String.eqb rel "" then "@" else rel.

End libdns.

(** ** The wire model and the transport *)

(** The provider's wire record (pkbnRecord / PorkbunRecord). *)
Record pkbnRecord := mkPkbnRecord {
  Content : string;
  wID : string;
  wName : string;
  Notes : string;
  Prio : string;
  wTTL : string;
  wType : string
}.

Record ApiCredentials := mkCredentials {
  Apikey : string;
  Secretapikey : string
}.

(** pkbnRecordPayload (RecordCreateRequest in the first iteration): the
    credentials and the four record fields of a create or edit request. *)
Record pkbnRecordPayload := mkPayload {
  pCredentials : ApiCredentials;
  pContent : string;
  pName : string;
  pTTL : string;
  pType : string
}.

(** RecordUpdateRequest of the first iteration. *)
Record RecordUpdateRequest := mkUpdateRequest {
  uCredentials : ApiCredentials;
  uContent : string;
  uTTL : string
}.

(** A request body, before [json.Marshal] (which cannot fail on these
    structs of strings). *)
Inductive Body :=
| BodyCredentials (c : ApiCredentials)
| BodyPayload (p : pkbnRecordPayload)
| BodyUpdate (u : RecordUpdateRequest).

Record Request := mkRequest {
  endpoint : string;
  body : Body
}.

(** A decoded response body.  Each response struct of the code reads the
    fields it declares: [Status] and [Message] (pkbnResponseStatus),
    [YourIP] (pkbnPingResponse), [Records] (pkbnRecordsResponse). *)
Record Response := mkResponse {
  Status : string;
  Message : string;
  YourIP : string;
  Records : list pkbnRecord
}.

(** The errors the operations return. *)
Inductive error :=
| TransportError (msg : string)
    (* whatever MakeApiRequest returns: connection failure, a status other
       than 200 with the body text, a body that does not decode *)
| InvalidResponseStatus (status : string)
    (* errors.New(fmt.Sprintf("Invalid response status %s", status)) *)
| MoreThanOneRecord (r : libdns.Record)
    (* fmt.Errorf("unexpectedly found more than 1 record for %v", r) *)
| ParseDurationError (s : string)
| AtoiError (e : Go.NumError) (s : string)
| ParseAddrError (s : string)
| UnsupportedRecordType (type : string).

(** The text of an error that reports an application status. *)
Definition errorText (e : error) : option string :=
  match e with
  | InvalidResponseStatus status => Some ("Invalid response status " +:+ status)
  | _ => None
  end.

(** One HTTP round trip as the caller of MakeApiRequest sees it:
    [(T, error)] with the error checked first. *)
Definition Outcome : Type := error + Response.

(** The state threaded through an operation: the server's own state and the
    exchanges made so far, oldest first. *)
Record State (World : Type) := mkState {
  world : World;
  trace : list (Request * Outcome)
}.
Arguments mkState {World} _ _.
Arguments world {World} _.
Arguments trace {World} _.

Definition M (World A : Type) : Type := State World -> A * State World.

Definition ret {World A : Type} (a : A) : M World A := fun st => (a, st).

Definition bind {World A B : Type} (m : M World A) (k : A -> M World B) : M World B :=
  fun st => let '(a, st') := m st in k a st'.

Notation "'do' x <- m ; k" := (bind m (fun x => k))
  (at level 10, x name, m at level 100, k at level 200).
Notation "'do' ' pat <- m ; k" := (bind m (fun x => match x with pat => k end))
  (at level 10, pat pattern, m at level 100, k at level 200).

(** MakeApiRequest / makeHttpRequest: one POST of [body] to [endpoint],
    answered by the server. *)
Definition MakeApiRequest {World : Type}
  (serve : Request -> World -> Outcome * World)
  (endpoint : string) (body : Body) : M World Outcome :=
  fun st =>
    let req := mkRequest endpoint body in
    let '(out, w) := serve req (world st) in
    (out, mkState w (trace st ++ [(req, out)])).

(** Provider: the two credentials. *)
Record Provider := mkProvider {
  APIKey : string;
  APISecretKey : string
}.

Definition getCredentials (p : Provider) : ApiCredentials :=
  mkCredentials (APIKey p) (APISecretKey p).

(** The TTL floor both providers apply at the head of their loops:
    [if record.TTL/time.Second < 600 { record.TTL = 600 * time.Second }]
    (Go's integer division truncates toward zero). *)
Definition floorTTL (record : libdns.Record) : libdns.Record :=
  if Z.quot (libdns.TTL record) Go.Second <? 600
  then libdns.withTTL record (600 * Go.Second)
  else record.

(** ** The second iteration: identifier-addressed provider

    provider.go (second part), client.go and models.go (first part). *)

Module V2.

Section Provider.

(** [libdns.RelativeName] and [time.ParseDuration] are library functions
    outside the sources; the server is the provider's HTTP API. *)
Variable RelativeName : string -> string -> string.
Variable ParseDuration : string -> option Z.
Context {World : Type}.
Variable serve : Request -> World -> Outcome * World.
Variable p : Provider.

(** LibdnsZoneToPorkbunDomain strips the trailing dot from a zone. *)
Definition LibdnsZoneToPorkbunDomain (zone : string) : string :=
  Go.TrimSuffix zone ".".

(** pkbnRecord.toLibdnsRecord (models.go, first part): the errors of
    ParseDuration and Atoi are dropped, the values they return are kept. *)
Definition toLibdnsRecord (record : pkbnRecord) (zone : string) : libdns.Record :=
  let ttl := match ParseDuration (wTTL record +:+ "s") with
             | Some d => d
             | None => 0
             end in
  let priority := fst (Go.Atoi (Prio record)) in
  {| libdns.ID := wID record;
     libdns.Name := RelativeName (wName record) (LibdnsZoneToPorkbunDomain zone);
     libdns.Priority := Go.uint priority;
     libdns.TTL := ttl;
     libdns.Type_ := wType record;
     libdns.Value := Content record |}.

(** The wire name of a record: the relative name, "" for the root. *)
Definition trimmedNameOf (record : libdns.Record) (zone : string) : string :=
  let relativeName := RelativeName (libdns.Name record) zone in
  if String.eqb relativeName "@" then "" else relativeName.

(** CheckCredentials (client.go). *)
Definition CheckCredentials : M World (string * option error) :=
  do response <- MakeApiRequest serve "/ping" (BodyCredentials (getCredentials p));
  match response with
  | inl err => ret ("", Some err)
  | inr response =>
      if negb (String.eqb (Status response) "SUCCESS")
      then ret ("", None)          (* return "", err: err is nil here *)
      else ret (YourIP response, None)
  end.

(** getMatchingRecord (client.go): the lookup by name and type. *)
Definition getMatchingRecord (r : libdns.Record) (zone : string)
  : M World (list libdns.Record * option error) :=
  let trimmedZone := LibdnsZoneToPorkbunDomain zone in
  let trimmedName := trimmedNameOf r zone in
  let endpoint :=
    "/dns/retrieveByNameType/" +:+ trimmedZone +:+ "/" +:+ libdns.Type_ r
      +:+ "/" +:+ trimmedName in
  do response <- MakeApiRequest serve endpoint (BodyCredentials (getCredentials p));
  match response with
  | inl err => ret ([], Some err)
  | inr response =>
      ret (map (fun rec => toLibdnsRecord rec zone) (Records response), None)
  end.

(** The body of a create or edit request for [record] (after the floor). *)
Definition payloadOf (record : libdns.Record) (zone : string) : pkbnRecordPayload :=
  let ttlInSeconds := Z.quot (libdns.TTL record) Go.Second in
  mkPayload (getCredentials p) (libdns.Value record) (trimmedNameOf record zone)
    (Go.Itoa ttlInSeconds) (libdns.Type_ record).

(** updateRecords (client.go): the loop, with [createdRecords] as the
    accumulator. *)
Fixpoint updateRecords_loop (zone : string) (records createdRecords : list libdns.Record)
  : M World (list libdns.Record * option error) :=
  match records with
  | [] => ret (createdRecords, None)
  | record :: rest =>
      let record := floorTTL record in
      let trimmedZone := LibdnsZoneToPorkbunDomain zone in
      do response <-
        MakeApiRequest serve
          ("/dns/edit/" +:+ trimmedZone +:+ "/" +:+ libdns.ID record)
          (BodyPayload (payloadOf record zone));
      match response with
      | inl err => ret ([], Some err)
      | inr response =>
          if negb (String.eqb (Status response) "SUCCESS")
          then ret ([], None)      (* return nil, err: err is nil here *)
          else updateRecords_loop zone rest (createdRecords ++ [record])
      end
  end.

Definition updateRecords (zone : string) (records : list libdns.Record)
  : M World (list libdns.Record * option error) :=
  updateRecords_loop zone records [].

(** GetRecords (provider.go, second part). *)
Definition GetRecords (zone : string) : M World (list libdns.Record * option error) :=
  let trimmedZone := LibdnsZoneToPorkbunDomain zone in
  do response <-
    MakeApiRequest serve ("/dns/retrieve/" +:+ trimmedZone)
      (BodyCredentials (getCredentials p));
  match response with
  | inl err => ret ([], Some err)
  | inr response =>
      if negb (String.eqb (Status response) "SUCCESS")
      then ret ([], Some (InvalidResponseStatus (Status response)))
      else ret (map (fun rec => toLibdnsRecord rec zone) (Records response), None)
  end.

(** AppendRecords (provider.go, second part): the loop, with
    [createdRecords] as the accumulator. *)
Fixpoint AppendRecords_loop (zone : string) (records createdRecords : list libdns.Record)
  : M World (list libdns.Record * option error) :=
  match records with
  | [] => ret (createdRecords, None)
  | record :: rest =>
      let record := floorTTL record in
      let trimmedZone := LibdnsZoneToPorkbunDomain zone in
      do response <-
        MakeApiRequest serve ("/dns/create/" +:+ trimmedZone)
          (BodyPayload (payloadOf record zone));
      match response with
      | inl err => ret (createdRecords, Some err)
      | inr response =>
          if negb (String.eqb (Status response) "SUCCESS")
          then ret (createdRecords, Some (InvalidResponseStatus (Status response)))
          else
            (* the create endpoint returns no ID: fetch it as a workaround *)
            do ' (created, err) <- getMatchingRecord record zone;
            let record :=
              match err, created with
              | None, [c] => libdns.withID record (libdns.ID c)
              | _, _ => record
              end in
            AppendRecords_loop zone rest (createdRecords ++ [record])
      end
  end.

Definition AppendRecords (zone : string) (records : list libdns.Record)
  : M World (list libdns.Record * option error) :=
  AppendRecords_loop zone records [].

(** SetRecords (provider.go, second part), first loop: every record is put
    on [updates] or on [creates], or the call fails. *)
Fixpoint SetRecords_classify (zone : string) (records updates creates : list libdns.Record)
  : M World (error + list libdns.Record * list libdns.Record) :=
  match records with
  | [] => ret (inr (updates, creates))
  | r :: rest =>
      if String.eqb (libdns.ID r) ""
      then
        (* try to fetch the record in case only the ID is missing *)
        do ' (matches, err) <- getMatchingRecord r zone;
        match err with
        | Some err => ret (inl err)
        | None =>
            match matches with
            | [] => SetRecords_classify zone rest updates (creates ++ [r])
            | [m] =>
                SetRecords_classify zone rest
                  (updates ++ [libdns.withID r (libdns.ID m)]) creates
            | _ :: _ :: _ => ret (inl (MoreThanOneRecord r))
            end
        end
      else SetRecords_classify zone rest (updates ++ [r]) creates
  end.

(** SetRecords, after the first loop: the creates, then the updates. *)
Definition SetRecords_apply (zone : string) (updates creates : list libdns.Record)
  : M World (list libdns.Record * option error) :=
  do ' (created, err) <- AppendRecords zone creates;
  match err with
  | Some err => ret ([], Some err)
  | None =>
      do ' (updated, err) <- updateRecords zone updates;
      match err with
      | Some err => ret ([], Some err)
      | None => ret (created ++ updated, None)
      end
  end.

Definition SetRecords (zone : string) (records : list libdns.Record)
  : M World (list libdns.Record * option error) :=
  do classified <- SetRecords_classify zone records [] [];
  match classified with
  | inl err => ret ([], Some err)
  | inr (updates, creates) => SetRecords_apply zone updates creates
  end.

(** DeleteRecords (provider.go, second part): the inner loop over
    [queuedDeletes].  The decoded response is discarded
    ([_, err = MakeApiRequest(...)]). *)
Fixpoint DeleteRecords_queue (zone : string) (queuedDeletes deletedRecords : list libdns.Record)
  : M World (list libdns.Record * option error) :=
  match queuedDeletes with
  | [] => ret (deletedRecords, None)
  | recordToDelete :: rest =>
      let trimmedZone := LibdnsZoneToPorkbunDomain zone in
      do response <-
        MakeApiRequest serve
          ("/dns/delete/" +:+ trimmedZone +:+ "/" +:+ libdns.ID recordToDelete)
          (BodyCredentials (getCredentials p));
      match response with
      | inl err => ret (deletedRecords, Some err)
      | inr _ => DeleteRecords_queue zone rest (deletedRecords ++ [recordToDelete])
      end
  end.

(** DeleteRecords: the outer loop. *)
Fixpoint DeleteRecords_loop (zone : string) (records deletedRecords : list libdns.Record)
  : M World (list libdns.Record * option error) :=
  match records with
  | [] => ret (deletedRecords, None)
  | record :: rest =>
      do queued <-
        (if String.eqb (libdns.ID record) ""
         then
           do ' (matches, err) <- getMatchingRecord record zone;
           match err with
           | Some err => ret (inl err)
           | None => ret (inr matches)
           end
         else ret (inr [record]));
      match queued with
      | inl err => ret (deletedRecords, Some err)
      | inr queuedDeletes =>
          do ' (deletedRecords, err) <-
            DeleteRecords_queue zone queuedDeletes deletedRecords;
          match err with
          | Some err => ret (deletedRecords, Some err)
          | None => DeleteRecords_loop zone rest deletedRecords
          end
      end
  end.

Definition DeleteRecords (zone : string) (records : list libdns.Record)
  : M World (list libdns.Record * option error) :=
  DeleteRecords_loop zone records [].

End Provider.

End V2.

(** ** The first iteration: name-addressed provider

    provider.go (first part) with its request types and the coordinate
    [Set]. *)

Module V1.

(** Set: a map[string]bool in which every stored value is true. *)
Definition NewSet : gset string := ∅.
Definition Add (s : gset string) (value : string) : gset string := {[value]} ∪ s.
Definition Contains (s : gset string) (value : string) : bool := bool_decide (value ∈ s).

(** getRecordCoordinates: fmt.Sprintf("%s-%s", record.Name, record.Type). *)
Definition getRecordCoordinates (record : libdns.Record) : string :=
  libdns.Name record +:+ "-" +:+ libdns.Type_ record.

(** trimZone strips the trailing dot from a zone. *)
Definition trimZone (zone : string) : string := Go.TrimSuffix zone ".".

(** SetRecords, the two loops between the listing and the requests: the
    coordinates of the existing records, then the partition of the input. *)
Definition existingCoordinatesOf (existingRecords : list libdns.Record) : gset string :=
  fold_left (fun s r => Add s (getRecordCoordinates r)) existingRecords NewSet.

Fixpoint SetRecords_partition (existingCoordinates : gset string)
  (records updates creates : list libdns.Record)
  : list libdns.Record * list libdns.Record :=
  match records with
  | [] => (updates, creates)
  | r :: rest =>
      if Contains existingCoordinates (getRecordCoordinates r)
      then SetRecords_partition existingCoordinates rest (updates ++ [r]) creates
      else SetRecords_partition existingCoordinates rest updates (creates ++ [r])
  end.

Section Provider.

Variable RelativeName : string -> string -> string.
Variable ParseDuration : string -> option Z.
Context {World : Type}.
Variable serve : Request -> World -> Outcome * World.
Variable p : Provider.

(** CheckCredentials. *)
Definition CheckCredentials : M World (string * option error) :=
  do response <- MakeApiRequest serve "ping" (BodyCredentials (getCredentials p));
  match response with
  | inl err => ret ("", Some err)
  | inr response =>
      if negb (String.eqb (Status response) "SUCCESS")
      then ret ("", None)          (* return "", err: err is nil here *)
      else ret (YourIP response, None)
  end.

(** GetRecords, the loop over the listed wire records: a TTL that does not
    parse fails the call; the name is the wire name with a dot appended. *)
Fixpoint GetRecords_loop (wire : list pkbnRecord) (records : list libdns.Record)
  : list libdns.Record * option error :=
  match wire with
  | [] => (records, None)
  | record :: rest =>
      match ParseDuration (wTTL record +:+ "s") with
      | None => ([], Some (ParseDurationError (wTTL record +:+ "s")))
      | Some ttl =>
          let priority := fst (Go.Atoi (Prio record)) in
          let formatted :=
            {| libdns.ID := wID record;
               libdns.Name := wName record +:+ ".";
               libdns.Priority := priority;
               libdns.TTL := ttl;
               libdns.Type_ := wType record;
               libdns.Value := Content record |} in
          GetRecords_loop rest (records ++ [formatted])
      end
  end.

Definition GetRecords (zone : string) : M World (list libdns.Record * option error) :=
  let trimmedZone := trimZone zone in
  do response <-
    MakeApiRequest serve ("dns/retrieve/" +:+ trimmedZone)
      (BodyCredentials (getCredentials p));
  match response with
  | inl err => ret ([], Some err)
  | inr response =>
      if negb (String.eqb (Status response) "SUCCESS")
      then ret ([], Some (InvalidResponseStatus (Status response)))
      else ret (GetRecords_loop (Records response) [])
  end.

(** AppendRecords: every failure returns nil with the error. *)
Fixpoint AppendRecords_loop (zone : string) (records createdRecords : list libdns.Record)
  : M World (list libdns.Record * option error) :=
  match records with
  | [] => ret (createdRecords, None)
  | record :: rest =>
      let record := floorTTL record in
      let trimmedZone := trimZone zone in
      let ttlInSeconds := Z.quot (libdns.TTL record) Go.Second in
      let trimmedName := RelativeName (libdns.Name record) zone in
      let reqBody :=
        mkPayload (getCredentials p) (libdns.Value record) trimmedName
          (Go.Itoa ttlInSeconds) (libdns.Type_ record) in
      do response <-
        MakeApiRequest serve ("dns/create/" +:+ trimmedZone) (BodyPayload reqBody);
      match response with
      | inl err => ret ([], Some err)
      | inr response =>
          if negb (String.eqb (Status response) "SUCCESS")
          then ret ([], Some (InvalidResponseStatus (Status response)))
          else AppendRecords_loop zone rest (createdRecords ++ [record])
      end
  end.

Definition AppendRecords (zone : string) (records : list libdns.Record)
  : M World (list libdns.Record * option error) :=
  AppendRecords_loop zone records [].

(** UpdateRecords: edits addressed by zone, type and relative name. *)
Fixpoint UpdateRecords_loop (zone : string) (records createdRecords : list libdns.Record)
  : M World (list libdns.Record * option error) :=
  match records with
  | [] => ret (createdRecords, None)
  | record :: rest =>
      let record := floorTTL record in
      let trimmedZone := trimZone zone in
      let ttlInSeconds := Z.quot (libdns.TTL record) Go.Second in
      let trimmedName := RelativeName (libdns.Name record) zone in
      let reqBody :=
        mkUpdateRequest (getCredentials p) (libdns.Value record) (Go.Itoa ttlInSeconds) in
      do response <-
        MakeApiRequest serve
          ("dns/editByNameType/" +:+ trimmedZone +:+ "/" +:+ libdns.Type_ record
             +:+ "/" +:+ trimmedName)
          (BodyUpdate reqBody);
      match response with
      | inl err => ret ([], Some err)
      | inr response =>
          if negb (String.eqb (Status response) "SUCCESS")
          then ret ([], None)      (* return nil, err: err is nil here *)
          else UpdateRecords_loop zone rest (createdRecords ++ [record])
      end
  end.

Definition UpdateRecords (zone : string) (records : list libdns.Record)
  : M World (list libdns.Record * option error) :=
  UpdateRecords_loop zone records [].

(** SetRecords, after the listing: the partition, the creates, the updates;
    the input is returned as it came. *)
Definition SetRecords_apply (zone : string) (records updates creates : list libdns.Record)
  : M World (list libdns.Record * option error) :=
  do ' (_, err) <- AppendRecords zone creates;
  match err with
  | Some err => ret ([], Some err)
  | None =>
      do ' (_, err) <- UpdateRecords zone updates;
      match err with
      | Some err => ret ([], Some err)
      | None => ret (records, None)
      end
  end.

Definition SetRecords (zone : string) (records : list libdns.Record)
  : M World (list libdns.Record * option error) :=
  do ' (existingRecords, err) <- GetRecords zone;
  match err with
  | Some err => ret ([], Some err)
  | None =>
      let existingCoordinates := existingCoordinatesOf existingRecords in
      let '(updates, creates) :=
        SetRecords_partition existingCoordinates records [] [] in
      SetRecords_apply zone records updates creates
  end.

(** DeleteRecords: one deleteByNameType call per record; the decoded
    response is discarded. *)
Fixpoint DeleteRecords_loop (zone : string) (records deletedRecords : list libdns.Record)
  : M World (list libdns.Record * option error) :=
  match records with
  | [] => ret (deletedRecords, None)
  | record :: rest =>
      let trimmedZone := trimZone zone in
      let trimmedName := RelativeName (libdns.Name record) zone in
      do response <-
        MakeApiRequest serve
          ("dns/deleteByNameType/" +:+ trimmedZone +:+ "/" +:+ libdns.Type_ record
             +:+ "/" +:+ trimmedName)
          (BodyCredentials (getCredentials p));
      match response with
      | inl err => ret ([], Some err)
      | inr _ => DeleteRecords_loop zone rest (deletedRecords ++ [record])
      end
  end.

Definition DeleteRecords (zone : string) (records : list libdns.Record)
  : M World (list libdns.Record * option error) :=
  DeleteRecords_loop zone records [].

End Provider.

End V1.

(** ** The typed record translator (models.go, second part) *)

Module V3.

(** The wire record of this iteration has no identifier field. *)
Record pkbnRecord := mkPkbnRecord {
  Content : string;
  Name : string;
  Notes : string;
  Prio : string;
  TTL : string;
  Type_ : string
}.

(** What a Go call does: it returns, or it panics. *)
Inductive Result (A : Type) :=
| Returns (a : A)
| Panics (msg : string).
Arguments Returns {A} _.
Arguments Panics {A} _.

Section Translator.

(** [netip.Addr] with its zero value and [netip.ParseAddr], and the two
    library functions of the other iterations. *)
Variable Addr : Type.
Variable zeroAddr : Addr.
Variable ParseAddr : string -> option Addr.
Variable RelativeName : string -> string -> string.
Variable ParseDuration : string -> option Z.

(** The record structs of libdns 1.x that the translator builds. *)
Record RR := mkRR { rrName : string; rrTTL : Z; rrType : string; rrData : string }.
Record Address := mkAddress { aName : string; aTTL : Z; IP : Addr }.
Record CAA := mkCAA {
  caaName : string; caaTTL : Z; Flags : Z; Tag : string; caaValue : string }.
Record CNAME := mkCNAME { cnName : string; cnTTL : Z; cnTarget : string }.
Record SRV := mkSRV {
  Service : string; Transport : string; srvName : string; srvTTL : Z;
  srvPriority : Z; Weight : Z; Port : Z; srvTarget : string }.
Record TXT := mkTXT { txtName : string; txtTTL : Z; Text : string }.

(** libdns.Record, the interface, as the sum of the structs above. *)
Inductive Record :=
| OfRR (r : RR)
| OfAddress (a : Address)
| OfCAA (c : CAA)
| OfCNAME (c : CNAME)
| OfSRV (s : SRV)
| OfTXT (t : TXT).

(** [s[i]] on a slice: a panic when [i] is out of range. *)
Definition at_index {B : Type} (parts : list string) (i : nat)
  (k : string -> Result B) : Result B :=
  match nth_error parts i with
  | Some x => k x
  | None => Panics "index out of range"
  end.

(** pkbnRecord.toLibdnsRecord. *)
Definition toLibdnsRecord (record : pkbnRecord) (zone : string)
  : Result (Record * option error) :=
  let name := RelativeName (Name record) zone in
  match ParseDuration (TTL record +:+ "s") with
  | None => Returns (OfRR (mkRR "" 0 "" ""), Some (ParseDurationError (TTL record +:+ "s")))
  | Some ttl =>
      let type := Type_ record in
      if String.eqb type "A" || String.eqb type "AAAA" then
        match ParseAddr (Content record) with
        | None =>
            Returns (OfAddress (mkAddress "" 0 zeroAddr),
                     Some (ParseAddrError (Content record)))
        | Some ip => Returns (OfAddress (mkAddress name ttl ip), None)
        end
      else if String.eqb type "CAA" then
        let contentParts := Go.SplitN (Content record) " " 3 in
        at_index contentParts 0 (fun part0 =>
        let '(flags, err) := Go.Atoi part0 in
        match err with
        | Some e => Returns (OfCAA (mkCAA "" 0 0 "" ""), Some (AtoiError e part0))
        | None =>
            at_index contentParts 1 (fun tag =>
            at_index contentParts 2 (fun value =>
            Returns (OfCAA (mkCAA name ttl (Go.uint8 flags) tag value), None)))
        end)
      else if String.eqb type "CNAME" then
        Returns (OfCNAME (mkCNAME name ttl (Content record)), None)
      else if String.eqb type "SRV" then
        let '(priority, err) := Go.Atoi (Prio record) in
        Returns (OfSRV (mkSRV "" "" name ttl (Go.uint16 priority) 0 0 ""),
                 option_map (fun e => AtoiError e (Prio record)) err)
      else if String.eqb type "TXT" then
        Returns (OfTXT (mkTXT name ttl (Content record)), None)
      else
        Returns (OfRR (mkRR "" 0 "" ""), Some (UnsupportedRecordType type))
  end.

End Translator.

End V3.

(** ** Test doubles *)

Module Mock.

(** A scripted server: it answers the requests in order from a list of
    outcomes, and fails at the transport level once the list is used up. *)
Definition scripted (req : Request) (script : list Outcome) : Outcome * list Outcome :=
  match script with
  | [] => (inl (TransportError "no response left"), [])
  | out :: script' => (out, script')
  end.

Definition start (script : list Outcome) : State (list Outcome) := mkState script [].

Definition success (records : list pkbnRecord) : Outcome :=
  inr (mkResponse "SUCCESS" "" "" records).

Definition failure (status message : string) : Outcome :=
  inr (mkResponse status message "" []).

(** A stand-in for [time.ParseDuration] on the strings the translators pass
    it when the wire TTL is a plain number: decimal digits followed by "s". *)
Definition parseSeconds (s : string) : option Z :=
  if Go.HasSuffix s "s"
  then
    match Go.Atoi (Go.TrimSuffix s "s") with
    | (n, None) => if 0 <=? n then Some (n * Go.Second) else None
    | (_, Some _) => None
    end
  else None.

(** A server that never fails: it answers every listing and lookup with
    the records [listed], and every other request with plain success. *)
Definition zoneWith (listed : list pkbnRecord) (req : Request) (w : unit)
  : Outcome * unit :=
  (if Go.HasPrefix (endpoint req) "/dns/retrieve" || Go.HasPrefix (endpoint req) "dns/retrieve"
   then success listed
   else success [],
   w).

(** A server whose zone is empty. *)
Definition emptyZone : Request -> unit -> Outcome * unit := zoneWith [].

(** Sample records. *)
Definition txt (id name value : string) (ttl : Z) : libdns.Record :=
  libdns.mkRecord id "TXT" name value ttl 0.

Definition wireTXT (id name content : string) : pkbnRecord :=
  mkPkbnRecord content id name "" "0" "600" "TXT".

Definition provider : Provider := mkProvider "pk1_key" "sk1_secret".

Definition credentials : ApiCredentials := getCredentials provider.

End Mock.

(** ** What the statements below speak of *)

(** The name+type lookup request of the second iteration. *)
Definition lookupRequest (RelativeName : string -> string -> string) (p : Provider)
  (r : libdns.Record) (zone : string) : Request :=
  mkRequest
    ("/dns/retrieveByNameType/" +:+ V2.LibdnsZoneToPorkbunDomain zone +:+ "/"
       +:+ libdns.Type_ r +:+ "/" +:+ V2.trimmedNameOf RelativeName r zone)
    (BodyCredentials (getCredentials p)).

(** The delete request of the second iteration, addressed by identifier. *)
Definition deleteRequest (p : Provider) (zone : string) (r : libdns.Record) : Request :=
  mkRequest
    ("/dns/delete/" +:+ V2.LibdnsZoneToPorkbunDomain zone +:+ "/" +:+ libdns.ID r)
    (BodyCredentials (getCredentials p)).

(** The create request the second iteration's AppendRecords builds for an
    input record. *)
Definition createRequest (RelativeName : string -> string -> string) (p : Provider)
  (record : libdns.Record) (zone : string) : Request :=
  mkRequest ("/dns/create/" +:+ V2.LibdnsZoneToPorkbunDomain zone)
    (BodyPayload (V2.payloadOf RelativeName p (floorTTL record) zone)).

(** The edit request updateRecords builds for an input record. *)
Definition editRequest (RelativeName : string -> string -> string) (p : Provider)
  (record : libdns.Record) (zone : string) : Request :=
  mkRequest
    ("/dns/edit/" +:+ V2.LibdnsZoneToPorkbunDomain zone +:+ "/" +:+ libdns.ID record)
    (BodyPayload (V2.payloadOf RelativeName p (floorTTL record) zone)).

(** The create request the first iteration builds for an input record. *)
Definition createRequest1 (RelativeName : string -> string -> string) (p : Provider)
  (record : libdns.Record) (zone : string) : Request :=
  mkRequest ("dns/create/" +:+ V1.trimZone zone)
    (BodyPayload
       (mkPayload (getCredentials p) (libdns.Value (floorTTL record))
          (RelativeName (libdns.Name (floorTTL record)) zone)
          (Go.Itoa (Z.quot (libdns.TTL (floorTTL record)) Go.Second))
          (libdns.Type_ (floorTTL record)))).

(** The identifier AppendRecords recovers from the follow-up lookup: set
    only when the lookup came back with exactly one record. *)
Definition recoverID (record : libdns.Record) (lookup : Outcome) : libdns.Record :=
  match lookup with
  | inr response =>
      match Records response with
      | [c] => libdns.withID record (wID c)
      | _ => record
      end
  | inl _ => record
  end.

(** What the server answers to [req] in state [st], and the state after
    that exchange. *)
Definition answer {World : Type} (serve : Request -> World -> Outcome * World)
  (st : State World) (req : Request) : Outcome :=
  fst (serve req (world st)).

Definition exchanged {World : Type} (serve : Request -> World -> Outcome * World)
  (st : State World) (req : Request) : State World :=
  mkState (snd (serve req (world st))) (trace st ++ [(req, answer serve st req)]).

(** The create and edit payloads found in a trace, oldest first. *)
Fixpoint payloadsOf (tr : list (Request * Outcome)) : list pkbnRecordPayload :=
  match tr with
  | [] => []
  | (req, _) :: tr' =>
      match body req with
      | BodyPayload pl => pl :: payloadsOf tr'
      | _ => payloadsOf tr'
      end
  end.

(** The wire TTL the floor rule asks for: "600" below 600 seconds, the
    whole seconds otherwise. *)
Definition expectedTTL (r : libdns.Record) : string :=
  if Z.quot (libdns.TTL r) Go.Second <? 600
  then "600"
  else Go.Itoa (Z.quot (libdns.TTL r) Go.Second).

(** A create request, in either iteration's spelling of the endpoint. *)
Definition isCreate (x : Request * Outcome) : bool :=
  Go.HasPrefix (endpoint (fst x)) "/dns/create/" ||
  Go.HasPrefix (endpoint (fst x)) "dns/create/".

(** A round trip that came back with the success marker. *)
Definition succeeded (x : Request * Outcome) : bool :=
  match snd x with
  | inr response => String.eqb (Status response) "SUCCESS"
  | inl _ => false
  end.

Definition successfulCreates (tr : list (Request * Outcome)) : list (Request * Outcome) :=
  List.filter (fun x => isCreate x && succeeded x) tr.

(** [c] is the record created for the input [r]: the same name, type and
    value, the TTL after the floor (the identifier may have been filled in). *)
Definition createdFrom (r c : libdns.Record) : Prop :=
  libdns.Name c = libdns.Name r /\
  libdns.Type_ c = libdns.Type_ r /\
  libdns.Value c = libdns.Value r /\
  libdns.TTL c = libdns.TTL (floorTTL r).

(** How the second iteration's SetRecords routes its input, read off the
    lookups it made: [Routed records lookups updates creates].  A record
    with an identifier goes to the updates without a lookup; a record
    without one is looked up by name and type, and goes to the creates when
    the lookup finds nothing, to the updates (with the identifier found) when
    it finds exactly one record. *)
Inductive Routed (RelativeName : string -> string -> string) (p : Provider) (zone : string)
  : list libdns.Record -> list (Request * Outcome) ->
    list libdns.Record -> list libdns.Record -> Prop :=
| Routed_nil : Routed RelativeName p zone [] [] [] []
| Routed_by_id r rest tr updates creates :
    libdns.ID r <> "" ->
    Routed RelativeName p zone rest tr updates creates ->
    Routed RelativeName p zone (r :: rest) tr (r :: updates) creates
| Routed_create r rest tr updates creates response :
    libdns.ID r = "" ->
    Records response = [] ->
    Routed RelativeName p zone rest tr updates creates ->
    Routed RelativeName p zone (r :: rest)
      ((lookupRequest RelativeName p r zone, inr response) :: tr) updates (r :: creates)
| Routed_update r rest tr updates creates response m :
    libdns.ID r = "" ->
    Records response = [m] ->
    Routed RelativeName p zone rest tr updates creates ->
    Routed RelativeName p zone (r :: rest)
      ((lookupRequest RelativeName p r zone, inr response) :: tr)
      (libdns.withID r (wID m) :: updates) creates.

(** The first iteration's test: some listed record has the coordinate
    string of [r]. *)
Definition hasCoordinate (existing : list libdns.Record) (r : libdns.Record) : bool :=
  existsb
    (fun e => String.eqb (V1.getRecordCoordinates e) (V1.getRecordCoordinates r))
    existing.

(** The routing claim as it is worded, for the second iteration: with
    [existing] the zone's records as listed at the start of the call, an
    input record is put on the creates exactly when no listed record has its
    relative name and type (and on the updates otherwise). *)
Definition RoutesByListing (RelativeName : string -> string -> string)
  (ParseDuration : string -> option Z) {World : Type}
  (serve : Request -> World -> Outcome * World) (p : Provider) : Prop :=
  forall zone records st existing st1 updates creates st2,
    V2.GetRecords RelativeName ParseDuration serve p zone st = ((existing, None), st1) ->
    V2.SetRecords_classify RelativeName ParseDuration serve p zone records [] [] st
      = (inr (updates, creates), st2) ->
    forall r, In r records ->
      (In r creates <->
       ~ exists e, In e existing /\
           libdns.Name e = RelativeName (libdns.Name r) zone /\
           libdns.Type_ e = libdns.Type_ r).

(** The claim about AppendRecords' failure, for any implementation
    [Append]: a call that ends in an error made exactly one create request
    more than succeeded, and returns the records created before it. *)
Definition AbortsWithPartialResult {World : Type}
  (Append : string -> list libdns.Record -> M World (list libdns.Record * option error))
  : Prop :=
  forall zone records st created e st',
    Append zone records st = ((created, Some e), st') ->
    exists tr,
      trace st' = trace st ++ tr /\
      (length (successfulCreates tr) < length records)%nat /\
      length (List.filter isCreate tr) = S (length (successfulCreates tr)) /\
      Forall2 createdFrom (firstn (length (successfulCreates tr)) records) created.

(** ** More of what the statements below speak of *)

(** A string without the character "-". *)
Fixpoint dashFree (s : string) : bool :=
  match s with
  | EmptyString => true
  | String c s' => negb (Ascii.eqb c "-") && dashFree s'
  end.

(** A delete request of the second iteration. *)
Definition isDelete (x : Request * Outcome) : bool :=
  Go.HasPrefix (endpoint (fst x)) "/dns/delete/".

(** A round trip that did not fail in transport (whatever its status). *)
Definition answered (x : Request * Outcome) : bool :=
  match snd x with
  | inr _ => true
  | inl _ => false
  end.

(** The record the first iteration's GetRecords builds from a wire record
    whose TTL parsed to [ttl]. *)
Definition listed1 (record : pkbnRecord) (ttl : Z) : libdns.Record :=
  libdns.mkRecord (wID record) (wType record) (wName record +:+ ".") (Content record)
    ttl (fst (Go.Atoi (Prio record))).

(** A server on which every listing and lookup fails in transport and
    every other request succeeds. *)
Definition lookupsFail (req : Request) (w : unit) : Outcome * unit :=
  (if Go.HasPrefix (endpoint req) "/dns/retrieve"
   then inl (TransportError "connection reset")
   else Mock.success [],
   w).

(** The name and the TTL of a record of the typed translator, whatever
    its kind. *)
Definition recordName (Addr : Type) (rec : V3.Record Addr) : string :=
  match rec with
  | V3.OfRR _ r => V3.rrName r
  | V3.OfAddress _ a => V3.aName Addr a
  | V3.OfCAA _ c => V3.caaName c
  | V3.OfCNAME _ c => V3.cnName c
  | V3.OfSRV _ s => V3.srvName s
  | V3.OfTXT _ t => V3.txtName t
  end.

Definition recordTTL (Addr : Type) (rec : V3.Record Addr) : Z :=
  match rec with
  | V3.OfRR _ r => V3.rrTTL r
  | V3.OfAddress _ a => V3.aTTL Addr a
  | V3.OfCAA _ c => V3.caaTTL c
  | V3.OfCNAME _ c => V3.cnTTL c
  | V3.OfSRV _ s => V3.srvTTL s
  | V3.OfTXT _ t => V3.txtTTL t
  end.

(** The edit and the delete request of the first iteration, addressed by
    zone, type and relative name; the record's identifier is not sent. *)
Definition editByNameTypeRequest (RelativeName : string -> string -> string) (p : Provider)
  (record : libdns.Record) (zone : string) : Request :=
  mkRequest
    ("dns/editByNameType/" +:+ V1.trimZone zone +:+ "/" +:+ libdns.Type_ (floorTTL record)
       +:+ "/" +:+ RelativeName (libdns.Name (floorTTL record)) zone)
    (BodyUpdate
       (mkUpdateRequest (getCredentials p) (libdns.Value (floorTTL record))
          (Go.Itoa (Z.quot (libdns.TTL (floorTTL record)) Go.Second)))).

Definition deleteByNameTypeRequest (RelativeName : string -> string -> string) (p : Provider)
  (record : libdns.Record) (zone : string) : Request :=
  mkRequest
    ("dns/deleteByNameType/" +:+ V1.trimZone zone +:+ "/" +:+ libdns.Type_ record
       +:+ "/" +:+ RelativeName (libdns.Name record) zone)
    (BodyCredentials (getCredentials p)).

(** The error a trace ends with: the transport error of its last round
    trip, nil when that round trip was answered. *)
Definition lastError (tr : list (Request * Outcome)) : option error :=
  match List.last (map snd tr) (inl (TransportError "")) with
  | inl e => Some e
  | inr _ => None
  end.

(** The listing request of the first iteration. *)
Definition listRequest1 (p : Provider) (zone : string) : Request :=
  mkRequest ("dns/retrieve/" +:+ V1.trimZone zone) (BodyCredentials (getCredentials p)).

(** * Proofs *)

(** ** The library models on the values the sources show *)

Example TrimSuffix_zone : Go.TrimSuffix "example.com." "." = "example.com".
Proof. reflexivity. Qed.

Example SplitN_caa :
  Go.SplitN "0 issue letsencrypt.org and more" " " 3 =
  ["0"; "issue"; "letsencrypt.org and more"].
Proof. reflexivity. Qed.

Example SplitN_short : Go.SplitN "0 issue" " " 3 = ["0"; "issue"].
Proof. reflexivity. Qed.

Example Atoi_examples :
  Go.Atoi "10" = (10, None) /\ Go.Atoi "-7" = (-7, None) /\
  Go.Atoi "abc" = (0, Some Go.ErrSyntax) /\ Go.Atoi "" = (0, Some Go.ErrSyntax) /\
  Go.Atoi "9223372036854775808" = (Go.maxInt, Some Go.ErrRange).
Proof. repeat split; reflexivity. Qed.

Example Itoa_600 : Go.Itoa 600 = "600".
Proof. reflexivity. Qed.

Example RelativeName_examples :
  libdns.RelativeName "test.example.com" "example.com" = "test" /\
  libdns.RelativeName "example.com" "example.com." = "@" /\
  libdns.RelativeName "@" "example.com." = "@" /\
  libdns.RelativeName "_imaps._tcp.example.com" "example.com" = "_imaps._tcp".
Proof. repeat split; reflexivity. Qed.

Example parseSeconds_examples :
  Mock.parseSeconds "600s" = Some (600 * Go.Second) /\
  Mock.parseSeconds "300s" = Some (300 * Go.Second) /\
  Mock.parseSeconds "soon" = None.
Proof. repeat split; reflexivity. Qed.

(** ** One round trip *)

Section TransportFacts.

Context {World : Type}.
Variable serve : Request -> World -> Outcome * World.

Lemma MakeApiRequest_run endpoint body (st : State World) :
  MakeApiRequest serve endpoint body st =
  (answer serve st (mkRequest endpoint body), exchanged serve st (mkRequest endpoint body)).
Proof.
  unfold MakeApiRequest, exchanged, answer. destruct (serve _ _); reflexivity.
Qed.

Lemma trace_exchanged st req :
  trace (exchanged serve st req) = trace st ++ [(req, answer serve st req)].
Proof. reflexivity. Qed.

End TransportFacts.

(** ** The second iteration: AppendRecords and updateRecords *)

Section V2Facts.

Variable RelativeName : string -> string -> string.
Variable ParseDuration : string -> option Z.
Context {World : Type}.
Variable serve : Request -> World -> Outcome * World.
Variable p : Provider.

Lemma getMatchingRecord_run r zone (st : State World) :
  V2.getMatchingRecord RelativeName ParseDuration serve p r zone st =
  (match answer serve st (lookupRequest RelativeName p r zone) with
   | inl e => ([], Some e)
   | inr response =>
       (map (fun rec => V2.toLibdnsRecord RelativeName ParseDuration rec zone)
          (Records response), None)
   end,
   exchanged serve st (lookupRequest RelativeName p r zone)).
Proof.
  unfold V2.getMatchingRecord, bind. rewrite MakeApiRequest_run.
  fold (lookupRequest RelativeName p r zone).
  destruct (answer serve st _); reflexivity.
Qed.

Lemma AppendRecords_loop_cons zone record rest acc (st : State World) :
  V2.AppendRecords_loop RelativeName ParseDuration serve p zone (record :: rest) acc st =
  let req := createRequest RelativeName p record zone in
  let st1 := exchanged serve st req in
  match answer serve st req with
  | inl e => ((acc, Some e), st1)
  | inr response =>
      if String.eqb (Status response) "SUCCESS"
      then
        let lreq := lookupRequest RelativeName p (floorTTL record) zone in
        V2.AppendRecords_loop RelativeName ParseDuration serve p zone rest
          (acc ++ [recoverID (floorTTL record) (answer serve st1 lreq)])
          (exchanged serve st1 lreq)
      else ((acc, Some (InvalidResponseStatus (Status response))), st1)
  end.
Proof.
  cbn [V2.AppendRecords_loop]. unfold bind. rewrite MakeApiRequest_run.
  fold (createRequest RelativeName p record zone). cbn zeta.
  destruct (answer serve st (createRequest RelativeName p record zone)) as [e|response]; [reflexivity|].
  destruct (String.eqb (Status response) "SUCCESS"); [|reflexivity].
  cbn [negb]. rewrite getMatchingRecord_run. unfold ret.
  f_equal. f_equal. f_equal. unfold recoverID.
  destruct (answer serve _ _) as [e|lr]; [reflexivity|].
  destruct (Records lr) as [|c [|c2 cs]]; reflexivity.
Qed.

Lemma payload_ttl_floor r zone :
  pTTL (V2.payloadOf RelativeName p (floorTTL r) zone) = expectedTTL r.
Proof.
  unfold V2.payloadOf, floorTTL, expectedTTL. cbn [pTTL].
  destruct (Z.quot (libdns.TTL r) Go.Second <? 600) eqn:E; reflexivity.
Qed.

Lemma createdFrom_floor r : createdFrom r (floorTTL r).
Proof.
  unfold createdFrom, floorTTL.
  destruct (_ <? _); repeat split; reflexivity.
Qed.

Lemma createdFrom_recoverID r c out : createdFrom r c -> createdFrom r (recoverID c out).
Proof.
  unfold recoverID. destruct out as [e|response]; [tauto|].
  destruct (Records response) as [|w [|w2 ws]]; tauto.
Qed.

Lemma isCreate_create record zone out : isCreate (createRequest RelativeName p record zone, out) = true.
Proof. reflexivity. Qed.

Lemma isCreate_lookup r zone out : isCreate (lookupRequest RelativeName p r zone, out) = false.
Proof. reflexivity. Qed.

(** What one run of the AppendRecords loop does, as one invariant: the
    exchanges it adds, the records it adds to the accumulator, and how
    both relate to the input. *)
Lemma AppendRecords_loop_spec zone records :
  forall acc (st : State World),
  exists tr cs,
    let run := V2.AppendRecords_loop RelativeName ParseDuration serve p zone records acc st in
    trace (snd run) = trace st ++ tr /\
    fst (fst run) = acc ++ cs /\
    Forall2 createdFrom (firstn (length cs) records) cs /\
    length (successfulCreates tr) = length cs /\
    length (List.filter isCreate tr) =
      (match snd (fst run) with None => length cs | Some _ => S (length cs) end) /\
    map pTTL (payloadsOf tr) =
      map expectedTTL (firstn (length (List.filter isCreate tr)) records) /\
    match snd (fst run) with
    | None => length cs = length records
    | Some _ => (length cs < length records)%nat
    end.
Proof.
  induction records as [|record rest IH]; intros acc st.
  - exists [], []. cbn. rewrite !app_nil_r. repeat split; constructor.
  - rewrite AppendRecords_loop_cons. cbn zeta.
    set (req := createRequest RelativeName p record zone).
    destruct (answer serve st req) as [e|response] eqn:Hans.
    + exists [(req, inl e)], []. cbn [fst snd length firstn].
      rewrite trace_exchanged, Hans, app_nil_r.
      replace (successfulCreates [(req, inl e)]) with (@nil (Request * Outcome))
        by reflexivity.
      replace (List.filter isCreate [(req, inl e)]) with [(req, @inl error Response e)]
        by reflexivity.
      unfold req, createRequest; cbn [length firstn map payloadsOf fst body].
      rewrite payload_ttl_floor.
      repeat split; [constructor | lia].
    + destruct (String.eqb (Status response) "SUCCESS") eqn:Hst.
      * set (lreq := lookupRequest RelativeName p (floorTTL record) zone).
        set (st1 := exchanged serve st req).
        set (rec' := recoverID (floorTTL record) (answer serve st1 lreq)).
        assert (Hrec : createdFrom record rec')
          by apply createdFrom_recoverID, createdFrom_floor.
        destruct (IH (acc ++ [rec']) (exchanged serve st1 lreq))
          as (tr & cs & Htr & Hres & Hall & Hsucc & Hcre & Hpay & Herr).
        cbn zeta in *.
        exists ((req, inr response) :: (lreq, answer serve st1 lreq) :: tr), (rec' :: cs).
        assert (Hs1 : successfulCreates ((req, inr response) :: (lreq, answer serve st1 lreq) :: tr)
                      = (req, inr response) :: successfulCreates tr).
        { unfold successfulCreates. cbn [List.filter].
          replace (isCreate (req, inr response) && succeeded (req, inr response)) with true.
          replace (isCreate (lreq, answer serve st1 lreq)) with false by reflexivity.
          reflexivity. }
        assert (Hc1 : List.filter isCreate ((req, inr response) :: (lreq, answer serve st1 lreq) :: tr)
                      = (req, inr response) :: List.filter isCreate tr) by reflexivity.
        rewrite Hs1, Hc1.
        split. { rewrite Htr, !trace_exchanged. subst st1.
                 rewrite trace_exchanged, Hans, <- !app_assoc. reflexivity. }
        split. { rewrite Hres, <- app_assoc. reflexivity. }
        split. { cbn. constructor; assumption. }
        split. { cbn [length]. lia. }
        split. { cbn [length]. rewrite Hcre. destruct (snd (fst _)); reflexivity. }
        split. { unfold req, createRequest; cbn [length firstn map payloadsOf fst body].
                 replace (body lreq) with (BodyCredentials (getCredentials p)) by reflexivity.
                 cbn [map]. rewrite payload_ttl_floor. f_equal. exact Hpay. }
        cbn [length]. destruct (snd (fst _)); lia.
      * exists [(req, inr response)], []. cbn [fst snd length firstn].
        rewrite trace_exchanged, Hans, app_nil_r.
        assert (Hsc : successfulCreates [(req, inr response)] = []).
        { unfold successfulCreates. cbn [List.filter]. unfold succeeded at 1. cbn [snd].
          rewrite Hst, andb_false_r. reflexivity. }
        rewrite Hsc.
        replace (List.filter isCreate [(req, inr response)])
          with [(req, @inr error Response response)] by reflexivity.
        unfold req, createRequest; cbn [length firstn map payloadsOf fst body].
        rewrite payload_ttl_floor.
        repeat split; [constructor | lia].
Qed.

Lemma updateRecords_loop_cons zone record rest acc (st : State World) :
  V2.updateRecords_loop RelativeName serve p zone (record :: rest) acc st =
  let req := editRequest RelativeName p record zone in
  let st1 := exchanged serve st req in
  match answer serve st req with
  | inl e => (([], Some e), st1)
  | inr response =>
      if String.eqb (Status response) "SUCCESS"
      then V2.updateRecords_loop RelativeName serve p zone rest (acc ++ [floorTTL record]) st1
      else (([], None), st1)
  end.
Proof.
  cbn [V2.updateRecords_loop]. unfold bind. rewrite MakeApiRequest_run.
  cbn [libdns.ID]. 
  replace (libdns.ID (floorTTL record)) with (libdns.ID record)
    by (unfold floorTTL; destruct (_ <? _); reflexivity).
  fold (editRequest RelativeName p record zone). cbn zeta.
  destruct (answer serve st (editRequest RelativeName p record zone)) as [e|response]; [reflexivity|].
  destruct (String.eqb (Status response) "SUCCESS"); reflexivity.
Qed.

(** One run of the updateRecords loop: one edit request per record, in
    input order, up to and including the first that does not succeed. *)
Lemma updateRecords_loop_spec zone records :
  forall acc (st : State World),
  exists tr,
    let run := V2.updateRecords_loop RelativeName serve p zone records acc st in
    trace (snd run) = trace st ++ tr /\
    map fst tr = map (fun r => editRequest RelativeName p r zone) (firstn (length tr) records) /\
    map pTTL (payloadsOf tr) = map expectedTTL (firstn (length tr) records) /\
    (length tr <= length records)%nat /\
    (records <> [] -> tr <> []) /\
    (forallb succeeded tr = true ->
       length tr = length records /\
       fst run = (acc ++ map floorTTL records, None)).
Proof.
  induction records as [|record rest IH]; intros acc st.
  - exists []. cbn. rewrite !app_nil_r. repeat split; (congruence || lia).
  - rewrite updateRecords_loop_cons. cbn zeta.
    set (req := editRequest RelativeName p record zone).
    assert (Hone : forall out : Outcome,
      map pTTL (payloadsOf [(req, out)]) = map expectedTTL (firstn 1 (record :: rest))).
    { intros out. unfold req, editRequest. cbn [payloadsOf fst body map firstn].
      rewrite payload_ttl_floor. reflexivity. }
    destruct (answer serve st req) as [e|response] eqn:Hans.
    + exists [(req, inl e)]. cbn [fst snd length firstn map].
      rewrite trace_exchanged, Hans.
      repeat split; try congruence; try (cbn; lia); try apply Hone;
        match goal with
        | H : forallb _ _ = true |- _ => cbn in H; discriminate
        end.
    + destruct (String.eqb (Status response) "SUCCESS") eqn:Hst.
      * destruct (IH (acc ++ [floorTTL record]) (exchanged serve st req))
          as (tr & Htr & Hreq & Hpay & Hlen & Hne & Hok).
        cbn zeta in *.
        exists ((req, inr response) :: tr).
        split. { rewrite Htr, trace_exchanged, Hans, <- app_assoc. reflexivity. }
        split. { cbn [length firstn map fst]. rewrite <- Hreq. reflexivity. }
        split. { unfold req, editRequest; cbn [length firstn map payloadsOf fst body].
                 rewrite payload_ttl_floor, <- Hpay. reflexivity. }
        split. { cbn [length]. lia. }
        split. { congruence. }
        intros Hall. cbn [forallb] in Hall. apply andb_prop in Hall as [_ Hall].
        destruct (Hok Hall) as [Hl Hr]. cbn [length map].
        rewrite Hr, <- app_assoc. split; [lia | reflexivity].
      * exists [(req, inr response)]. cbn [fst snd length firstn map].
        rewrite trace_exchanged, Hans.
        repeat split; try congruence; try (cbn; lia); try apply Hone;
          match goal with
          | H : forallb _ _ = true |- _ =>
              cbn in H; unfold succeeded in H; cbn in H; rewrite Hst in H; discriminate
          end.
Qed.

Lemma expectedTTL_spec r :
  (Z.quot (libdns.TTL r) Go.Second < 600 -> expectedTTL r = "600") /\
  (600 <= Z.quot (libdns.TTL r) Go.Second ->
   expectedTTL r = Go.Itoa (Z.quot (libdns.TTL r) Go.Second)).
Proof.
  unfold expectedTTL.
  destruct (Z.ltb_spec (Z.quot (libdns.TTL r) Go.Second) 600); split; intros; (reflexivity || lia).
Qed.

Lemma floorTTL_spec r :
  (Z.quot (libdns.TTL r) Go.Second < 600 -> libdns.TTL (floorTTL r) = 600 * Go.Second) /\
  (600 <= Z.quot (libdns.TTL r) Go.Second -> libdns.TTL (floorTTL r) = libdns.TTL r).
Proof.
  unfold floorTTL.
  destruct (Z.ltb_spec (Z.quot (libdns.TTL r) Go.Second) 600); split; intros; (reflexivity || lia).
Qed.

(** C5. For every record passed to AppendRecords or to updateRecords (the
    update path), the create or edit body sent for it carries ttl "600" when
    the requested TTL is below 600 seconds and the requested whole seconds
    otherwise: the ttl fields of the bodies a call sends are, in order, the
    expected ones of the first [k] input records, where [k] counts the
    requests made (all of the input when AppendRecords returns no error,
    and at least one when there is any input). *)
Theorem ttl_floor_on_the_wire zone records (st : State World) :
  (exists tr,
     let run := V2.AppendRecords RelativeName ParseDuration serve p zone records st in
     let k := length (List.filter isCreate tr) in
     trace (snd run) = trace st ++ tr /\
     map pTTL (payloadsOf tr) = map expectedTTL (firstn k records) /\
     (snd (fst run) = None -> k = length records) /\
     (records <> [] -> (1 <= k)%nat)) /\
  (exists tr,
     let run := V2.updateRecords RelativeName serve p zone records st in
     let k := length tr in
     trace (snd run) = trace st ++ tr /\
     map pTTL (payloadsOf tr) = map expectedTTL (firstn k records) /\
     (forallb succeeded tr = true -> k = length records) /\
     (records <> [] -> (1 <= k)%nat)) /\
  (forall r,
     (Z.quot (libdns.TTL r) Go.Second < 600 -> expectedTTL r = "600") /\
     (600 <= Z.quot (libdns.TTL r) Go.Second ->
      expectedTTL r = Go.Itoa (Z.quot (libdns.TTL r) Go.Second))).
Proof.
  split; [|split; [|exact expectedTTL_spec]].
  - destruct (AppendRecords_loop_spec zone records [] st)
      as (tr & cs & Htr & Hres & Hall & Hsucc & Hcre & Hpay & Herr).
    exists tr. cbn zeta in *. unfold V2.AppendRecords.
    split; [exact Htr|]. split; [exact Hpay|]. rewrite Hcre. split.
    + intros Hnone. rewrite Hnone in *. exact Herr.
    + intros Hne. destruct (snd (fst _)); [lia|].
      destruct records; [congruence|]. cbn [length] in Herr. lia.
  - destruct (updateRecords_loop_spec zone records [] st)
      as (tr & Htr & Hreq & Hpay & Hlen & Hne & Hok).
    exists tr. cbn zeta in *. unfold V2.updateRecords.
    split; [exact Htr|]. split; [exact Hpay|]. split.
    + intros Hall. apply (Hok Hall).
    + intros Hrec. specialize (Hne Hrec). destruct tr; [congruence|]. cbn. lia.
Qed.

(** C10. Whenever AppendRecords succeeds, every returned record whose
    requested TTL was below 600 seconds reports a TTL of exactly 600
    seconds; a TTL of at least 600 seconds is reported as requested. *)
Theorem AppendRecords_reports_floored_ttl zone records (st st' : State World) created :
  V2.AppendRecords RelativeName ParseDuration serve p zone records st
    = ((created, None), st') ->
  Forall2
    (fun r c =>
       (Z.quot (libdns.TTL r) Go.Second < 600 -> libdns.TTL c = 600 * Go.Second) /\
       (600 <= Z.quot (libdns.TTL r) Go.Second -> libdns.TTL c = libdns.TTL r))
    records created.
Proof.
  intros Hrun.
  destruct (AppendRecords_loop_spec zone records [] st)
    as (tr & cs & _ & Hres & Hall & _ & _ & _ & Herr).
  cbn zeta in *. unfold V2.AppendRecords in Hrun. rewrite Hrun in *.
  cbn [fst snd app] in *. subst cs.
  rewrite Herr, firstn_all in Hall.
  eapply Forall2_impl; [exact Hall|].
  intros r c (_ & _ & _ & Httl). rewrite Httl. apply floorTTL_spec.
Qed.

(** The second iteration's AppendRecords returns, with the error, the
    records created before the failing create. *)
Lemma V2_AppendRecords_aborts :
  AbortsWithPartialResult (V2.AppendRecords RelativeName ParseDuration serve p).
Proof.
  intros zone records st created e st' Hrun.
  destruct (AppendRecords_loop_spec zone records [] st)
    as (tr & cs & Htr & Hres & Hall & Hsucc & Hcre & _ & Herr).
  cbn zeta in *. unfold V2.AppendRecords in Hrun. rewrite Hrun in *.
  cbn [fst snd app] in *. subst cs.
  exists tr. rewrite Hsucc. repeat split; assumption.
Qed.

End V2Facts.

(** ** The first iteration: AppendRecords *)

Section V1Facts.

Variable RelativeName : string -> string -> string.
Variable ParseDuration : string -> option Z.
Context {World : Type}.
Variable serve : Request -> World -> Outcome * World.
Variable p : Provider.

Lemma V1_AppendRecords_loop_cons zone record rest acc (st : State World) :
  V1.AppendRecords_loop RelativeName serve p zone (record :: rest) acc st =
  let req := createRequest1 RelativeName p record zone in
  let st1 := exchanged serve st req in
  match answer serve st req with
  | inl e => (([], Some e), st1)
  | inr response =>
      if String.eqb (Status response) "SUCCESS"
      then V1.AppendRecords_loop RelativeName serve p zone rest (acc ++ [floorTTL record]) st1
      else (([], Some (InvalidResponseStatus (Status response))), st1)
  end.
Proof.
  cbn [V1.AppendRecords_loop]. unfold bind. rewrite MakeApiRequest_run.
  fold (createRequest1 RelativeName p record zone). cbn zeta.
  destruct (answer serve st (createRequest1 RelativeName p record zone)) as [e|response]; [reflexivity|].
  destruct (String.eqb (Status response) "SUCCESS"); reflexivity.
Qed.

(** One run of the first iteration's AppendRecords loop: it stops at the
    first create that does not succeed, and then returns nil. *)
Lemma V1_AppendRecords_loop_spec zone records :
  forall acc (st : State World),
  exists tr,
    let run := V1.AppendRecords_loop RelativeName serve p zone records acc st in
    trace (snd run) = trace st ++ tr /\
    match snd (fst run) with
    | Some _ =>
        fst (fst run) = [] /\
        length (List.filter isCreate tr) = S (length (successfulCreates tr)) /\
        (length (successfulCreates tr) < length records)%nat
    | None =>
        fst (fst run) = acc ++ map floorTTL records /\
        length (successfulCreates tr) = length records
    end.
Proof.
  induction records as [|record rest IH]; intros acc st.
  - exists []. cbn. rewrite !app_nil_r. repeat split.
  - rewrite V1_AppendRecords_loop_cons. cbn zeta.
    set (req := createRequest1 RelativeName p record zone).
    destruct (answer serve st req) as [e|response] eqn:Hans.
    + exists [(req, inl e)]. cbn [fst snd]. rewrite trace_exchanged, Hans.
      replace (successfulCreates [(req, inl e)]) with (@nil (Request * Outcome))
        by reflexivity.
      replace (List.filter isCreate [(req, inl e)]) with [(req, @inl error Response e)]
        by reflexivity.
      cbn [length]. repeat split. lia.
    + destruct (String.eqb (Status response) "SUCCESS") eqn:Hst.
      * destruct (IH (acc ++ [floorTTL record]) (exchanged serve st req))
          as (tr & Htr & Hres).
        cbn zeta in *.
        exists ((req, inr response) :: tr).
        assert (Hs1 : successfulCreates ((req, inr response) :: tr)
                      = (req, inr response) :: successfulCreates tr).
        { unfold successfulCreates. cbn [List.filter].
          replace (isCreate (req, inr response) && succeeded (req, inr response)) with true.
          reflexivity. }
        assert (Hc1 : List.filter isCreate ((req, inr response) :: tr)
                      = (req, inr response) :: List.filter isCreate tr) by reflexivity.
        rewrite Hs1, Hc1.
        split. { rewrite Htr, trace_exchanged, Hans, <- app_assoc. reflexivity. }
        destruct (snd (fst _)).
        -- destruct Hres as (H1 & H2 & H3). cbn [length]. repeat split; (assumption || lia).
        -- destruct Hres as (H1 & H2). cbn [length map].
           rewrite H1, <- app_assoc. split; [reflexivity | lia].
      * exists [(req, inr response)].
        assert (Hsc : successfulCreates [(req, inr response)] = []).
        { unfold successfulCreates. cbn [List.filter]. unfold succeeded at 1. cbn [snd].
          rewrite Hst, andb_false_r. reflexivity. }
        cbn [fst snd]. rewrite trace_exchanged, Hans, Hsc.
        replace (List.filter isCreate [(req, inr response)])
          with [(req, @inr error Response response)] by reflexivity.
        cbn [length]. repeat split. lia.
Qed.

End V1Facts.

(** C8 (amended). When AppendRecords meets its first failing create, it
    makes no further create request.  The second iteration then returns
    exactly the records created before the failure together with the
    error; the first iteration returns no record (nil) together with the
    error. *)
Theorem AppendRecords_aborts_on_first_failure
  (RelativeName : string -> string -> string) (ParseDuration : string -> option Z)
  (World : Type) (serve : Request -> World -> Outcome * World) (p : Provider) :
  AbortsWithPartialResult (V2.AppendRecords RelativeName ParseDuration serve p) /\
  (forall zone records st created e st',
     V1.AppendRecords RelativeName serve p zone records st = ((created, Some e), st') ->
     created = [] /\
     exists tr,
       trace st' = trace st ++ tr /\
       length (List.filter isCreate tr) = S (length (successfulCreates tr)) /\
       (length (successfulCreates tr) < length records)%nat).
Proof.
  split; [apply V2_AppendRecords_aborts|].
  intros zone records st created e st' Hrun.
  destruct (V1_AppendRecords_loop_spec RelativeName serve p zone records [] st)
    as (tr & Htr & Hres).
  cbn zeta in *. unfold V1.AppendRecords in Hrun. rewrite Hrun in *.
  cbn [fst snd] in *. destruct Hres as (H1 & H2 & H3).
  split; [exact H1|]. exists tr. repeat split; assumption.
Qed.

(** ** The second iteration: SetRecords *)

Section V2SetFacts.

Variable RelativeName : string -> string -> string.
Variable ParseDuration : string -> option Z.
Context {World : Type}.
Variable serve : Request -> World -> Outcome * World.
Variable p : Provider.

Lemma toLibdnsRecord_ID rec zone :
  libdns.ID (V2.toLibdnsRecord RelativeName ParseDuration rec zone) = wID rec.
Proof. reflexivity. Qed.

Lemma SetRecords_classify_cons zone r rest updates creates (st : State World) :
  V2.SetRecords_classify RelativeName ParseDuration serve p zone (r :: rest) updates creates st =
  if String.eqb (libdns.ID r) ""
  then
    let lreq := lookupRequest RelativeName p r zone in
    let st1 := exchanged serve st lreq in
    match answer serve st lreq with
    | inl e => (inl e, st1)
    | inr response =>
        match Records response with
        | [] =>
            V2.SetRecords_classify RelativeName ParseDuration serve p zone rest
              updates (creates ++ [r]) st1
        | [m] =>
            V2.SetRecords_classify RelativeName ParseDuration serve p zone rest
              (updates ++ [libdns.withID r (wID m)]) creates st1
        | _ :: _ :: _ => (inl (MoreThanOneRecord r), st1)
        end
    end
  else
    V2.SetRecords_classify RelativeName ParseDuration serve p zone rest
      (updates ++ [r]) creates st.
Proof.
  cbn [V2.SetRecords_classify].
  destruct (String.eqb (libdns.ID r) ""); [|reflexivity].
  unfold bind. rewrite getMatchingRecord_run. cbn zeta.
  destruct (answer serve st _) as [e|response]; [reflexivity|].
  destruct (Records response) as [|m [|m2 ms]]; reflexivity.
Qed.

(** The first loop of SetRecords over a concatenation: the prefix first,
    then the rest from where the prefix ended. *)
Lemma SetRecords_classify_app zone pre rest :
  forall updates creates (st : State World),
  V2.SetRecords_classify RelativeName ParseDuration serve p zone (pre ++ rest) updates creates st =
  match V2.SetRecords_classify RelativeName ParseDuration serve p zone pre updates creates st with
  | (inl e, st1) => (inl e, st1)
  | (inr (updates1, creates1), st1) =>
      V2.SetRecords_classify RelativeName ParseDuration serve p zone rest updates1 creates1 st1
  end.
Proof.
  induction pre as [|r pre IH]; intros updates creates st.
  - reflexivity.
  - cbn [app]. rewrite !SetRecords_classify_cons.
    destruct (String.eqb (libdns.ID r) ""); [|apply IH].
    cbn zeta. destruct (answer serve st _) as [e|response]; [reflexivity|].
    destruct (Records response) as [|m [|m2 ms]]; [apply IH | apply IH | reflexivity].
Qed.

(** A first loop that ends without error has routed every input record. *)
Lemma SetRecords_classify_routed zone records :
  forall updates creates (st : State World) updates' creates' st',
  V2.SetRecords_classify RelativeName ParseDuration serve p zone records updates creates st
    = (inr (updates', creates'), st') ->
  exists tr us cs,
    trace st' = trace st ++ tr /\
    updates' = updates ++ us /\
    creates' = creates ++ cs /\
    Routed RelativeName p zone records tr us cs.
Proof.
  induction records as [|r rest IH]; intros updates creates st updates' creates' st' Hrun.
  - cbn in Hrun. unfold ret in Hrun. injection Hrun as -> -> ->.
    exists [], [], []. rewrite !app_nil_r. repeat split. constructor.
  - rewrite SetRecords_classify_cons in Hrun.
    destruct (String.eqb (libdns.ID r) "") eqn:Hid.
    + apply String.eqb_eq in Hid. cbn zeta in Hrun.
      destruct (answer serve st _) as [e|response] eqn:Hans; [discriminate|].
      destruct (Records response) as [|m [|m2 ms]] eqn:Hrec; [| |discriminate].
      * destruct (IH _ _ _ _ _ _ Hrun) as (tr & us & cs & Htr & Hu & Hc & Hrouted).
        exists ((lookupRequest RelativeName p r zone, inr response) :: tr), us, (r :: cs).
        rewrite Htr, trace_exchanged, Hans, <- app_assoc.
        split; [reflexivity|]. split; [exact Hu|].
        split; [rewrite Hc, <- app_assoc; reflexivity|].
        apply Routed_create; assumption.
      * destruct (IH _ _ _ _ _ _ Hrun) as (tr & us & cs & Htr & Hu & Hc & Hrouted).
        exists ((lookupRequest RelativeName p r zone, inr response) :: tr),
          (libdns.withID r (wID m) :: us), cs.
        rewrite Htr, trace_exchanged, Hans, <- app_assoc.
        split; [reflexivity|].
        split; [rewrite Hu, <- app_assoc; reflexivity|].
        split; [exact Hc|].
        apply Routed_update; assumption.
    + apply String.eqb_neq in Hid.
      destruct (IH _ _ _ _ _ _ Hrun) as (tr & us & cs & Htr & Hu & Hc & Hrouted).
      exists tr, (r :: us), cs.
      split; [exact Htr|].
      split; [rewrite Hu, <- app_assoc; reflexivity|].
      split; [exact Hc|].
      apply Routed_by_id; assumption.
Qed.

(** Every exchange of a routing is a lookup of one of the input records. *)
Lemma Routed_lookups zone records tr us cs :
  Routed RelativeName p zone records tr us cs ->
  Forall (fun x => exists r, In r records /\ fst x = lookupRequest RelativeName p r zone) tr.
Proof.
  induction 1 as [|r rest tr us cs Hid _ IH|r rest tr us cs response Hid Hrec _ IH
                  |r rest tr us cs response m Hid Hrec _ IH].
  - constructor.
  - eapply Forall_impl; [exact IH|]. intros x (r' & Hin & Hx). exists r'. split; [right|]; assumption.
  - constructor.
    + exists r. split; [left|]; reflexivity.
    + eapply Forall_impl; [exact IH|]. intros x (r' & Hin & Hx). exists r'. split; [right|]; assumption.
  - constructor.
    + exists r. split; [left|]; reflexivity.
    + eapply Forall_impl; [exact IH|]. intros x (r' & Hin & Hx). exists r'. split; [right|]; assumption.
Qed.

(** C4. When SetRecords reaches an input record without identifier whose
    name+type lookup comes back with more than one record, the call fails
    with the more-than-one-record error for that record, and it has sent
    nothing but lookups: no create and no edit request. *)
Theorem SetRecords_ambiguous_match_fails zone pre r post
  (st st1 : State World) updates creates response :
  V2.SetRecords_classify RelativeName ParseDuration serve p zone pre [] [] st
    = (inr (updates, creates), st1) ->
  libdns.ID r = "" ->
  answer serve st1 (lookupRequest RelativeName p r zone) = inr response ->
  (1 < length (Records response))%nat ->
  exists st2 tr,
    V2.SetRecords RelativeName ParseDuration serve p zone (pre ++ r :: post) st
      = (([], Some (MoreThanOneRecord r)), st2) /\
    trace st2 = trace st ++ tr /\
    Forall
      (fun x => exists r', In r' (pre ++ [r]) /\
                  fst x = lookupRequest RelativeName p r' zone) tr /\
    payloadsOf tr = [].
Proof.
  intros Hpre Hid Hans Hlen.
  destruct (SetRecords_classify_routed _ _ _ _ _ _ _ _ Hpre)
    as (tr & us & cs & Htr & _ & _ & Hrouted).
  set (lreq := lookupRequest RelativeName p r zone) in *.
  exists (exchanged serve st1 lreq), (tr ++ [(lreq, inr response)]).
  assert (Hlook : Forall
      (fun x => exists r', In r' (pre ++ [r]) /\
                  fst x = lookupRequest RelativeName p r' zone)
      (tr ++ [(lreq, inr response)])).
  { apply Forall_app. split.
    - eapply Forall_impl; [apply (Routed_lookups _ _ _ _ _ Hrouted)|].
      intros x (r' & Hin & Hx). exists r'. split; [|exact Hx].
      apply in_or_app. left. exact Hin.
    - constructor; [|constructor]. exists r. split; [|reflexivity].
      apply in_or_app. right. left. reflexivity. }
  split; [|split; [|split; [exact Hlook|]]].
  - unfold V2.SetRecords, bind. rewrite SetRecords_classify_app, Hpre.
    rewrite SetRecords_classify_cons, Hid. cbn [String.eqb]. cbn zeta.
    fold lreq. rewrite Hans.
    destruct (Records response) as [|m [|m2 ms]]; [cbn in Hlen; lia..|reflexivity].
  - rewrite trace_exchanged, Hans, Htr, <- app_assoc. reflexivity.
  - clear -Hlook. induction Hlook as [|[req out] l (r' & _ & Hx) _ IH]; [reflexivity|].
    cbn [fst] in Hx. subst req. exact IH.
Qed.

End V2SetFacts.

(** ** The first iteration: SetRecords *)

Section V1SetFacts.

Lemma existingCoordinates_fold (existing : list libdns.Record) :
  forall (s : gset string) (k : string),
  k ∈ fold_left (fun s r => V1.Add s (V1.getRecordCoordinates r)) existing s <->
  k ∈ s \/ exists e, In e existing /\ V1.getRecordCoordinates e = k.
Proof.
  induction existing as [|e existing IH]; intros s k; cbn [fold_left].
  - split; [auto|]. intros [H|(e & [] & _)]. exact H.
  - rewrite IH. unfold V1.Add. rewrite elem_of_union, elem_of_singleton. split.
    + intros [[->|H]|(e' & Hin & He)].
      * right. exists e. split; [left|]; reflexivity.
      * left. exact H.
      * right. exists e'. split; [right|]; assumption.
    + intros [H|(e' & [->|Hin] & He)].
      * left. right. exact H.
      * left. left. symmetry. exact He.
      * right. exists e'. split; assumption.
Qed.

(** The coordinate set answers as the list test does. *)
Lemma Contains_existingCoordinates existing r :
  V1.Contains (V1.existingCoordinatesOf existing) (V1.getRecordCoordinates r)
  = hasCoordinate existing r.
Proof.
  unfold V1.Contains, V1.existingCoordinatesOf, hasCoordinate.
  apply eq_true_iff_eq. rewrite bool_decide_eq_true, existingCoordinates_fold, existsb_exists.
  unfold V1.NewSet. split.
  - intros [H|(e & Hin & He)]; [apply not_elem_of_empty in H; destruct H|].
    exists e. split; [exact Hin|]. apply String.eqb_eq. exact He.
  - intros (e & Hin & He). right. exists e. split; [exact Hin|].
    apply String.eqb_eq. exact He.
Qed.

Lemma SetRecords_partition_spec (s : gset string) records :
  forall updates creates,
  V1.SetRecords_partition s records updates creates =
  (updates ++ List.filter (fun r => V1.Contains s (V1.getRecordCoordinates r)) records,
   creates ++
     List.filter (fun r => negb (V1.Contains s (V1.getRecordCoordinates r))) records).
Proof.
  induction records as [|r rest IH]; intros updates creates; cbn [V1.SetRecords_partition List.filter].
  - rewrite !app_nil_r. reflexivity.
  - destruct (V1.Contains s (V1.getRecordCoordinates r)); cbn [negb];
      rewrite IH, <- app_assoc; reflexivity.
Qed.

End V1SetFacts.

(** C1 (amended). SetRecords routes each input record as follows.  In the
    first iteration the zone is listed once at the start, and a record goes
    to the update path exactly when some listed record has the same
    "name-type" coordinate string (the names compared as they stand: the
    listed wire name with a dot appended, the input name as given), and to
    the create path otherwise.  In the second iteration nothing is listed: a
    record that carries an identifier goes to the update path as it is; a
    record without one is looked up by name and type when its turn comes,
    and goes to the create path when the lookup finds no record, to the
    update path (with the identifier found) when it finds exactly one. *)
Theorem SetRecords_routing
  (RelativeName : string -> string -> string) (ParseDuration : string -> option Z)
  (World : Type) (serve : Request -> World -> Outcome * World) (p : Provider)
  (zone : string) (records : list libdns.Record) :
  (forall st existing st1,
     V1.GetRecords ParseDuration serve p zone st = ((existing, None), st1) ->
     V1.SetRecords RelativeName ParseDuration serve p zone records st =
     V1.SetRecords_apply RelativeName serve p zone records
       (List.filter (hasCoordinate existing) records)
       (List.filter (fun r => negb (hasCoordinate existing r)) records) st1) /\
  (forall st updates creates st',
     V2.SetRecords_classify RelativeName ParseDuration serve p zone records [] [] st
       = (inr (updates, creates), st') ->
     (exists tr,
        trace st' = trace st ++ tr /\
        Routed RelativeName p zone records tr updates creates) /\
     V2.SetRecords RelativeName ParseDuration serve p zone records st =
     V2.SetRecords_apply RelativeName ParseDuration serve p zone updates creates st').
Proof.
  split.
  - intros st existing st1 Hget.
    unfold V1.SetRecords, bind. rewrite Hget.
    rewrite SetRecords_partition_spec. cbn [app].
    f_equal; apply List.filter_ext; intros r;
      rewrite Contains_existingCoordinates; reflexivity.
  - intros st updates creates st' Hrun. split.
    + destruct (SetRecords_classify_routed _ _ _ _ _ _ _ _ _ _ _ _ Hrun)
        as (tr & us & cs & Htr & Hu & Hc & Hrouted).
      cbn [app] in Hu, Hc. subst us cs. exists tr. split; assumption.
    + unfold V2.SetRecords, bind. rewrite Hrun. reflexivity.
Qed.

(** ** The second iteration: DeleteRecords *)

Section V2DeleteFacts.

Variable RelativeName : string -> string -> string.
Variable ParseDuration : string -> option Z.
Context {World : Type}.
Variable serve : Request -> World -> Outcome * World.
Variable p : Provider.

Lemma DeleteRecords_queue_cons zone r queued deleted (st : State World) :
  V2.DeleteRecords_queue serve p zone (r :: queued) deleted st =
  let req := deleteRequest p zone r in
  match answer serve st req with
  | inl e => ((deleted, Some e), exchanged serve st req)
  | inr _ =>
      V2.DeleteRecords_queue serve p zone queued (deleted ++ [r]) (exchanged serve st req)
  end.
Proof.
  cbn [V2.DeleteRecords_queue]. unfold bind. rewrite MakeApiRequest_run.
  fold (deleteRequest p zone r). cbn zeta.
  destruct (answer serve st _); reflexivity.
Qed.

(** The inner loop only adds: to the deleted records and to the trace. *)
Lemma DeleteRecords_queue_extends zone queued :
  forall deleted (st : State World),
  exists tail tr,
    fst (fst (V2.DeleteRecords_queue serve p zone queued deleted st)) = deleted ++ tail /\
    trace (snd (V2.DeleteRecords_queue serve p zone queued deleted st)) = trace st ++ tr.
Proof.
  induction queued as [|r queued IH]; intros deleted st.
  - exists [], []. cbn. rewrite !app_nil_r. split; reflexivity.
  - rewrite DeleteRecords_queue_cons. cbn zeta.
    destruct (answer serve st _) as [e|response] eqn:Hans.
    + exists [], [(deleteRequest p zone r, inl e)]. cbn [fst snd].
      rewrite trace_exchanged, Hans, app_nil_r. split; reflexivity.
    + destruct (IH (deleted ++ [r]) (exchanged serve st (deleteRequest p zone r)))
        as (tail & tr & Hd & Htr).
      exists (r :: tail), ((deleteRequest p zone r, inr response) :: tr).
      rewrite Hd, Htr, trace_exchanged, Hans, <- !app_assoc. split; reflexivity.
Qed.

(** When no delete round trip fails in transport, the inner loop deletes
    the whole queue, one request per record, in order. *)
Lemma DeleteRecords_queue_all zone queued :
  (forall r w, exists response w', serve (deleteRequest p zone r) w = (inr response, w')) ->
  forall deleted (st : State World),
  exists responses : list Response,
    length responses = length queued /\
    fst (V2.DeleteRecords_queue serve p zone queued deleted st) = (deleted ++ queued, None) /\
    trace (snd (V2.DeleteRecords_queue serve p zone queued deleted st))
      = trace st ++ combine (map (deleteRequest p zone) queued) (map inr responses).
Proof.
  intros Hok. induction queued as [|r queued IH]; intros deleted st.
  - exists []. cbn. rewrite !app_nil_r. repeat split.
  - rewrite DeleteRecords_queue_cons. cbn zeta.
    destruct (Hok r (world st)) as (response & w' & Hserve).
    assert (Hans : answer serve st (deleteRequest p zone r) = inr response)
      by (unfold answer; rewrite Hserve; reflexivity).
    rewrite Hans.
    destruct (IH (deleted ++ [r]) (exchanged serve st (deleteRequest p zone r)))
      as (responses & Hlen & Hres & Htr).
    exists (response :: responses).
    rewrite Hres, Htr, trace_exchanged, Hans, <- !app_assoc. cbn [length].
    repeat split. lia.
Qed.

Lemma DeleteRecords_loop_cons zone record rest deleted (st : State World) :
  V2.DeleteRecords_loop RelativeName ParseDuration serve p zone (record :: rest) deleted st =
  let continue := fun run : list libdns.Record * option error * State World =>
    match run with
    | ((deleted', Some e), st2) => ((deleted', Some e), st2)
    | ((deleted', None), st2) =>
        V2.DeleteRecords_loop RelativeName ParseDuration serve p zone rest deleted' st2
    end in
  if String.eqb (libdns.ID record) ""
  then
    let lreq := lookupRequest RelativeName p record zone in
    match answer serve st lreq with
    | inl e => ((deleted, Some e), exchanged serve st lreq)
    | inr response =>
        continue
          (V2.DeleteRecords_queue serve p zone
             (map (fun rec => V2.toLibdnsRecord RelativeName ParseDuration rec zone)
                (Records response))
             deleted (exchanged serve st lreq))
    end
  else continue (V2.DeleteRecords_queue serve p zone [record] deleted st).
Proof.
  cbn [V2.DeleteRecords_loop]. cbn zeta.
  destruct (String.eqb (libdns.ID record) "").
  - unfold bind at 1. unfold bind at 1. rewrite getMatchingRecord_run.
    destruct (answer serve st _) as [e|response]; [reflexivity|].
    unfold ret at 1. unfold bind.
    destruct (V2.DeleteRecords_queue _ _ _ _ _ _) as [[d [e|]] st2]; reflexivity.
  - unfold bind, ret.
    destruct (V2.DeleteRecords_queue _ _ _ _ _ _) as [[d [e|]] st2]; reflexivity.
Qed.

(** The outer loop over a concatenation: the prefix first, then the rest
    from where the prefix ended. *)
Lemma DeleteRecords_loop_app zone pre rest :
  forall deleted (st : State World),
  V2.DeleteRecords_loop RelativeName ParseDuration serve p zone (pre ++ rest) deleted st =
  match V2.DeleteRecords_loop RelativeName ParseDuration serve p zone pre deleted st with
  | ((deleted', Some e), st1) => ((deleted', Some e), st1)
  | ((deleted', None), st1) =>
      V2.DeleteRecords_loop RelativeName ParseDuration serve p zone rest deleted' st1
  end.
Proof.
  induction pre as [|r pre IH]; intros deleted st.
  - reflexivity.
  - cbn [app]. rewrite !DeleteRecords_loop_cons. cbn zeta.
    destruct (String.eqb (libdns.ID r) "").
    + destruct (answer serve st _) as [e|response]; [reflexivity|].
      destruct (V2.DeleteRecords_queue _ _ _ _ _ _) as [[d [e|]] st2]; [reflexivity|apply IH].
    + destruct (V2.DeleteRecords_queue _ _ _ _ _ _) as [[d [e|]] st2]; [reflexivity|apply IH].
Qed.

Lemma DeleteRecords_loop_extends zone records :
  forall deleted (st : State World),
  exists tail tr,
    fst (fst (V2.DeleteRecords_loop RelativeName ParseDuration serve p zone records deleted st))
      = deleted ++ tail /\
    trace (snd (V2.DeleteRecords_loop RelativeName ParseDuration serve p zone records deleted st))
      = trace st ++ tr.
Proof.
  induction records as [|r records IH]; intros deleted st.
  - exists [], []. cbn. rewrite !app_nil_r. split; reflexivity.
  - rewrite DeleteRecords_loop_cons. cbn zeta.
    assert (Hcont : forall queued st0 tr0,
      trace st0 = trace st ++ tr0 ->
      exists tail tr,
        fst (fst (match V2.DeleteRecords_queue serve p zone queued deleted st0 with
                  | ((deleted', Some e), st2) => ((deleted', Some e), st2)
                  | ((deleted', None), st2) =>
                      V2.DeleteRecords_loop RelativeName ParseDuration serve p zone
                        records deleted' st2
                  end)) = deleted ++ tail /\
        trace (snd (match V2.DeleteRecords_queue serve p zone queued deleted st0 with
                  | ((deleted', Some e), st2) => ((deleted', Some e), st2)
                  | ((deleted', None), st2) =>
                      V2.DeleteRecords_loop RelativeName ParseDuration serve p zone
                        records deleted' st2
                  end)) = trace st ++ tr).
    { intros queued st0 tr0 Hst0.
      destruct (DeleteRecords_queue_extends zone queued deleted st0) as (t1 & tr1 & Hd & Ht).
      destruct (V2.DeleteRecords_queue _ _ _ _ _ _) as [[d [e|]] st2]; cbn [fst snd] in *.
      - exists t1, (tr0 ++ tr1). rewrite Ht, Hst0, <- app_assoc. split; [exact Hd|reflexivity].
      - destruct (IH d st2) as (t2 & tr2 & Hd2 & Ht2).
        exists (t1 ++ t2), (tr0 ++ tr1 ++ tr2).
        rewrite Hd2, Ht2, Hd, Ht, Hst0, <- !app_assoc. split; reflexivity. }
    destruct (String.eqb (libdns.ID r) "").
    + destruct (answer serve st _) as [e|response] eqn:Hans.
      * exists [], [(lookupRequest RelativeName p r zone, inl e)]. cbn [fst snd].
        rewrite trace_exchanged, Hans, app_nil_r. split; reflexivity.
      * eapply Hcont. apply trace_exchanged.
    + apply (Hcont [r] st []). rewrite app_nil_r. reflexivity.
Qed.

(** C9. When DeleteRecords reaches a record without identifier, and no
    delete round trip fails in transport, every record its name+type
    lookup matched is deleted (one delete request per match, by its
    identifier, right after the lookup, each answered) and all of them
    appear, in order, in the returned sequence after the records deleted
    before. *)
Theorem DeleteRecords_deletes_every_match zone pre record rest
  (st st1 : State World) deleted response :
  V2.DeleteRecords RelativeName ParseDuration serve p zone pre st = ((deleted, None), st1) ->
  libdns.ID record = "" ->
  answer serve st1 (lookupRequest RelativeName p record zone) = inr response ->
  (forall r w, exists response' w', serve (deleteRequest p zone r) w = (inr response', w')) ->
  let matches :=
    map (fun rec => V2.toLibdnsRecord RelativeName ParseDuration rec zone)
      (Records response) in
  exists (responses : list Response) tail tr,
    fst (fst (V2.DeleteRecords RelativeName ParseDuration serve p zone
                (pre ++ record :: rest) st))
      = deleted ++ matches ++ tail /\
    length responses = length matches /\
    trace (snd (V2.DeleteRecords RelativeName ParseDuration serve p zone
                  (pre ++ record :: rest) st))
      = trace st1 ++
        (lookupRequest RelativeName p record zone, inr response) ::
        combine (map (deleteRequest p zone) matches) (map inr responses) ++ tr.
Proof.
  intros Hpre Hid Hans Hok matches.
  unfold V2.DeleteRecords in *. rewrite DeleteRecords_loop_app, Hpre.
  rewrite DeleteRecords_loop_cons, Hid. cbn [String.eqb]. cbn zeta. rewrite Hans.
  fold matches.
  set (st2 := exchanged serve st1 (lookupRequest RelativeName p record zone)).
  destruct (DeleteRecords_queue_all zone matches Hok deleted st2)
    as (responses & Hlen & Hres & Htr).
  destruct (V2.DeleteRecords_queue serve p zone matches deleted st2) as [[d err] st3].
  cbn [fst snd] in Hres, Htr. injection Hres as -> ->.
  destruct (DeleteRecords_loop_extends zone rest (deleted ++ matches) st3)
    as (tail & tr & Hd & Ht).
  exists responses, tail, tr. rewrite Hd, Ht, Htr. subst st2.
  rewrite trace_exchanged, Hans, <- !app_assoc. repeat split. exact Hlen.
Qed.

End V2DeleteFacts.

(** ** Root names *)

Section RootNames.

Variable RelativeName : string -> string -> string.
Variable ParseDuration : string -> option Z.
Context {World : Type}.
Variable serve : Request -> World -> Outcome * World.
Variable p : Provider.

Lemma trimmedNameOf_root record zone :
  RelativeName (libdns.Name record) zone = "@" ->
  V2.trimmedNameOf RelativeName (floorTTL record) zone = "".
Proof.
  intros H. unfold V2.trimmedNameOf.
  replace (libdns.Name (floorTTL record)) with (libdns.Name record)
    by (unfold floorTTL; destruct (_ <? _); reflexivity).
  rewrite H. reflexivity.
Qed.

Lemma GetRecords_run zone (st : State World) :
  V2.GetRecords RelativeName ParseDuration serve p zone st =
  let req := mkRequest ("/dns/retrieve/" +:+ V2.LibdnsZoneToPorkbunDomain zone)
               (BodyCredentials (getCredentials p)) in
  (match answer serve st req with
   | inl e => ([], Some e)
   | inr response =>
       if String.eqb (Status response) "SUCCESS"
       then (map (fun rec => V2.toLibdnsRecord RelativeName ParseDuration rec zone)
               (Records response), None)
       else ([], Some (InvalidResponseStatus (Status response)))
   end, exchanged serve st req).
Proof.
  unfold V2.GetRecords, bind. rewrite MakeApiRequest_run. cbn zeta.
  destruct (answer serve st _) as [e|response]; [reflexivity|].
  destruct (String.eqb (Status response) "SUCCESS"); reflexivity.
Qed.

(** The second iteration maps the root through libdns.RelativeName, in
    both directions.  A record whose name RelativeName gives as "@" is
    sent with the wire name "": in the create body of AppendRecords, in the
    edit body of updateRecords, and as the empty last segment of the lookup
    endpoint.  A listed wire record comes back from GetRecords with the name
    RelativeName gives for its wire name and the zone without its trailing
    dot. *)
Lemma root_name_through_RelativeName zone :
  (forall record rest (st : State World),
     RelativeName (libdns.Name record) zone = "@" ->
     (exists pl out tr,
        trace (snd (V2.AppendRecords RelativeName ParseDuration serve p zone
                      (record :: rest) st))
          = trace st ++
            (mkRequest ("/dns/create/" +:+ V2.LibdnsZoneToPorkbunDomain zone)
               (BodyPayload pl), out) :: tr /\
        pName pl = "") /\
     (exists pl out tr,
        trace (snd (V2.updateRecords RelativeName serve p zone (record :: rest) st))
          = trace st ++
            (mkRequest
               ("/dns/edit/" +:+ V2.LibdnsZoneToPorkbunDomain zone +:+ "/"
                  +:+ libdns.ID record)
               (BodyPayload pl), out) :: tr /\
        pName pl = "") /\
     (exists out,
        trace (snd (V2.getMatchingRecord RelativeName ParseDuration serve p record zone st))
          = trace st ++
            [(mkRequest
                ("/dns/retrieveByNameType/" +:+ V2.LibdnsZoneToPorkbunDomain zone
                   +:+ "/" +:+ libdns.Type_ record +:+ "/" +:+ "")
                (BodyCredentials (getCredentials p)), out)])) /\
  (forall (st : State World) response,
     answer serve st
       (mkRequest ("/dns/retrieve/" +:+ V2.LibdnsZoneToPorkbunDomain zone)
          (BodyCredentials (getCredentials p))) = inr response ->
     Status response = "SUCCESS" ->
     fst (V2.GetRecords RelativeName ParseDuration serve p zone st)
       = (map (fun rec => V2.toLibdnsRecord RelativeName ParseDuration rec zone)
            (Records response), None) /\
     forall rec,
       libdns.Name (V2.toLibdnsRecord RelativeName ParseDuration rec zone)
         = RelativeName (wName rec) (V2.LibdnsZoneToPorkbunDomain zone) /\
       (RelativeName (wName rec) (V2.LibdnsZoneToPorkbunDomain zone) = "@" ->
        libdns.Name (V2.toLibdnsRecord RelativeName ParseDuration rec zone) = "@")).
Proof.
  split.
  - intros record rest st Hroot. split; [|split].
    + destruct (AppendRecords_loop_spec RelativeName ParseDuration serve p zone
                  (record :: rest) [] st) as (tr & cs & Htr & _).
      cbn zeta in Htr. unfold V2.AppendRecords.
      rewrite AppendRecords_loop_cons in *. cbn zeta in *.
      set (req := createRequest RelativeName p record zone) in *.
      set (run := match answer serve st req with inl _ => _ | inr _ => _ end) in *.
      assert (Hprefix : exists tr', trace (snd run) = trace st ++ (req, answer serve st req) :: tr').
      { subst run. destruct (answer serve st req) as [e|response] eqn:Hans.
        - exists []. cbn [snd]. rewrite trace_exchanged, Hans. reflexivity.
        - destruct (String.eqb (Status response) "SUCCESS").
          + match goal with
            | |- context [V2.AppendRecords_loop _ _ _ _ _ ?rs ?acc ?s] =>
                destruct (AppendRecords_loop_spec RelativeName ParseDuration serve p zone rs acc s)
                  as (tr2 & cs2 & Htr2 & _)
            end.
            cbn zeta in Htr2. rewrite Htr2, !trace_exchanged, Hans, <- !app_assoc.
            eexists. reflexivity.
          + exists []. cbn [snd]. rewrite trace_exchanged, Hans. reflexivity. }
      destruct Hprefix as (tr' & Hrun).
      exists (V2.payloadOf RelativeName p (floorTTL record) zone), (answer serve st req), tr'.
      split; [exact Hrun|]. cbn [V2.payloadOf pName]. apply trimmedNameOf_root, Hroot.
    + destruct (updateRecords_loop_spec RelativeName serve p zone (record :: rest) [] st)
        as (tr & Htr & Hreq & _ & _ & Hne & _).
      cbn zeta in *. unfold V2.updateRecords.
      destruct tr as [|[req out] tr]; [exfalso; apply Hne; congruence|].
      cbn [length firstn map fst] in Hreq. injection Hreq as Hreq _.
      exists (V2.payloadOf RelativeName p (floorTTL record) zone), out, tr.
      split; [rewrite Htr, Hreq; reflexivity|].
      cbn [V2.payloadOf pName]. apply trimmedNameOf_root, Hroot.
    + rewrite getMatchingRecord_run. cbn [snd]. rewrite trace_exchanged.
      eexists. unfold lookupRequest.
      replace (V2.trimmedNameOf RelativeName record zone) with ""; [reflexivity|].
      unfold V2.trimmedNameOf. rewrite Hroot. reflexivity.
  - intros st response Hans Hstatus. split.
    + rewrite GetRecords_run. cbn zeta. cbn [fst]. rewrite Hans, Hstatus. reflexivity.
    + intros rec. split; [reflexivity|]. intros H. exact H.
Qed.

(** C7 (amended). In the second iteration, with libdns.RelativeName giving
    "@" for the name "@" and for the zone itself: a record with the
    normalized name "@" is sent with the wire name "" by every operation
    that sends a record name (the create body of AppendRecords, the edit
    body of updateRecords, the lookup endpoint of getMatchingRecord), and
    GetRecords returns a listed wire record whose name equals the zone
    (without its trailing dot) with the normalized name "@". *)
Theorem root_name_mapping zone :
  RelativeName "@" zone = "@" ->
  RelativeName (V2.LibdnsZoneToPorkbunDomain zone) (V2.LibdnsZoneToPorkbunDomain zone) = "@" ->
  (forall record rest (st : State World),
     libdns.Name record = "@" ->
     (exists pl out tr,
        trace (snd (V2.AppendRecords RelativeName ParseDuration serve p zone
                      (record :: rest) st))
          = trace st ++
            (mkRequest ("/dns/create/" +:+ V2.LibdnsZoneToPorkbunDomain zone)
               (BodyPayload pl), out) :: tr /\
        pName pl = "") /\
     (exists pl out tr,
        trace (snd (V2.updateRecords RelativeName serve p zone (record :: rest) st))
          = trace st ++
            (mkRequest
               ("/dns/edit/" +:+ V2.LibdnsZoneToPorkbunDomain zone +:+ "/"
                  +:+ libdns.ID record)
               (BodyPayload pl), out) :: tr /\
        pName pl = "") /\
     (exists out,
        trace (snd (V2.getMatchingRecord RelativeName ParseDuration serve p record zone st))
          = trace st ++
            [(mkRequest
                ("/dns/retrieveByNameType/" +:+ V2.LibdnsZoneToPorkbunDomain zone
                   +:+ "/" +:+ libdns.Type_ record +:+ "/" +:+ "")
                (BodyCredentials (getCredentials p)), out)])) /\
  (forall (st : State World) response,
     answer serve st
       (mkRequest ("/dns/retrieve/" +:+ V2.LibdnsZoneToPorkbunDomain zone)
          (BodyCredentials (getCredentials p))) = inr response ->
     Status response = "SUCCESS" ->
     fst (V2.GetRecords RelativeName ParseDuration serve p zone st)
       = (map (fun rec => V2.toLibdnsRecord RelativeName ParseDuration rec zone)
            (Records response), None) /\
     forall rec,
       wName rec = V2.LibdnsZoneToPorkbunDomain zone ->
       libdns.Name (V2.toLibdnsRecord RelativeName ParseDuration rec zone) = "@").
Proof.
  intros Hroot Hzone.
  destruct (root_name_through_RelativeName zone) as [Hsend Hreceive].
  split.
  - intros record rest st Hname. apply Hsend. rewrite Hname. exact Hroot.
  - intros st response Hans Hstatus.
    destruct (Hreceive st response Hans Hstatus) as [Hget Hnames].
    split; [exact Hget|].
    intros rec Hrec. destruct (Hnames rec) as [Hn _]. rewrite Hn, Hrec. exact Hzone.
Qed.

End RootNames.

(** ** libdns.RelativeName, as modelled *)

Lemma substring_0_0 s : substring 0 0 s = "".
Proof. destruct s; reflexivity. Qed.

Lemma substring_whole s : substring 0 (String.length s) s = s.
Proof. induction s as [|c s IH]; [reflexivity|]. cbn. rewrite IH. reflexivity. Qed.

Lemma TrimSuffix_self s : Go.TrimSuffix s s = "".
Proof.
  unfold Go.TrimSuffix, Go.HasSuffix.
  rewrite Nat.leb_refl, Nat.sub_diag, substring_whole, String.eqb_refl.
  cbn [andb]. apply substring_0_0.
Qed.

(** A name that is the zone, trailing dots aside, is the root. *)
Lemma RelativeName_of_zone name zone :
  Go.TrimSuffix name "." = Go.TrimSuffix zone "." ->
  libdns.RelativeName name zone = "@".
Proof.
  intros H. unfold libdns.RelativeName. rewrite H, TrimSuffix_self. reflexivity.
Qed.

(** "@" is the root in every zone. *)
Lemma RelativeName_of_root zone : libdns.RelativeName "@" zone = "@".
Proof.
  unfold libdns.RelativeName.
  replace (Go.TrimSuffix "@" ".") with "@" by reflexivity.
  destruct (Go.TrimSuffix zone ".") as [|c [|c2 z]].
  - reflexivity.
  - destruct c as [[] [] [] [] [] [] [] []]; reflexivity.
  - reflexivity.
Qed.

(** ** The typed translator *)

Lemma splitLoop_length sep cuts :
  forall s, (1 <= length (Go.splitLoop cuts s sep) <= S cuts)%nat.
Proof.
  induction cuts as [|cuts IH]; intros s; cbn [Go.splitLoop].
  - cbn. lia.
  - destruct (index 0 sep s) as [m|]; cbn [length]; [|lia].
    specialize (IH (substring (m + String.length sep)
                      (String.length s - (m + String.length sep)) s)). lia.
Qed.

(** [SplitN(s, sep, 3)] has one, two or three parts. *)
Lemma SplitN_3_length s sep : (1 <= length (Go.SplitN s sep 3) <= 3)%nat.
Proof.
  unfold Go.SplitN.
  pose proof (splitLoop_length sep (Nat.min 2 (String.length s)) s). lia.
Qed.

Section CAAFacts.

Variable Addr : Type.
Variable zeroAddr : Addr.
Variable ParseAddr : string -> option Addr.
Variable RelativeName : string -> string -> string.
Variable ParseDuration : string -> option Z.

(** The CAA case of the translator, by the parts of the content: flags
    that are not a number give the Atoi error; three parts with numeric
    flags give the record, the third part taken whole; one or two parts
    with numeric flags make the translator panic. *)
Lemma CAA_translation_cases record zone ttl :
  V3.Type_ record = "CAA" ->
  ParseDuration (V3.TTL record +:+ "s") = Some ttl ->
  let result := V3.toLibdnsRecord Addr zeroAddr ParseAddr RelativeName ParseDuration record zone in
  match Go.SplitN (V3.Content record) " " 3 with
  | [] => False
  | part0 :: rest =>
      match Go.Atoi part0, rest with
      | (_, Some e), _ =>
          result = V3.Returns (V3.OfCAA Addr (V3.mkCAA "" 0 0 "" ""), Some (AtoiError e part0))
      | (flags, None), tag :: value :: _ =>
          result =
          V3.Returns
            (V3.OfCAA Addr
               (V3.mkCAA (RelativeName (V3.Name record) zone) ttl (Go.uint8 flags) tag value),
             None)
      | (_, None), _ => result = V3.Panics "index out of range"
      end
  end.
Proof.
  intros Htype Httl. cbn zeta. unfold V3.toLibdnsRecord. rewrite Httl, Htype.
  cbn [String.eqb Ascii.eqb Bool.eqb orb andb].
  pose proof (SplitN_3_length (V3.Content record) " ") as Hlen.
  destruct (Go.SplitN (V3.Content record) " " 3) as [|part0 rest]; [cbn in Hlen; lia|].
  unfold V3.at_index. cbn [nth_error].
  destruct (Go.Atoi part0) as [flags [e|]]; [reflexivity|].
  destruct rest as [|tag [|value rest]]; reflexivity.
Qed.

End CAAFacts.

Section TranslatorFacts.

Variable Addr : Type.
Variable zeroAddr : Addr.
Variable ParseAddr : string -> option Addr.
Variable RelativeName : string -> string -> string.
Variable ParseDuration : string -> option Z.

(** C3. The SRV wire record of the table test, translated in zone
    example.com: the code returns an SRV record whose service, transport
    and target are empty and whose weight and port are 0, under the
    relative name of the full wire name; the record the test expects
    (service "imaps", transport "tcp", name "example.com", priority 10,
    weight 1, port 993, target "imap.example.com") is never returned. *)
Theorem SRV_translation_drops_the_content :
  let wire :=
    V3.mkPkbnRecord "1 993 imap.example.com" "_imaps._tcp.example.com" "" "10" "300" "SRV" in
  let result :=
    V3.toLibdnsRecord Addr zeroAddr ParseAddr RelativeName ParseDuration wire "example.com" in
  result =
    match ParseDuration "300s" with
    | Some ttl =>
        V3.Returns
          (V3.OfSRV Addr
             (V3.mkSRV "" "" (RelativeName "_imaps._tcp.example.com" "example.com")
                ttl 10 0 0 ""),
           None)
    | None =>
        V3.Returns (V3.OfRR Addr (V3.mkRR "" 0 "" ""), Some (ParseDurationError "300s"))
    end /\
  forall ttl,
    result <>
    V3.Returns
      (V3.OfSRV Addr (V3.mkSRV "imaps" "tcp" "example.com" ttl 10 1 993 "imap.example.com"),
       None).
Proof.
  cbn zeta. unfold V3.toLibdnsRecord. cbn [V3.TTL V3.Type_ V3.Name V3.Prio V3.Content].
  replace ("300" +:+ "s") with "300s" by reflexivity.
  destruct (ParseDuration "300s") as [ttl|]; split; try reflexivity.
  - intros ttl'. cbn. discriminate.
  - intros ttl'. discriminate.
Qed.

(** C6. CAA content is split on the first two spaces, so the value keeps
    its embedded spaces, and flags that are not a number give an error; but
    content with fewer than three fields and numeric flags makes the
    translator index past the end of the parts: it panics instead of
    returning an error. *)
Theorem CAA_short_content_panics (zone : string) :
  let caa := fun content => V3.mkPkbnRecord content "example.com" "" "0" "600" "CAA" in
  let translate := fun content =>
    V3.toLibdnsRecord Addr zeroAddr ParseAddr RelativeName ParseDuration (caa content) zone in
  match ParseDuration "600s" with
  | Some ttl =>
      translate "0 issuewild letsencrypt.org; validationmethods=dns-01 http-01" =
        V3.Returns
          (V3.OfCAA Addr
             (V3.mkCAA (RelativeName "example.com" zone) ttl 0 "issuewild"
                "letsencrypt.org; validationmethods=dns-01 http-01"),
           None) /\
      translate "critical issue letsencrypt.org" =
        V3.Returns
          (V3.OfCAA Addr (V3.mkCAA "" 0 0 "" ""),
           Some (AtoiError Go.ErrSyntax "critical")) /\
      translate "0 issue" = V3.Panics "index out of range" /\
      translate "0" = V3.Panics "index out of range"
  | None =>
      translate "0 issue" =
        V3.Returns (V3.OfRR Addr (V3.mkRR "" 0 "" ""), Some (ParseDurationError "600s"))
  end.
Proof.
  cbn zeta. unfold V3.toLibdnsRecord. cbn [V3.TTL V3.Type_ V3.Name V3.Prio V3.Content].
  replace ("600" +:+ "s") with "600s" by reflexivity.
  destruct (ParseDuration "600s") as [ttl|]; repeat split; reflexivity.
Qed.

End TranslatorFacts.

(** ** Application failures *)

Section V2Swallow.

Variable RelativeName : string -> string -> string.
Context {World : Type}.
Variable serve : Request -> World -> Outcome * World.
Variable p : Provider.

(** Whatever the server, a ping answered with another status than SUCCESS
    ends CheckCredentials with the empty string and a nil error. *)
Lemma CheckCredentials_drops_failure (st : State World) response :
  answer serve st (mkRequest "/ping" (BodyCredentials (getCredentials p))) = inr response ->
  Status response <> "SUCCESS" ->
  fst (V2.CheckCredentials serve p st) = ("", None).
Proof.
  intros Hans Hstatus. unfold V2.CheckCredentials, bind.
  rewrite MakeApiRequest_run, Hans.
  apply String.eqb_neq in Hstatus. rewrite Hstatus. reflexivity.
Qed.

(** Whatever the server, an edit answered with another status than SUCCESS
    ends updateRecords with nil and a nil error. *)
Lemma updateRecords_drops_failure zone record rest (st : State World) response :
  answer serve st (editRequest RelativeName p record zone) = inr response ->
  Status response <> "SUCCESS" ->
  fst (V2.updateRecords RelativeName serve p zone (record :: rest) st) = ([], None).
Proof.
  intros Hans Hstatus. unfold V2.updateRecords.
  rewrite updateRecords_loop_cons. cbn zeta. rewrite Hans.
  apply String.eqb_neq in Hstatus. rewrite Hstatus. reflexivity.
Qed.

End V2Swallow.

(** ** Runs on the test doubles *)

(** C2. A response whose status is not the success marker is not always
    turned into an error: CheckCredentials and updateRecords return a nil
    error (they return the error variable of the round trip, which is nil
    there), and DeleteRecords never reads the status and reports the record
    as deleted.  The same holds for CheckCredentials, UpdateRecords and
    DeleteRecords of the first iteration.  GetRecords does return an error,
    which names the status and leaves the message out. *)
Theorem application_failure_is_swallowed :
  let failed := Mock.failure "ERROR" "Invalid API key. (002)" in
  let r := Mock.txt "4711" "www" "v" (600 * Go.Second) in
  fst (V2.GetRecords libdns.RelativeName Mock.parseSeconds Mock.scripted Mock.provider
         "example.com." (Mock.start [failed]))
    = ([], Some (InvalidResponseStatus "ERROR")) /\
  errorText (InvalidResponseStatus "ERROR") = Some "Invalid response status ERROR" /\
  fst (V2.CheckCredentials Mock.scripted Mock.provider (Mock.start [failed]))
    = ("", None) /\
  fst (V2.updateRecords libdns.RelativeName Mock.scripted Mock.provider
         "example.com." [r] (Mock.start [failed]))
    = ([], None) /\
  fst (V2.DeleteRecords libdns.RelativeName Mock.parseSeconds Mock.scripted Mock.provider
         "example.com." [r] (Mock.start [failed]))
    = ([r], None) /\
  fst (V1.CheckCredentials Mock.scripted Mock.provider (Mock.start [failed]))
    = ("", None) /\
  fst (V1.UpdateRecords libdns.RelativeName Mock.scripted Mock.provider
         "example.com." [r] (Mock.start [failed]))
    = ([], None) /\
  fst (V1.DeleteRecords libdns.RelativeName Mock.scripted Mock.provider
         "example.com." [r] (Mock.start [failed]))
    = ([r], None).
Proof. cbn zeta. repeat split; vm_compute; reflexivity. Qed.

(** C1, the claim as worded fails on the second iteration: the zone lists
    no record, and still a record that carries an identifier is put on the
    updates, not on the creates. *)
Lemma SetRecords_routes_identified_record_to_update :
  let r := Mock.txt "42" "www" "v" (600 * Go.Second) in
  let st := mkState tt [] in
  fst (V2.GetRecords libdns.RelativeName Mock.parseSeconds Mock.emptyZone Mock.provider
         "example.com." st) = ([], None) /\
  fst (V2.SetRecords_classify libdns.RelativeName Mock.parseSeconds Mock.emptyZone
         Mock.provider "example.com." [r] [] [] st) = inr ([r], []) /\
  ~ RoutesByListing libdns.RelativeName Mock.parseSeconds Mock.emptyZone Mock.provider.
Proof.
  cbn zeta. split; [reflexivity|]. split; [reflexivity|].
  intros H.
  specialize (H "example.com." [Mock.txt "42" "www" "v" (600 * Go.Second)]
                (mkState tt []) [] _ _ _ _ eq_refl eq_refl
                (Mock.txt "42" "www" "v" (600 * Go.Second)) (or_introl eq_refl)).
  destruct H as [_ H]. destruct H.
  intros (e & [] & _).
Qed.

(** The first iteration compares the names as they stand: the zone lists
    www.example.com, the input names the same record "www", and the record
    is put on the creates. *)
Example first_iteration_compares_names_as_given :
  let listed := [libdns.mkRecord "1" "TXT" "www.example.com." "old" (600 * Go.Second) 0] in
  V1.SetRecords_partition (V1.existingCoordinatesOf listed)
    [Mock.txt "" "www" "new" (600 * Go.Second);
     Mock.txt "" "www.example.com." "new" (600 * Go.Second)] [] []
  = ([Mock.txt "" "www.example.com." "new" (600 * Go.Second)],
     [Mock.txt "" "www" "new" (600 * Go.Second)]).
Proof.
  cbn zeta. rewrite SetRecords_partition_spec. cbn [List.filter app].
  rewrite !Contains_existingCoordinates. reflexivity.
Qed.

(** C7, the claim as worded fails on the first iteration: GetRecords
    returns the wire name of the zone itself with a dot appended, not "@",
    and AppendRecords sends the name "@" as it is, not "". *)
Lemma first_iteration_does_not_map_the_root :
  map libdns.Name
    (fst (fst (V1.GetRecords Mock.parseSeconds
                 (Mock.zoneWith [Mock.wireTXT "1" "example.com" "v"]) Mock.provider
                 "example.com." (mkState tt []))))
    = ["example.com."] /\
  map pName
    (payloadsOf
       (trace (snd (V1.AppendRecords libdns.RelativeName Mock.emptyZone Mock.provider
                      "example.com." [Mock.txt "" "@" "v" (600 * Go.Second)]
                      (mkState tt [])))))
    = ["@"].
Proof. split; vm_compute; reflexivity. Qed.

(** C8, the claim as worded fails on the first iteration: the first create
    succeeds, the second fails, and the call returns no record. *)
Lemma first_iteration_drops_created_records :
  let records :=
    [Mock.txt "" "a" "1" (600 * Go.Second); Mock.txt "" "b" "2" (600 * Go.Second)] in
  let run :=
    V1.AppendRecords libdns.RelativeName Mock.scripted Mock.provider "example.com."
      records (Mock.start [Mock.success []; Mock.failure "ERROR" "quota"]) in
  fst run = ([], Some (InvalidResponseStatus "ERROR")) /\
  length (successfulCreates (trace (snd run))) = 1%nat /\
  ~ AbortsWithPartialResult
      (V1.AppendRecords libdns.RelativeName Mock.scripted Mock.provider).
Proof.
  cbn zeta. split; [vm_compute; reflexivity|]. split; [vm_compute; reflexivity|].
  intros H.
  destruct (H "example.com."
              [Mock.txt "" "a" "1" (600 * Go.Second); Mock.txt "" "b" "2" (600 * Go.Second)]
              (Mock.start [Mock.success []; Mock.failure "ERROR" "quota"])
              _ _ _ eq_refl) as (tr & Htr & _ & _ & Hall).
  cbn [trace Mock.start app] in Htr. subst tr.
  vm_compute in Hall. inversion Hall.
Qed.

(** AppendRecords, given a TXT record with a TTL of 60 seconds, sends a
    create request with ttl "600" and reports the record with 600 seconds
    and the identifier the follow-up lookup found. *)
Example AppendRecords_txt_60 :
  let run :=
    V2.AppendRecords libdns.RelativeName Mock.parseSeconds Mock.scripted Mock.provider
      "example.com." [Mock.txt "" "www" "hello" (60 * Go.Second)]
      (Mock.start [Mock.success []; Mock.success [Mock.wireTXT "4711" "www.example.com" "hello"]]) in
  fst run = ([Mock.txt "4711" "www" "hello" (600 * Go.Second)], None) /\
  map fst (trace (snd run)) =
    [mkRequest "/dns/create/example.com"
       (BodyPayload (mkPayload Mock.credentials "hello" "www" "600" "TXT"));
     mkRequest "/dns/retrieveByNameType/example.com/TXT/www"
       (BodyCredentials Mock.credentials)].
Proof. split; vm_compute; reflexivity. Qed.

(** AppendRecords on two records when the second create is refused: the
    first record comes back, with the identifier found, and the error. *)
Example AppendRecords_partial_result :
  let run :=
    V2.AppendRecords libdns.RelativeName Mock.parseSeconds Mock.scripted Mock.provider
      "example.com."
      [Mock.txt "" "a" "1" (600 * Go.Second); Mock.txt "" "b" "2" (600 * Go.Second)]
      (Mock.start [Mock.success []; Mock.success [Mock.wireTXT "7" "a.example.com" "1"];
                   Mock.failure "ERROR" "quota"]) in
  fst run
    = ([Mock.txt "7" "a" "1" (600 * Go.Second)], Some (InvalidResponseStatus "ERROR")) /\
  map (fun x => endpoint (fst x)) (trace (snd run)) =
    ["/dns/create/example.com"; "/dns/retrieveByNameType/example.com/TXT/a";
     "/dns/create/example.com"].
Proof. split; vm_compute; reflexivity. Qed.

(** SetRecords on three records: one with an identifier, one whose lookup
    finds a record, one whose lookup finds none.  The third is created, the
    first two are edited by identifier. *)
Example SetRecords_mixed_input :
  let run :=
    V2.SetRecords libdns.RelativeName Mock.parseSeconds Mock.scripted Mock.provider
      "example.com."
      [Mock.txt "11" "a" "1" (600 * Go.Second); Mock.txt "" "b" "2" (600 * Go.Second);
       Mock.txt "" "c" "3" (600 * Go.Second)]
      (Mock.start
         [Mock.success [Mock.wireTXT "22" "b.example.com" "old"]; Mock.success [];
          Mock.success []; Mock.success [Mock.wireTXT "33" "c.example.com" "3"];
          Mock.success []; Mock.success []]) in
  fst run
    = ([Mock.txt "33" "c" "3" (600 * Go.Second); Mock.txt "11" "a" "1" (600 * Go.Second);
        Mock.txt "22" "b" "2" (600 * Go.Second)], None) /\
  map (fun x => endpoint (fst x)) (trace (snd run)) =
    ["/dns/retrieveByNameType/example.com/TXT/b";
     "/dns/retrieveByNameType/example.com/TXT/c";
     "/dns/create/example.com"; "/dns/retrieveByNameType/example.com/TXT/c";
     "/dns/edit/example.com/11"; "/dns/edit/example.com/22"].
Proof. split; vm_compute; reflexivity. Qed.

(** C10 at a concrete input: a TXT record requested with 60 seconds. *)
Lemma AppendRecords_reports_floored_ttl_witness :
  let records := [Mock.txt "" "www" "hello" (60 * Go.Second)] in
  let created := [Mock.txt "4711" "www" "hello" (600 * Go.Second)] in
  Forall2
    (fun r c =>
       (Z.quot (libdns.TTL r) Go.Second < 600 -> libdns.TTL c = 600 * Go.Second) /\
       (600 <= Z.quot (libdns.TTL r) Go.Second -> libdns.TTL c = libdns.TTL r))
    records created.
Proof.
  cbn zeta.
  apply (AppendRecords_reports_floored_ttl libdns.RelativeName Mock.parseSeconds
           Mock.scripted Mock.provider "example.com."
           [Mock.txt "" "www" "hello" (60 * Go.Second)]
           (Mock.start [Mock.success [];
                        Mock.success [Mock.wireTXT "4711" "www.example.com" "hello"]])
           (mkState []
              [(mkRequest "/dns/create/example.com"
                  (BodyPayload (mkPayload Mock.credentials "hello" "www" "600" "TXT")),
                Mock.success []);
               (mkRequest "/dns/retrieveByNameType/example.com/TXT/www"
                  (BodyCredentials Mock.credentials),
                Mock.success [Mock.wireTXT "4711" "www.example.com" "hello"])])).
  vm_compute. reflexivity.
Defined.

(** C4 at a concrete input: the lookup for an identifier-less TXT record
    comes back with two records. *)
Lemma SetRecords_ambiguous_match_fails_witness :
  let r := Mock.txt "" "www" "new" (600 * Go.Second) in
  let st :=
    Mock.start [Mock.success [Mock.wireTXT "1" "www.example.com" "a";
                              Mock.wireTXT "2" "www.example.com" "b"]] in
  exists st2 tr,
    V2.SetRecords libdns.RelativeName Mock.parseSeconds Mock.scripted Mock.provider
      "example.com." ([] ++ r :: []) st = (([], Some (MoreThanOneRecord r)), st2) /\
    trace st2 = trace st ++ tr /\
    Forall
      (fun x => exists r', In r' ([] ++ [r]) /\
                  fst x = lookupRequest libdns.RelativeName Mock.provider r' "example.com.") tr /\
    payloadsOf tr = [].
Proof.
  cbn zeta.
  apply (SetRecords_ambiguous_match_fails libdns.RelativeName Mock.parseSeconds
           Mock.scripted Mock.provider "example.com." []
           (Mock.txt "" "www" "new" (600 * Go.Second)) []
           (Mock.start [Mock.success [Mock.wireTXT "1" "www.example.com" "a";
                                      Mock.wireTXT "2" "www.example.com" "b"]])
           (Mock.start [Mock.success [Mock.wireTXT "1" "www.example.com" "a";
                                      Mock.wireTXT "2" "www.example.com" "b"]])
           [] []
           (mkResponse "SUCCESS" "" "" [Mock.wireTXT "1" "www.example.com" "a";
                                        Mock.wireTXT "2" "www.example.com" "b"])).
  - reflexivity.
  - reflexivity.
  - reflexivity.
  - cbn. lia.
Defined.

(** C9 at a concrete input: the lookup for an identifier-less TXT record
    matches three records, and all three are deleted and reported. *)
Lemma DeleteRecords_deletes_every_match_witness :
  let listed :=
    [Mock.wireTXT "1" "www.example.com" "a"; Mock.wireTXT "2" "www.example.com" "b";
     Mock.wireTXT "3" "www.example.com" "c"] in
  let record := Mock.txt "" "www" "" 0 in
  let matches :=
    map (fun rec => V2.toLibdnsRecord libdns.RelativeName Mock.parseSeconds rec "example.com.")
      listed in
  let run :=
    V2.DeleteRecords libdns.RelativeName Mock.parseSeconds (Mock.zoneWith listed)
      Mock.provider "example.com." ([] ++ record :: []) (mkState tt []) in
  exists (responses : list Response) tail tr,
    fst (fst run) = [] ++ matches ++ tail /\
    length responses = length matches /\
    trace (snd run)
      = trace (mkState tt []) ++
        (lookupRequest libdns.RelativeName Mock.provider record "example.com.",
         Mock.success listed) ::
        combine (map (deleteRequest Mock.provider "example.com.") matches)
          (map inr responses) ++ tr.
Proof.
  cbn zeta.
  apply (DeleteRecords_deletes_every_match libdns.RelativeName Mock.parseSeconds
           (Mock.zoneWith
              [Mock.wireTXT "1" "www.example.com" "a"; Mock.wireTXT "2" "www.example.com" "b";
               Mock.wireTXT "3" "www.example.com" "c"])
           Mock.provider "example.com." [] (Mock.txt "" "www" "" 0) []
           (mkState tt []) (mkState tt []) []
           (mkResponse "SUCCESS" "" ""
              [Mock.wireTXT "1" "www.example.com" "a"; Mock.wireTXT "2" "www.example.com" "b";
               Mock.wireTXT "3" "www.example.com" "c"])).
  - reflexivity.
  - reflexivity.
  - reflexivity.
  - intros r w. exists (mkResponse "SUCCESS" "" "" []), w. reflexivity.
Defined.

(** DeleteRecords by a lookup that matches 3 records deletes all 3 and
    reports 3 deleted records. *)
Example DeleteRecords_three_matches :
  let listed :=
    [Mock.wireTXT "1" "www.example.com" "a"; Mock.wireTXT "2" "www.example.com" "b";
     Mock.wireTXT "3" "www.example.com" "c"] in
  let run :=
    V2.DeleteRecords libdns.RelativeName Mock.parseSeconds (Mock.zoneWith listed)
      Mock.provider "example.com." [Mock.txt "" "www" "" 0] (mkState tt []) in
  map libdns.ID (fst (fst run)) = ["1"; "2"; "3"] /\
  snd (fst run) = None /\
  map (fun x => endpoint (fst x)) (trace (snd run)) =
    ["/dns/retrieveByNameType/example.com/TXT/www"; "/dns/delete/example.com/1";
     "/dns/delete/example.com/2"; "/dns/delete/example.com/3"].
Proof. repeat split; vm_compute; reflexivity. Qed.

(** C7 at a concrete input: libdns.RelativeName as modelled, in the zone
    example.com. *)
Lemma root_name_mapping_witness :
  let zone := "example.com." in
  let RelativeName := libdns.RelativeName in
  (forall record rest (st : State (list Outcome)),
     libdns.Name record = "@" ->
     (exists pl out tr,
        trace (snd (V2.AppendRecords RelativeName Mock.parseSeconds Mock.scripted
                      Mock.provider zone (record :: rest) st))
          = trace st ++
            (mkRequest ("/dns/create/" +:+ V2.LibdnsZoneToPorkbunDomain zone)
               (BodyPayload pl), out) :: tr /\
        pName pl = "") /\
     (exists pl out tr,
        trace (snd (V2.updateRecords RelativeName Mock.scripted Mock.provider zone
                      (record :: rest) st))
          = trace st ++
            (mkRequest
               ("/dns/edit/" +:+ V2.LibdnsZoneToPorkbunDomain zone +:+ "/"
                  +:+ libdns.ID record)
               (BodyPayload pl), out) :: tr /\
        pName pl = "") /\
     (exists out,
        trace (snd (V2.getMatchingRecord RelativeName Mock.parseSeconds Mock.scripted
                      Mock.provider record zone st))
          = trace st ++
            [(mkRequest
                ("/dns/retrieveByNameType/" +:+ V2.LibdnsZoneToPorkbunDomain zone
                   +:+ "/" +:+ libdns.Type_ record +:+ "/" +:+ "")
                (BodyCredentials (getCredentials Mock.provider)), out)])) /\
  (forall (st : State (list Outcome)) response,
     answer Mock.scripted st
       (mkRequest ("/dns/retrieve/" +:+ V2.LibdnsZoneToPorkbunDomain zone)
          (BodyCredentials (getCredentials Mock.provider))) = inr response ->
     Status response = "SUCCESS" ->
     fst (V2.GetRecords RelativeName Mock.parseSeconds Mock.scripted Mock.provider zone st)
       = (map (fun rec => V2.toLibdnsRecord RelativeName Mock.parseSeconds rec zone)
            (Records response), None) /\
     forall rec,
       wName rec = V2.LibdnsZoneToPorkbunDomain zone ->
       libdns.Name (V2.toLibdnsRecord RelativeName Mock.parseSeconds rec zone) = "@").
Proof.
  cbn zeta.
  apply (root_name_mapping libdns.RelativeName Mock.parseSeconds Mock.scripted
           Mock.provider "example.com."); reflexivity.
Defined.

(** A root record in the zone example.com, both ways. *)
Example root_record_round_trip :
  map pName
    (payloadsOf
       (trace (snd (V2.AppendRecords libdns.RelativeName Mock.parseSeconds Mock.emptyZone
                      Mock.provider "example.com."
                      [Mock.txt "" "@" "v" (600 * Go.Second)] (mkState tt [])))))
    = [""] /\
  map libdns.Name
    (fst (fst (V2.GetRecords libdns.RelativeName Mock.parseSeconds
                 (Mock.zoneWith [Mock.wireTXT "1" "example.com" "v"]) Mock.provider
                 "example.com." (mkState tt []))))
    = ["@"].
Proof. split; vm_compute; reflexivity. Qed.

(** * Further properties of the code *)

(** ** The coordinate set of the first iteration *)


(** ** Coordinates *)

Lemma append_nil_left s : "" +:+ s = s.
Proof. reflexivity. Qed.

Lemma append_cons_left c s1 s2 : String c s1 +:+ s2 = String c (s1 +:+ s2).
Proof. reflexivity. Qed.

Lemma dashFree_no_dash_split t n t' :
  dashFree t = true -> t <> n +:+ "-" +:+ t'.
Proof.
  revert n. induction t as [|c t IH]; intros n Hfree Heq.
  - destruct n; discriminate.
  - cbn [dashFree] in Hfree. apply andb_prop in Hfree as [Hc Hfree].
    destruct n as [|d n]; rewrite ?append_cons_left, ?append_nil_left in Heq;
      injection Heq as Hc' Ht.
    + subst c. discriminate.
    + exact (IH n Hfree Ht).
Qed.

Lemma coordinates_injective_strings n1 :
  forall n2 t1 t2,
  dashFree t1 = true -> dashFree t2 = true ->
  n1 +:+ "-" +:+ t1 = n2 +:+ "-" +:+ t2 -> n1 = n2 /\ t1 = t2.
Proof.
  induction n1 as [|c n1 IH]; intros n2 t1 t2 H1 H2 Heq.
  - destruct n2 as [|d n2]; rewrite ?append_cons_left, ?append_nil_left in Heq.
    + injection Heq as ->. split; reflexivity.
    + injection Heq as _ Heq. exfalso. exact (dashFree_no_dash_split _ _ _ H1 Heq).
  - destruct n2 as [|d n2]; rewrite ?append_cons_left, ?append_nil_left in Heq.
    + injection Heq as _ Heq. exfalso. symmetry in Heq.
      exact (dashFree_no_dash_split _ _ _ H2 Heq).
    + injection Heq as -> Heq. destruct (IH _ _ _ H1 H2 Heq) as [-> ->].
      split; reflexivity.
Qed.

(** X2.  getRecordCoordinates tells records apart by name and type as long
    as the types hold no "-": two such records have the same coordinate
    exactly when they have the same name and the same type.  Without that
    condition it does not: the name "a-b" with type "c" and the name "a"
    with type "b-c" share the coordinate "a-b-c". *)
Theorem coordinates_identify_name_and_type :
  (forall r1 r2,
     dashFree (libdns.Type_ r1) = true -> dashFree (libdns.Type_ r2) = true ->
     (V1.getRecordCoordinates r1 = V1.getRecordCoordinates r2 <->
      libdns.Name r1 = libdns.Name r2 /\ libdns.Type_ r1 = libdns.Type_ r2)) /\
  (forall n t1 t2 r1 r2,
     libdns.Name r1 = n +:+ "-" +:+ t1 -> libdns.Type_ r1 = t2 ->
     libdns.Name r2 = n -> libdns.Type_ r2 = t1 +:+ "-" +:+ t2 ->
     V1.getRecordCoordinates r1 = V1.getRecordCoordinates r2).
Proof.
  split.
  - intros r1 r2 H1 H2. unfold V1.getRecordCoordinates. split.
    + apply coordinates_injective_strings; assumption.
    + intros [-> ->]. reflexivity.
  - intros n t1 t2 r1 r2 Hn1 Ht1 Hn2 Ht2. unfold V1.getRecordCoordinates.
    rewrite Hn1, Ht1, Hn2, Ht2.
    clear. induction n as [|c n IH]; rewrite ?append_cons_left, ?append_nil_left.
    + reflexivity.
    + f_equal. exact IH.
Qed.

(** ** The first iteration: listing and SetRecords *)

Lemma hasCoordinate_name_and_type existing r :
  Forall (fun e => dashFree (libdns.Type_ e) = true) existing ->
  dashFree (libdns.Type_ r) = true ->
  (hasCoordinate existing r = true <->
   exists e, In e existing /\
     libdns.Name e = libdns.Name r /\ libdns.Type_ e = libdns.Type_ r).
Proof.
  intros Hall Hr. unfold hasCoordinate. rewrite existsb_exists.
  rewrite List.Forall_forall in Hall.
  split; intros (e & Hin & He); exists e; (split; [exact Hin|]).
  - apply String.eqb_eq in He. unfold V1.getRecordCoordinates in He.
    apply coordinates_injective_strings in He; [exact He|auto|exact Hr].
  - apply String.eqb_eq. unfold V1.getRecordCoordinates.
    destruct He as [-> ->]. reflexivity.
Qed.

(** X3.  The partition of the first SetRecords, for record types without
    "-": an input record is put on the updates exactly when the listing
    holds a record of the same name and type, on the creates exactly when it
    holds none, and every input record is on one of the two. *)
Theorem SetRecords_partition_by_name_and_type existing records updates creates :
  Forall (fun e => dashFree (libdns.Type_ e) = true) existing ->
  Forall (fun r => dashFree (libdns.Type_ r) = true) records ->
  V1.SetRecords_partition (V1.existingCoordinatesOf existing) records [] []
    = (updates, creates) ->
  (forall r,
     In r updates <->
     In r records /\
     exists e, In e existing /\
       libdns.Name e = libdns.Name r /\ libdns.Type_ e = libdns.Type_ r) /\
  (forall r,
     In r creates <->
     In r records /\
     ~ exists e, In e existing /\
         libdns.Name e = libdns.Name r /\ libdns.Type_ e = libdns.Type_ r) /\
  (length updates + length creates = length records)%nat.
Proof.
  intros Hexisting Hrecords Hrun.
  rewrite SetRecords_partition_spec in Hrun. cbn [app] in Hrun.
  injection Hrun as <- <-.
  rewrite List.Forall_forall in Hrecords.
  repeat apply conj.
  - intros r. rewrite filter_In, Contains_existingCoordinates. split.
    + intros [Hin Hc]. split; [exact Hin|].
      apply hasCoordinate_name_and_type; auto.
    + intros [Hin He]. split; [exact Hin|].
      apply hasCoordinate_name_and_type; auto.
  - intros r. rewrite filter_In, Contains_existingCoordinates, negb_true_iff. split.
    + intros [Hin Hc]. split; [exact Hin|]. intros He.
      apply hasCoordinate_name_and_type in He; auto. congruence.
    + intros [Hin He]. split; [exact Hin|].
      destruct (hasCoordinate existing r) eqn:Hc; [|reflexivity].
      exfalso. apply He. apply hasCoordinate_name_and_type; auto.
  - rewrite List.filter_length. reflexivity.
Qed.

Section V1ListFacts.

Variable RelativeName : string -> string -> string.
Variable ParseDuration : string -> option Z.
Context {World : Type}.
Variable serve : Request -> World -> Outcome * World.
Variable p : Provider.

Lemma V1_GetRecords_loop_all wire :
  forall records,
  Forall (fun w => ParseDuration (wTTL w +:+ "s") <> None) wire ->
  exists listed,
    V1.GetRecords_loop ParseDuration wire records = (records ++ listed, None) /\
    Forall2 (fun w r => exists ttl,
               ParseDuration (wTTL w +:+ "s") = Some ttl /\ r = listed1 w ttl)
      wire listed.
Proof.
  induction wire as [|w wire IH]; intros records Hall.
  - exists []. rewrite app_nil_r. split; [reflexivity|constructor].
  - inversion Hall as [|? ? Hw Hrest]; subst. cbn [V1.GetRecords_loop].
    destruct (ParseDuration (wTTL w +:+ "s")) as [ttl|] eqn:Httl; [|congruence].
    destruct (IH (records ++ [listed1 w ttl]) Hrest) as (listed & Hrun & Hlisted).
    exists (listed1 w ttl :: listed). split.
    + unfold listed1 in *. rewrite Hrun, <- app_assoc. reflexivity.
    + constructor; [|exact Hlisted]. exists ttl. split; [exact Httl || reflexivity|reflexivity].
Qed.

Lemma V1_GetRecords_loop_bad wire :
  forall records,
  Exists (fun w => ParseDuration (wTTL w +:+ "s") = None) wire ->
  exists w, In w wire /\ ParseDuration (wTTL w +:+ "s") = None /\
    V1.GetRecords_loop ParseDuration wire records
      = ([], Some (ParseDurationError (wTTL w +:+ "s"))).
Proof.
  induction wire as [|w wire IH]; intros records Hex.
  - inversion Hex.
  - cbn [V1.GetRecords_loop].
    destruct (ParseDuration (wTTL w +:+ "s")) as [ttl|] eqn:Httl.
    + inversion Hex as [? ? Hw|? ? Hrest]; subst; [congruence|].
      destruct (IH (records ++ [listed1 w ttl]) Hrest) as (w' & Hin & Hbad & Hrun).
      exists w'. split; [right; exact Hin|]. split; [exact Hbad|]. exact Hrun.
    + exists w. split; [left; reflexivity|]. split; [exact Httl|reflexivity].
Qed.

(** X4.  The first iteration's GetRecords is strict about TTLs.  On a
    listing answered with SUCCESS: when every listed TTL parses, the call
    returns one record per wire record, in order, named by the wire name
    with a dot appended and keeping identifier, type and content; when some
    listed TTL does not parse, the call returns no record at all, with the
    parse error of such a TTL. *)
Theorem V1_GetRecords_is_strict zone (st : State World) response :
  answer serve st
    (mkRequest ("dns/retrieve/" +:+ V1.trimZone zone) (BodyCredentials (getCredentials p)))
    = inr response ->
  Status response = "SUCCESS" ->
  (Forall (fun w => ParseDuration (wTTL w +:+ "s") <> None) (Records response) ->
   exists listed,
     fst (V1.GetRecords ParseDuration serve p zone st) = (listed, None) /\
     Forall2 (fun w r => exists ttl,
                ParseDuration (wTTL w +:+ "s") = Some ttl /\ r = listed1 w ttl)
       (Records response) listed) /\
  (Exists (fun w => ParseDuration (wTTL w +:+ "s") = None) (Records response) ->
   exists w, In w (Records response) /\ ParseDuration (wTTL w +:+ "s") = None /\
     fst (V1.GetRecords ParseDuration serve p zone st)
       = ([], Some (ParseDurationError (wTTL w +:+ "s")))).
Proof.
  intros Hans Hstatus.
  assert (Hrun : fst (V1.GetRecords ParseDuration serve p zone st)
                 = V1.GetRecords_loop ParseDuration (Records response) []).
  { unfold V1.GetRecords, bind. rewrite MakeApiRequest_run, Hans, Hstatus. reflexivity. }
  rewrite Hrun. split.
  - intros Hall. destruct (V1_GetRecords_loop_all _ [] Hall) as (listed & Hl & Hf).
    exists listed. split; assumption.
  - intros Hex. apply V1_GetRecords_loop_bad. exact Hex.
Qed.

(** X5.  Whenever the first iteration's SetRecords returns no error, it
    returns its input as it came: the records keep the requested TTL (not
    the floored one that was sent) and get no identifier. *)
Theorem V1_SetRecords_returns_its_input zone records (st st' : State World) results :
  V1.SetRecords RelativeName ParseDuration serve p zone records st
    = ((results, None), st') ->
  results = records.
Proof.
  unfold V1.SetRecords, V1.SetRecords_apply, bind, ret. intros Hrun.
  destruct (V1.GetRecords ParseDuration serve p zone st) as [[existing [e|]] st1];
    [discriminate|].
  destruct (V1.SetRecords_partition _ records [] []) as [updates creates].
  destruct (V1.AppendRecords RelativeName serve p zone creates st1) as [[created [e|]] st2];
    [discriminate|].
  destruct (V1.UpdateRecords RelativeName serve p zone updates st2) as [[updated [e|]] st3];
    [discriminate|].
  injection Hrun as <- _. reflexivity.
Qed.

End V1ListFacts.

(** ** The second iteration: listing *)


Section V2ListFacts.

Variable RelativeName : string -> string -> string.
Variable ParseDuration : string -> option Z.
Context {World : Type}.
Variable serve : Request -> World -> Outcome * World.
Variable p : Provider.


End V2ListFacts.

(** ** The second iteration: more on AppendRecords and updateRecords *)

Section V2AppendMore.

Variable RelativeName : string -> string -> string.
Variable ParseDuration : string -> option Z.
Context {World : Type}.
Variable serve : Request -> World -> Outcome * World.
Variable p : Provider.

Lemma AppendRecords_loop_no_error zone records :
  (forall r w, exists response w',
     serve (createRequest RelativeName p r zone) w = (inr response, w') /\
     Status response = "SUCCESS") ->
  forall acc (st : State World),
  snd (fst (V2.AppendRecords_loop RelativeName ParseDuration serve p zone records acc st))
    = None.
Proof.
  intros Hok. induction records as [|record rest IH]; intros acc st.
  - reflexivity.
  - rewrite AppendRecords_loop_cons. cbn zeta.
    destruct (Hok record (world st)) as (response & w' & Hserve & Hstatus).
    unfold answer at 1. rewrite Hserve. cbn [fst]. rewrite Hstatus. cbn [String.eqb].
    replace (String.eqb "SUCCESS" "SUCCESS") with true by reflexivity.
    apply IH.
Qed.

(** X7.  The follow-up lookup of AppendRecords is best effort: when every
    create request is answered with SUCCESS, AppendRecords returns no
    error and one record per input record, in order (same name, type and
    value, TTL after the floor), whatever the lookups answer, failures
    included; and it returns as many records as creates succeeded. *)
Theorem AppendRecords_lookup_is_best_effort zone records (st : State World) :
  (forall r w, exists response w',
     serve (createRequest RelativeName p r zone) w = (inr response, w') /\
     Status response = "SUCCESS") ->
  exists tr,
    let run := V2.AppendRecords RelativeName ParseDuration serve p zone records st in
    trace (snd run) = trace st ++ tr /\
    snd (fst run) = None /\
    Forall2 createdFrom records (fst (fst run)) /\
    length (successfulCreates tr) = length records.
Proof.
  intros Hok.
  destruct (AppendRecords_loop_spec RelativeName ParseDuration serve p zone records [] st)
    as (tr & cs & Htr & Hres & Hall & Hsucc & _ & _ & Herr).
  cbn zeta in *. unfold V2.AppendRecords.
  rewrite (AppendRecords_loop_no_error zone records Hok [] st) in *.
  exists tr. rewrite Hres. cbn [app].
  rewrite Herr, firstn_all in Hall. rewrite Hsucc, Herr.
  repeat apply conj; (reflexivity || assumption).
Qed.

(** One run of the updateRecords loop, by its requests: one edit per
    record, addressed by the record's identifier, up to and including the
    first that does not succeed; nil unless every edit succeeded. *)
Lemma updateRecords_loop_all_or_nothing zone records :
  forall acc (st : State World),
  exists tr,
    let run := V2.updateRecords_loop RelativeName serve p zone records acc st in
    trace (snd run) = trace st ++ tr /\
    map fst tr = map (fun r => editRequest RelativeName p r zone) (firstn (length tr) records) /\
    (forallb succeeded tr = true ->
     length tr = length records /\ fst run = (acc ++ map floorTTL records, None)) /\
    (forallb succeeded tr = false ->
     fst (fst run) = [] /\ forallb succeeded (List.removelast tr) = true /\
     snd (fst run) = match List.last (map snd tr) (inl (TransportError "")) with
                     | inl e => Some e
                     | inr _ => None
                     end).
Proof.
  induction records as [|record rest IH]; intros acc st.
  - exists []. cbn. rewrite !app_nil_r. repeat apply conj; (reflexivity || discriminate || auto).
  - rewrite updateRecords_loop_cons. cbn zeta.
    set (req := editRequest RelativeName p record zone).
    destruct (answer serve st req) as [e|response] eqn:Hans.
    + exists [(req, inl e)]. cbn [fst snd length firstn map].
      rewrite trace_exchanged, Hans.
      repeat apply conj; try reflexivity; intros H; try discriminate H.
      repeat apply conj; reflexivity.
    + destruct (String.eqb (Status response) "SUCCESS") eqn:Hst.
      * destruct (IH (acc ++ [floorTTL record]) (exchanged serve st req))
          as (tr & Htr & Hreq & Hok & Hbad).
        cbn zeta in *.
        exists ((req, inr response) :: tr).
        assert (Hhead : succeeded (req, inr response) = true) by exact Hst.
        repeat apply conj.
        -- rewrite Htr, trace_exchanged, Hans, <- app_assoc. reflexivity.
        -- cbn [length firstn map fst]. rewrite <- Hreq. reflexivity.
        -- intros Hall. cbn [forallb] in Hall. rewrite Hhead in Hall.
           destruct (Hok Hall) as [Hl Hr]. cbn [length map].
           rewrite Hr, <- app_assoc. split; [lia | reflexivity].
        -- intros Hall. cbn [forallb] in Hall. rewrite Hhead in Hall.
           destruct (Hbad Hall) as (H1 & H2 & H3).
           destruct tr as [|x tr']; [discriminate Hall|].
           repeat apply conj.
           ++ exact H1.
           ++ change (List.removelast ((req, inr response) :: x :: tr'))
                with ((req, @inr error Response response) :: List.removelast (x :: tr')).
              cbn [forallb]. rewrite Hhead. exact H2.
           ++ rewrite H3. reflexivity.
      * exists [(req, inr response)]. cbn [fst snd length firstn map].
        rewrite trace_exchanged, Hans.
        assert (Hhead : succeeded (req, inr response) = false) by exact Hst.
        repeat apply conj; try reflexivity; intros H.
        -- cbn [forallb] in H. rewrite Hhead in H. discriminate H.
        -- repeat apply conj; reflexivity.
Qed.

(** X8.  updateRecords sends one edit request per record, addressed by
    the record's identifier, in input order, and stops after the first edit
    that does not succeed.  Its result is all or nothing: when every edit
    succeeded it returns every input record with the TTL floored and no
    error; otherwise it returns no record, with the transport error when
    the last edit failed in transport and with no error when the last edit
    was refused by the provider. *)
Theorem updateRecords_is_all_or_nothing zone records (st : State World) :
  exists tr,
    let run := V2.updateRecords RelativeName serve p zone records st in
    trace (snd run) = trace st ++ tr /\
    map fst tr = map (fun r => editRequest RelativeName p r zone) (firstn (length tr) records) /\
    (forallb succeeded tr = true ->
     length tr = length records /\ fst run = (map floorTTL records, None)) /\
    (forallb succeeded tr = false ->
     fst (fst run) = [] /\ forallb succeeded (List.removelast tr) = true /\
     snd (fst run) = match List.last (map snd tr) (inl (TransportError "")) with
                     | inl e => Some e
                     | inr _ => None
                     end).
Proof. apply (updateRecords_loop_all_or_nothing zone records [] st). Qed.

End V2AppendMore.

(** ** The second iteration: more on SetRecords *)

Section V2SetMore.

Variable RelativeName : string -> string -> string.
Variable ParseDuration : string -> option Z.
Context {World : Type}.
Variable serve : Request -> World -> Outcome * World.
Variable p : Provider.

(** The first loop of SetRecords sends lookups of input records and
    nothing else, however it ends. *)
Lemma SetRecords_classify_only_lookups zone records :
  forall updates creates (st : State World),
  exists tr,
    trace (snd (V2.SetRecords_classify RelativeName ParseDuration serve p zone records
                  updates creates st)) = trace st ++ tr /\
    Forall (fun x => exists r, In r records /\ fst x = lookupRequest RelativeName p r zone) tr.
Proof.
  induction records as [|r rest IH]; intros updates creates st.
  - exists []. rewrite app_nil_r. split; [reflexivity|constructor].
  - assert (Hstep : forall u c st1 out,
      trace st1 = trace st ++ [(lookupRequest RelativeName p r zone, out)] ->
      exists tr,
        trace (snd (V2.SetRecords_classify RelativeName ParseDuration serve p zone rest u c st1))
          = trace st ++ tr /\
        Forall (fun x => exists r', In r' (r :: rest) /\
                  fst x = lookupRequest RelativeName p r' zone) tr).
    { intros u c st1 out Hst1. destruct (IH u c st1) as (tr & Htr & Hall).
      exists ((lookupRequest RelativeName p r zone, out) :: tr).
      rewrite Htr, Hst1, <- app_assoc. split; [reflexivity|].
      constructor; [exists r; split; [left|]; reflexivity|].
      eapply Forall_impl; [exact Hall|].
      intros x (r' & Hin & Hx). exists r'. split; [right|]; assumption. }
    rewrite SetRecords_classify_cons.
    destruct (String.eqb (libdns.ID r) "").
    + cbn zeta. destruct (answer serve st _) as [e|response] eqn:Hans.
      * exists [(lookupRequest RelativeName p r zone, inl e)]. cbn [snd].
        rewrite trace_exchanged, Hans. split; [reflexivity|].
        constructor; [|constructor]. exists r. split; [left|]; reflexivity.
      * destruct (Records response) as [|m [|m2 ms]].
        -- eapply Hstep. rewrite trace_exchanged, Hans. reflexivity.
        -- eapply Hstep. rewrite trace_exchanged, Hans. reflexivity.
        -- exists [(lookupRequest RelativeName p r zone, inr response)]. cbn [snd].
           rewrite trace_exchanged, Hans. split; [reflexivity|].
           constructor; [|constructor]. exists r. split; [left|]; reflexivity.
    + destruct (IH (updates ++ [r]) creates st) as (tr & Htr & Hall).
      exists tr. split; [exact Htr|].
      eapply Forall_impl; [exact Hall|].
      intros x (r' & Hin & Hx). exists r'. split; [right|]; assumption.
Qed.

Lemma lookups_carry_no_payload zone (records : list libdns.Record) tr :
  Forall (fun x => exists r, In r records /\ fst x = lookupRequest RelativeName p r zone) tr ->
  payloadsOf tr = [].
Proof.
  induction 1 as [|[req out] l (r' & _ & Hx) _ IH]; [reflexivity|].
  cbn [fst] in Hx. subst req. exact IH.
Qed.

(** X9.  SetRecords classifies its whole input before it writes: when
    the classification of some record fails (its lookup fails in transport,
    or finds more than one record), SetRecords returns nil with that error,
    and all it has sent are lookups of input records, no create and no edit
    body. *)
Theorem SetRecords_fails_before_any_write zone records (st st1 : State World) e :
  V2.SetRecords_classify RelativeName ParseDuration serve p zone records [] [] st
    = (inl e, st1) ->
  V2.SetRecords RelativeName ParseDuration serve p zone records st = (([], Some e), st1) /\
  exists tr,
    trace st1 = trace st ++ tr /\
    Forall (fun x => exists r, In r records /\ fst x = lookupRequest RelativeName p r zone) tr /\
    payloadsOf tr = [].
Proof.
  intros Hrun. split.
  - unfold V2.SetRecords, bind. rewrite Hrun. reflexivity.
  - destruct (SetRecords_classify_only_lookups zone records [] [] st) as (tr & Htr & Hall).
    rewrite Hrun in Htr. cbn [snd] in Htr.
    exists tr. repeat apply conj; [exact Htr|exact Hall|].
    exact (lookups_carry_no_payload zone records tr Hall).
Qed.

Lemma Routed_lengths zone records tr updates creates :
  Routed RelativeName p zone records tr updates creates ->
  (length updates + length creates = length records)%nat.
Proof. induction 1; cbn [length]; lia. Qed.

(** X10.  When SetRecords returns no error and every round trip of the
    call came back with SUCCESS, nothing of the input is lost: the result
    holds the created records first (one per record on the creates, TTL
    floored) and then the updated records (the updates with the TTL
    floored), as many records as were given. *)
Theorem SetRecords_complete_on_success zone records (st st' : State World) results tr :
  V2.SetRecords RelativeName ParseDuration serve p zone records st = ((results, None), st') ->
  trace st' = trace st ++ tr ->
  forallb succeeded tr = true ->
  exists updates creates created,
    fst (V2.SetRecords_classify RelativeName ParseDuration serve p zone records [] [] st)
      = inr (updates, creates) /\
    results = created ++ map floorTTL updates /\
    Forall2 createdFrom creates created /\
    length results = length records.
Proof.
  intros Hrun Htrace Hall.
  unfold V2.SetRecords, bind in Hrun.
  destruct (V2.SetRecords_classify RelativeName ParseDuration serve p zone records [] [] st)
    as [[e|[updates creates]] st1] eqn:Hclass; [discriminate|].
  destruct (SetRecords_classify_routed _ _ _ _ _ _ _ _ _ _ _ _ Hclass)
    as (tr1 & us & cs & Htr1 & Hu & Hc & Hrouted).
  cbn [app] in Hu, Hc. subst us cs.
  unfold V2.SetRecords_apply, bind, ret in Hrun.
  destruct (AppendRecords_loop_spec RelativeName ParseDuration serve p zone creates [] st1)
    as (tr2 & cs & Htr2 & Hres & Hcreated & _ & _ & _ & Herr).
  cbn zeta in *. unfold V2.AppendRecords in Hrun.
  destruct (V2.AppendRecords_loop RelativeName ParseDuration serve p zone creates [] st1)
    as [[created [e|]] st2]; [discriminate|].
  cbn [fst snd app] in *. subst cs. rewrite Herr, firstn_all in Hcreated.
  destruct (updateRecords_loop_spec RelativeName serve p zone updates [] st2)
    as (tr3 & Htr3 & _ & _ & _ & _ & Hok).
  cbn zeta in *. unfold V2.updateRecords in Hrun.
  destruct (V2.updateRecords_loop RelativeName serve p zone updates [] st2)
    as [[updated [e|]] st3]; [discriminate|].
  injection Hrun as <- <-. cbn [fst snd] in *.
  assert (Htr : tr = tr1 ++ tr2 ++ tr3).
  { apply (app_inv_head (trace st)). rewrite <- Htrace, Htr3, Htr2, Htr1, <- !app_assoc.
    reflexivity. }
  rewrite Htr, !forallb_app in Hall.
  apply andb_prop in Hall as [_ Hall]. apply andb_prop in Hall as [_ Hall].
  destruct (Hok Hall) as [_ Hupd]. injection Hupd as ->.
  exists updates, creates, created.
  repeat apply conj; try reflexivity; [exact Hcreated|].
  rewrite length_app, length_map.
  pose proof (Routed_lengths _ _ _ _ _ Hrouted). lia.
Qed.

End V2SetMore.

(** ** The second iteration: more on DeleteRecords *)

Section V2DeleteMore.

Variable RelativeName : string -> string -> string.
Variable ParseDuration : string -> option Z.
Context {World : Type}.
Variable serve : Request -> World -> Outcome * World.
Variable p : Provider.

(** The answered delete requests of a trace, oldest first. *)
Lemma DeleteRecords_queue_reports zone queued :
  forall deleted (st : State World),
  exists tail tr,
    fst (fst (V2.DeleteRecords_queue serve p zone queued deleted st)) = deleted ++ tail /\
    trace (snd (V2.DeleteRecords_queue serve p zone queued deleted st)) = trace st ++ tr /\
    map fst (List.filter (fun x => isDelete x && answered x) tr)
      = map (deleteRequest p zone) tail.
Proof.
  induction queued as [|r queued IH]; intros deleted st.
  - exists [], []. cbn. rewrite !app_nil_r. repeat apply conj; reflexivity.
  - rewrite DeleteRecords_queue_cons. cbn zeta.
    destruct (answer serve st _) as [e|response] eqn:Hans.
    + exists [], [(deleteRequest p zone r, inl e)]. cbn [fst snd].
      rewrite trace_exchanged, Hans, app_nil_r. repeat apply conj; reflexivity.
    + destruct (IH (deleted ++ [r]) (exchanged serve st (deleteRequest p zone r)))
        as (tail & tr & Hd & Htr & Hrep).
      exists (r :: tail), ((deleteRequest p zone r, inr response) :: tr).
      rewrite Hd, Htr, trace_exchanged, Hans, <- !app_assoc.
      repeat apply conj; try reflexivity.
      cbn [List.filter].
      replace (isDelete (deleteRequest p zone r, inr response)
               && answered (deleteRequest p zone r, inr response)) with true by reflexivity.
      cbn [map fst]. rewrite Hrep. reflexivity.
Qed.

Lemma DeleteRecords_loop_reports zone records :
  forall deleted (st : State World),
  exists tail tr,
    fst (fst (V2.DeleteRecords_loop RelativeName ParseDuration serve p zone records deleted st))
      = deleted ++ tail /\
    trace (snd (V2.DeleteRecords_loop RelativeName ParseDuration serve p zone records deleted st))
      = trace st ++ tr /\
    map fst (List.filter (fun x => isDelete x && answered x) tr)
      = map (deleteRequest p zone) tail.
Proof.
  induction records as [|r records IH]; intros deleted st.
  - exists [], []. cbn. rewrite !app_nil_r. repeat apply conj; reflexivity.
  - rewrite DeleteRecords_loop_cons. cbn zeta.
    assert (Hcont : forall queued st0 tr0,
      trace st0 = trace st ++ tr0 ->
      List.filter (fun x => isDelete x && answered x) tr0 = [] ->
      exists tail tr,
        fst (fst (match V2.DeleteRecords_queue serve p zone queued deleted st0 with
                  | ((deleted', Some e), st2) => ((deleted', Some e), st2)
                  | ((deleted', None), st2) =>
                      V2.DeleteRecords_loop RelativeName ParseDuration serve p zone
                        records deleted' st2
                  end)) = deleted ++ tail /\
        trace (snd (match V2.DeleteRecords_queue serve p zone queued deleted st0 with
                  | ((deleted', Some e), st2) => ((deleted', Some e), st2)
                  | ((deleted', None), st2) =>
                      V2.DeleteRecords_loop RelativeName ParseDuration serve p zone
                        records deleted' st2
                  end)) = trace st ++ tr /\
        map fst (List.filter (fun x => isDelete x && answered x) tr)
          = map (deleteRequest p zone) tail).
    { intros queued st0 tr0 Hst0 Hnone.
      destruct (DeleteRecords_queue_reports zone queued deleted st0)
        as (t1 & tr1 & Hd & Ht & Hrep).
      destruct (V2.DeleteRecords_queue _ _ _ _ _ _) as [[d [e|]] st2]; cbn [fst snd] in *.
      - exists t1, (tr0 ++ tr1). rewrite Ht, Hst0, <- app_assoc.
        repeat apply conj; try reflexivity; [exact Hd|].
        rewrite List.filter_app, Hnone. exact Hrep.
      - destruct (IH d st2) as (t2 & tr2 & Hd2 & Ht2 & Hrep2).
        exists (t1 ++ t2), (tr0 ++ tr1 ++ tr2).
        rewrite Hd2, Ht2, Hd, Ht, Hst0, <- !app_assoc.
        repeat apply conj; try reflexivity.
        rewrite !List.filter_app, Hnone, !map_app, Hrep, Hrep2. reflexivity. }
    destruct (String.eqb (libdns.ID r) "").
    + destruct (answer serve st _) as [e|response] eqn:Hans.
      * exists [], [(lookupRequest RelativeName p r zone, inl e)]. cbn [fst snd].
        rewrite trace_exchanged, Hans, app_nil_r. repeat apply conj; reflexivity.
      * eapply Hcont; [apply trace_exchanged|reflexivity].
    + apply (Hcont [r] st []); [rewrite app_nil_r|]; reflexivity.
Qed.

(** X11.  DeleteRecords reports exactly what it deleted, however the
    call ends: the returned records are, in order, the records of the
    delete requests that got an answer; every delete request is addressed by
    the identifier of the record it is reported for. *)
Theorem DeleteRecords_reports_answered_deletes zone records (st : State World) :
  exists tr,
    let run := V2.DeleteRecords RelativeName ParseDuration serve p zone records st in
    trace (snd run) = trace st ++ tr /\
    map fst (List.filter (fun x => isDelete x && answered x) tr)
      = map (deleteRequest p zone) (fst (fst run)).
Proof.
  destruct (DeleteRecords_loop_reports zone records [] st) as (tail & tr & Hd & Htr & Hrep).
  exists tr. cbn zeta. unfold V2.DeleteRecords. rewrite Hd. cbn [app].
  split; assumption.
Qed.

(** X12.  A record without identifier whose lookup finds no record is
    skipped: no delete request is sent for it, nothing is reported for it,
    and the call goes on with the next record from the state the lookup
    left. *)
Theorem DeleteRecords_skips_unmatched_record zone record rest (st : State World) response :
  libdns.ID record = "" ->
  answer serve st (lookupRequest RelativeName p record zone) = inr response ->
  Records response = [] ->
  V2.DeleteRecords RelativeName ParseDuration serve p zone (record :: rest) st
  = V2.DeleteRecords RelativeName ParseDuration serve p zone rest
      (exchanged serve st (lookupRequest RelativeName p record zone)).
Proof.
  intros Hid Hans Hnone. unfold V2.DeleteRecords.
  rewrite DeleteRecords_loop_cons, Hid. cbn [String.eqb]. cbn zeta.
  rewrite Hans, Hnone. reflexivity.
Qed.

(** X13.  Records that all carry an identifier are deleted without any
    lookup: when no delete round trip fails in transport, DeleteRecords
    sends exactly one delete request per record, by its identifier, in
    input order, and returns the input. *)
Theorem DeleteRecords_by_identifier zone records (st : State World) :
  Forall (fun r => libdns.ID r <> "") records ->
  (forall r w, exists response w', serve (deleteRequest p zone r) w = (inr response, w')) ->
  exists tr,
    let run := V2.DeleteRecords RelativeName ParseDuration serve p zone records st in
    fst run = (records, None) /\
    trace (snd run) = trace st ++ tr /\
    map fst tr = map (deleteRequest p zone) records.
Proof.
  intros Hids Hok. unfold V2.DeleteRecords.
  cut (forall deleted (st0 : State World), exists tr,
         fst (V2.DeleteRecords_loop RelativeName ParseDuration serve p zone records deleted st0)
           = (deleted ++ records, None) /\
         trace (snd (V2.DeleteRecords_loop RelativeName ParseDuration serve p zone records
                       deleted st0)) = trace st0 ++ tr /\
         map fst tr = map (deleteRequest p zone) records).
  { intros H. exact (H [] st). }
  induction Hids as [|r records Hid _ IH]; intros deleted st0.
  - exists []. cbn. rewrite !app_nil_r. repeat apply conj; reflexivity.
  - rewrite DeleteRecords_loop_cons. cbn zeta.
    apply String.eqb_neq in Hid. rewrite Hid.
    rewrite DeleteRecords_queue_cons. cbn zeta.
    destruct (Hok r (world st0)) as (response & w' & Hserve).
    assert (Hans : answer serve st0 (deleteRequest p zone r) = inr response)
      by (unfold answer; rewrite Hserve; reflexivity).
    rewrite Hans. cbn [V2.DeleteRecords_queue]. unfold ret.
    destruct (IH (deleted ++ [r]) (exchanged serve st0 (deleteRequest p zone r)))
      as (tr & Hres & Htr & Hreq).
    exists ((deleteRequest p zone r, inr response) :: tr).
    rewrite Hres, Htr, trace_exchanged, Hans, <- !app_assoc. cbn [map fst].
    rewrite Hreq. repeat apply conj; reflexivity.
Qed.

End V2DeleteMore.

(** ** Zones *)

Lemma substring_of_append s suffix :
  substring 0 (String.length s) (s +:+ suffix) = s /\
  substring (String.length s) (String.length suffix) (s +:+ suffix) = suffix.
Proof.
  induction s as [|c s [IH1 IH2]].
  - rewrite append_nil_left. split; [apply substring_0_0|apply substring_whole].
  - rewrite append_cons_left. cbn [String.length substring]. rewrite IH1, IH2.
    split; reflexivity.
Qed.

Lemma string_length_append s1 s2 :
  String.length (s1 +:+ s2) = (String.length s1 + String.length s2)%nat.
Proof.
  induction s1 as [|c s1 IH]; [reflexivity|].
  rewrite append_cons_left. cbn [String.length]. rewrite IH. reflexivity.
Qed.

Lemma TrimSuffix_of_append s suffix : Go.TrimSuffix (s +:+ suffix) suffix = s.
Proof.
  unfold Go.TrimSuffix, Go.HasSuffix. rewrite string_length_append.
  replace (String.length s + String.length suffix - String.length suffix)%nat
    with (String.length s) by lia.
  destruct (substring_of_append s suffix) as [H1 H2]. rewrite H1, H2.
  rewrite String.eqb_refl.
  replace (String.length suffix <=? String.length s + String.length suffix)%nat with true
    by (symmetry; apply Nat.leb_le; lia).
  reflexivity.
Qed.

(** X14.  LibdnsZoneToPorkbunDomain (trimZone in the first iteration)
    strips exactly one trailing dot: a zone written with a final dot gives
    the zone without it, and a zone that does not end in a dot is returned as
    it is.  So both spellings of a zone address the same provider domain. *)
Theorem LibdnsZoneToPorkbunDomain_strips_one_dot (zone : string) :
  V2.LibdnsZoneToPorkbunDomain (zone +:+ ".") = zone /\
  (Go.HasSuffix zone "." = false -> V2.LibdnsZoneToPorkbunDomain zone = zone) /\
  V1.trimZone zone = V2.LibdnsZoneToPorkbunDomain zone.
Proof.
  unfold V2.LibdnsZoneToPorkbunDomain, V1.trimZone. repeat apply conj.
  - apply TrimSuffix_of_append.
  - intros H. unfold Go.TrimSuffix. rewrite H. reflexivity.
  - reflexivity.
Qed.

(** ** More on the typed translator *)

Section TranslatorMore.

Variable Addr : Type.
Variable zeroAddr : Addr.
Variable ParseAddr : string -> option Addr.
Variable RelativeName : string -> string -> string.
Variable ParseDuration : string -> option Z.

(** X15.  The typed translator panics on CAA records with numeric flags
    and fewer than three content fields whose TTL parses, and on nothing
    else: every other wire record makes it return (a record or an error). *)
Theorem toLibdnsRecord_panics_only_on_short_CAA record zone msg :
  V3.toLibdnsRecord Addr zeroAddr ParseAddr RelativeName ParseDuration record zone
    = V3.Panics msg <->
  V3.Type_ record = "CAA" /\
  ParseDuration (V3.TTL record +:+ "s") <> None /\
  snd (Go.Atoi (hd "" (Go.SplitN (V3.Content record) " " 3))) = None /\
  (length (Go.SplitN (V3.Content record) " " 3) < 3)%nat /\
  msg = "index out of range".
Proof.
  split.
  - intros Hpanic.
    destruct (ParseDuration (V3.TTL record +:+ "s")) as [ttl|] eqn:Httl.
    2:{ unfold V3.toLibdnsRecord in Hpanic. rewrite Httl in Hpanic. discriminate. }
    destruct (String.eqb (V3.Type_ record) "CAA") eqn:Htype.
    + apply String.eqb_eq in Htype.
      pose proof (CAA_translation_cases Addr zeroAddr ParseAddr RelativeName ParseDuration
                    record zone ttl Htype Httl) as Hcases.
      cbn zeta in Hcases. rewrite Hpanic in Hcases.
      destruct (Go.SplitN (V3.Content record) " " 3) as [|part0 rest]; [contradiction|].
      cbn [hd]. destruct (Go.Atoi part0) as [flags [e|]]; [discriminate|].
      destruct rest as [|tag [|value rest]]; [| |discriminate];
        injection Hcases as ->; repeat apply conj;
        (assumption || reflexivity || discriminate || (cbn; lia)).
    + exfalso. unfold V3.toLibdnsRecord in Hpanic. rewrite Httl, Htype in Hpanic.
      destruct (String.eqb (V3.Type_ record) "A" || String.eqb (V3.Type_ record) "AAAA").
      * destruct (ParseAddr (V3.Content record)); discriminate.
      * destruct (String.eqb (V3.Type_ record) "CNAME"); [discriminate|].
        destruct (String.eqb (V3.Type_ record) "SRV").
        -- destruct (Go.Atoi (V3.Prio record)). discriminate.
        -- destruct (String.eqb (V3.Type_ record) "TXT"); discriminate.
  - intros (Htype & Httl & Hflags & Hlen & ->).
    destruct (ParseDuration (V3.TTL record +:+ "s")) as [ttl|] eqn:Hparse; [|congruence].
    pose proof (CAA_translation_cases Addr zeroAddr ParseAddr RelativeName ParseDuration
                  record zone ttl Htype Hparse) as Hcases.
    cbn zeta in Hcases.
    destruct (Go.SplitN (V3.Content record) " " 3) as [|part0 rest]; [contradiction|].
    cbn [hd] in Hflags. destruct (Go.Atoi part0) as [flags [e|]]; [discriminate|].
    destruct rest as [|tag [|value rest]]; [exact Hcases|exact Hcases|cbn in Hlen; lia].
Qed.

End TranslatorMore.

Section TranslatorFields.

Variable Addr : Type.
Variable zeroAddr : Addr.
Variable ParseAddr : string -> option Addr.
Variable RelativeName : string -> string -> string.
Variable ParseDuration : string -> option Z.

(** X16.  Whenever the typed translator returns a record without error,
    the wire type is one of A, AAAA, CAA, CNAME, SRV and TXT, the record is
    of the matching kind, its name is RelativeName of the wire name and the
    zone, and its TTL is the parsed wire TTL; CNAME targets and TXT texts
    are the wire content as it is. *)
Theorem toLibdnsRecord_success_fields record zone rec :
  V3.toLibdnsRecord Addr zeroAddr ParseAddr RelativeName ParseDuration record zone
    = V3.Returns (rec, None) ->
  recordName Addr rec = RelativeName (V3.Name record) zone /\
  ParseDuration (V3.TTL record +:+ "s") = Some (recordTTL Addr rec) /\
  match rec with
  | V3.OfAddress _ a =>
      (V3.Type_ record = "A" \/ V3.Type_ record = "AAAA") /\
      ParseAddr (V3.Content record) = Some (V3.IP Addr a)
  | V3.OfCAA _ _ => V3.Type_ record = "CAA"
  | V3.OfCNAME _ c => V3.Type_ record = "CNAME" /\ V3.cnTarget c = V3.Content record
  | V3.OfSRV _ _ => V3.Type_ record = "SRV"
  | V3.OfTXT _ t => V3.Type_ record = "TXT" /\ V3.Text t = V3.Content record
  | V3.OfRR _ _ => False
  end.
Proof.
  unfold V3.toLibdnsRecord. intros Hrun.
  destruct (ParseDuration (V3.TTL record +:+ "s")) as [ttl|]; [|discriminate].
  destruct (String.eqb (V3.Type_ record) "A" || String.eqb (V3.Type_ record) "AAAA") eqn:HA.
  { destruct (ParseAddr (V3.Content record)) as [ip|] eqn:Hip; [|discriminate].
    injection Hrun as <-. cbn. repeat apply conj; try reflexivity.
    apply orb_prop in HA as [H|H]; apply String.eqb_eq in H; auto. }
  destruct (String.eqb (V3.Type_ record) "CAA") eqn:HCAA.
  { apply String.eqb_eq in HCAA. unfold V3.at_index in Hrun.
    destruct (nth_error _ 0) as [part0|]; [|discriminate].
    destruct (Go.Atoi part0) as [flags [e|]]; [discriminate|].
    destruct (nth_error _ 1) as [tag|]; [|discriminate].
    destruct (nth_error _ 2) as [value|]; [|discriminate].
    injection Hrun as <-. cbn. repeat apply conj; (reflexivity || assumption). }
  destruct (String.eqb (V3.Type_ record) "CNAME") eqn:HCNAME.
  { apply String.eqb_eq in HCNAME. injection Hrun as <-. cbn.
    repeat apply conj; (reflexivity || assumption). }
  destruct (String.eqb (V3.Type_ record) "SRV") eqn:HSRV.
  { apply String.eqb_eq in HSRV. destruct (Go.Atoi (V3.Prio record)) as [priority err].
    injection Hrun as <- _. cbn. repeat apply conj; (reflexivity || assumption). }
  destruct (String.eqb (V3.Type_ record) "TXT") eqn:HTXT; [|discriminate].
  apply String.eqb_eq in HTXT. injection Hrun as <-. cbn.
  repeat apply conj; (reflexivity || assumption).
Qed.

End TranslatorFields.

Section V1AppendMore.

Variable RelativeName : string -> string -> string.
Context {World : Type}.
Variable serve : Request -> World -> Outcome * World.
Variable p : Provider.

(** X17.  Whenever the first iteration's AppendRecords returns no error,
    it returns every input record, in order, with the TTL floored to 600
    seconds and otherwise unchanged (no identifier is looked up), and one
    create succeeded per record. *)
Theorem V1_AppendRecords_success zone records (st st' : State World) created :
  V1.AppendRecords RelativeName serve p zone records st = ((created, None), st') ->
  created = map floorTTL records /\
  exists tr,
    trace st' = trace st ++ tr /\
    length (successfulCreates tr) = length records.
Proof.
  intros Hrun.
  destruct (V1_AppendRecords_loop_spec RelativeName serve p zone records [] st)
    as (tr & Htr & Hres).
  cbn zeta in *. unfold V1.AppendRecords in Hrun. rewrite Hrun in *.
  cbn [fst snd app] in *. destruct Hres as [Hcreated Hcount].
  split; [exact Hcreated|]. exists tr. split; assumption.
Qed.

End V1AppendMore.

(** ** The first iteration: UpdateRecords and DeleteRecords *)

Section V1WriteMore.

Variable RelativeName : string -> string -> string.
Context {World : Type}.
Variable serve : Request -> World -> Outcome * World.
Variable p : Provider.

Lemma V1_UpdateRecords_loop_cons zone record rest acc (st : State World) :
  V1.UpdateRecords_loop RelativeName serve p zone (record :: rest) acc st =
  let req := editByNameTypeRequest RelativeName p record zone in
  let st1 := exchanged serve st req in
  match answer serve st req with
  | inl e => (([], Some e), st1)
  | inr response =>
      if String.eqb (Status response) "SUCCESS"
      then V1.UpdateRecords_loop RelativeName serve p zone rest (acc ++ [floorTTL record]) st1
      else (([], None), st1)
  end.
Proof.
  cbn [V1.UpdateRecords_loop]. unfold bind. rewrite MakeApiRequest_run.
  fold (editByNameTypeRequest RelativeName p record zone). cbn zeta.
  destruct (answer serve st (editByNameTypeRequest RelativeName p record zone))
    as [e|response]; [reflexivity|].
  destruct (String.eqb (Status response) "SUCCESS"); reflexivity.
Qed.

Lemma V1_DeleteRecords_loop_cons zone record rest acc (st : State World) :
  V1.DeleteRecords_loop RelativeName serve p zone (record :: rest) acc st =
  let req := deleteByNameTypeRequest RelativeName p record zone in
  let st1 := exchanged serve st req in
  match answer serve st req with
  | inl e => (([], Some e), st1)
  | inr _ => V1.DeleteRecords_loop RelativeName serve p zone rest (acc ++ [record]) st1
  end.
Proof.
  cbn [V1.DeleteRecords_loop]. unfold bind. rewrite MakeApiRequest_run.
  fold (deleteByNameTypeRequest RelativeName p record zone). cbn zeta.
  destruct (answer serve st (deleteByNameTypeRequest RelativeName p record zone));
    reflexivity.
Qed.

Lemma V1_UpdateRecords_loop_all_or_nothing zone records :
  forall acc (st : State World),
  exists tr,
    let run := V1.UpdateRecords_loop RelativeName serve p zone records acc st in
    trace (snd run) = trace st ++ tr /\
    map fst tr
      = map (fun r => editByNameTypeRequest RelativeName p r zone) (firstn (length tr) records) /\
    (forallb succeeded tr = true ->
     length tr = length records /\ fst run = (acc ++ map floorTTL records, None)) /\
    (forallb succeeded tr = false ->
     forallb succeeded (List.removelast tr) = true /\ fst run = ([], lastError tr)).
Proof.
  induction records as [|record rest IH]; intros acc st.
  - exists []. cbn. rewrite !app_nil_r. repeat apply conj; (reflexivity || discriminate || auto).
  - rewrite V1_UpdateRecords_loop_cons. cbn zeta.
    set (req := editByNameTypeRequest RelativeName p record zone).
    destruct (answer serve st req) as [e|response] eqn:Hans.
    + exists [(req, inl e)]. cbn [fst snd length firstn map].
      rewrite trace_exchanged, Hans.
      repeat apply conj; try reflexivity; intros H; try discriminate H.
      repeat apply conj; reflexivity.
    + destruct (String.eqb (Status response) "SUCCESS") eqn:Hst.
      * destruct (IH (acc ++ [floorTTL record]) (exchanged serve st req))
          as (tr & Htr & Hreq & Hok & Hbad).
        cbn zeta in *.
        exists ((req, inr response) :: tr).
        assert (Hhead : succeeded (req, inr response) = true) by exact Hst.
        repeat apply conj.
        -- rewrite Htr, trace_exchanged, Hans, <- app_assoc. reflexivity.
        -- cbn [length firstn map fst]. rewrite <- Hreq. reflexivity.
        -- intros Hall. cbn [forallb] in Hall. rewrite Hhead in Hall.
           destruct (Hok Hall) as [Hl Hr]. cbn [length map].
           rewrite Hr, <- app_assoc. split; [lia | reflexivity].
        -- intros Hall. cbn [forallb] in Hall. rewrite Hhead in Hall.
           destruct (Hbad Hall) as (H1 & H2).
           destruct tr as [|x tr']; [discriminate Hall|].
           split.
           ++ change (List.removelast ((req, inr response) :: x :: tr'))
                with ((req, @inr error Response response) :: List.removelast (x :: tr')).
              cbn [forallb]. rewrite Hhead. exact H1.
           ++ rewrite H2. reflexivity.
      * exists [(req, inr response)]. cbn [fst snd length firstn map].
        rewrite trace_exchanged, Hans.
        assert (Hhead : succeeded (req, inr response) = false) by exact Hst.
        repeat apply conj; try reflexivity; intros H.
        -- cbn [forallb] in H. rewrite Hhead in H. discriminate H.
        -- split; reflexivity.
Qed.

Lemma V1_DeleteRecords_loop_reports zone records :
  forall acc (st : State World),
  exists tr,
    let run := V1.DeleteRecords_loop RelativeName serve p zone records acc st in
    trace (snd run) = trace st ++ tr /\
    map fst tr
      = map (fun r => deleteByNameTypeRequest RelativeName p r zone)
          (firstn (length tr) records) /\
    (forallb answered tr = true ->
     length tr = length records /\ fst run = (acc ++ records, None)) /\
    (forallb answered tr = false ->
     forallb answered (List.removelast tr) = true /\ fst run = ([], lastError tr)).
Proof.
  induction records as [|record rest IH]; intros acc st.
  - exists []. cbn. rewrite !app_nil_r. repeat apply conj; (reflexivity || discriminate || auto).
  - rewrite V1_DeleteRecords_loop_cons. cbn zeta.
    set (req := deleteByNameTypeRequest RelativeName p record zone).
    destruct (answer serve st req) as [e|response] eqn:Hans.
    + exists [(req, inl e)]. cbn [fst snd length firstn map].
      rewrite trace_exchanged, Hans.
      repeat apply conj; try reflexivity; intros H; try discriminate H.
      repeat apply conj; reflexivity.
    + destruct (IH (acc ++ [record]) (exchanged serve st req))
        as (tr & Htr & Hreq & Hok & Hbad).
      cbn zeta in *.
      exists ((req, inr response) :: tr).
      repeat apply conj.
      * rewrite Htr, trace_exchanged, Hans, <- app_assoc. reflexivity.
      * cbn [length firstn map fst]. rewrite <- Hreq. reflexivity.
      * intros Hall. cbn [forallb answered snd andb] in Hall.
        destruct (Hok Hall) as [Hl Hr]. cbn [length].
        rewrite Hr, <- app_assoc. split; [lia | reflexivity].
      * intros Hall. cbn [forallb answered snd andb] in Hall.
        destruct (Hbad Hall) as (H1 & H2).
        destruct tr as [|x tr']; [discriminate Hall|].
        split.
        -- change (List.removelast ((req, inr response) :: x :: tr'))
             with ((req, @inr error Response response) :: List.removelast (x :: tr')).
           cbn [forallb answered snd andb]. exact H1.
        -- rewrite H2. reflexivity.
Qed.

(** X18.  The first iteration's UpdateRecords sends one edit request per
    record, addressed by zone, type and relative name (never by
    identifier), in input order, and stops after the first edit that does
    not succeed.  Its result is all or nothing: when every edit succeeded
    it returns every input record with the TTL floored and no error;
    otherwise it returns no record, with the transport error when the last
    edit failed in transport and with no error when the last edit was
    refused by the provider. *)
Theorem V1_UpdateRecords_stops_at_first_failure zone records (st : State World) :
  exists tr,
    let run := V1.UpdateRecords RelativeName serve p zone records st in
    trace (snd run) = trace st ++ tr /\
    map fst tr
      = map (fun r => editByNameTypeRequest RelativeName p r zone) (firstn (length tr) records) /\
    (forallb succeeded tr = true ->
     length tr = length records /\ fst run = (map floorTTL records, None)) /\
    (forallb succeeded tr = false ->
     forallb succeeded (List.removelast tr) = true /\ fst run = ([], lastError tr)).
Proof.
  unfold V1.UpdateRecords.
  destruct (V1_UpdateRecords_loop_all_or_nothing zone records [] st) as (tr & H).
  exists tr. exact H.
Qed.

(** X19.  The first iteration's DeleteRecords sends one delete request per
    record, addressed by zone, type and relative name, in input order, and
    stops only at a transport failure.  It never reads the answer: when no
    round trip failed in transport it returns its whole input as deleted,
    whatever status the provider answered; at a transport failure it
    returns no record and that error. *)
Theorem V1_DeleteRecords_ignores_the_status zone records (st : State World) :
  exists tr,
    let run := V1.DeleteRecords RelativeName serve p zone records st in
    trace (snd run) = trace st ++ tr /\
    map fst tr
      = map (fun r => deleteByNameTypeRequest RelativeName p r zone)
          (firstn (length tr) records) /\
    (forallb answered tr = true ->
     length tr = length records /\ fst run = (records, None)) /\
    (forallb answered tr = false ->
     forallb answered (List.removelast tr) = true /\ fst run = ([], lastError tr)).
Proof.
  unfold V1.DeleteRecords.
  destruct (V1_DeleteRecords_loop_reports zone records [] st) as (tr & H).
  exists tr. exact H.
Qed.

End V1WriteMore.

(** ** The first iteration: SetRecords as a whole *)

Section V1SetMore.

Variable RelativeName : string -> string -> string.
Variable ParseDuration : string -> option Z.
Context {World : Type}.
Variable serve : Request -> World -> Outcome * World.
Variable p : Provider.

Lemma V1_GetRecords_state zone (st : State World) :
  snd (V1.GetRecords ParseDuration serve p zone st) = exchanged serve st (listRequest1 p zone).
Proof.
  unfold V1.GetRecords, bind. rewrite MakeApiRequest_run.
  fold (listRequest1 p zone).
  destruct (answer serve st (listRequest1 p zone)) as [e|response]; [reflexivity|].
  destruct (String.eqb (Status response) "SUCCESS"); reflexivity.
Qed.

Lemma V1_AppendRecords_loop_requests zone records :
  forall acc (st : State World),
  exists tr,
    let run := V1.AppendRecords_loop RelativeName serve p zone records acc st in
    trace (snd run) = trace st ++ tr /\
    map fst tr
      = map (fun r => createRequest1 RelativeName p r zone) (firstn (length tr) records) /\
    (forallb succeeded tr = true ->
     length tr = length records /\ fst run = (acc ++ map floorTTL records, None)) /\
    (forallb succeeded tr = false -> fst (fst run) = [] /\ snd (fst run) <> None).
Proof.
  induction records as [|record rest IH]; intros acc st.
  - exists []. cbn. rewrite !app_nil_r. repeat apply conj; (reflexivity || discriminate || auto).
  - rewrite V1_AppendRecords_loop_cons. cbn zeta.
    set (req := createRequest1 RelativeName p record zone).
    destruct (answer serve st req) as [e|response] eqn:Hans.
    + exists [(req, inl e)]. cbn [fst snd length firstn map].
      rewrite trace_exchanged, Hans.
      repeat apply conj; try reflexivity; intros H; try discriminate H.
      split; [reflexivity|discriminate].
    + destruct (String.eqb (Status response) "SUCCESS") eqn:Hst.
      * destruct (IH (acc ++ [floorTTL record]) (exchanged serve st req))
          as (tr & Htr & Hreq & Hok & Hbad).
        cbn zeta in *.
        exists ((req, inr response) :: tr).
        assert (Hhead : succeeded (req, inr response) = true) by exact Hst.
        repeat apply conj.
        -- rewrite Htr, trace_exchanged, Hans, <- app_assoc. reflexivity.
        -- cbn [length firstn map fst]. rewrite <- Hreq. reflexivity.
        -- intros Hall. cbn [forallb] in Hall. rewrite Hhead in Hall.
           destruct (Hok Hall) as [Hl Hr]. cbn [length map].
           rewrite Hr, <- app_assoc. split; [lia | reflexivity].
        -- intros Hall. cbn [forallb] in Hall. rewrite Hhead in Hall.
           exact (Hbad Hall).
      * exists [(req, inr response)]. cbn [fst snd length firstn map].
        rewrite trace_exchanged, Hans.
        assert (Hhead : succeeded (req, inr response) = false) by exact Hst.
        repeat apply conj; try reflexivity; intros H.
        -- cbn [forallb] in H. rewrite Hhead in H. discriminate H.
        -- split; [reflexivity|discriminate].
Qed.

Lemma succeeded_answered x : succeeded x = true -> answered x = true.
Proof. destruct x as [req [e|response]]; [discriminate|reflexivity]. Qed.

Lemma forallb_succeeded_answered tr :
  forallb succeeded tr = true -> forallb answered tr = true.
Proof.
  induction tr as [|x tr IH]; [reflexivity|]. cbn [forallb].
  intros H. apply andb_prop in H as [Hx Htr].
  rewrite (succeeded_answered x Hx), (IH Htr). reflexivity.
Qed.

Lemma lastError_answered tr :
  tr <> [] -> forallb answered tr = true -> lastError tr = None.
Proof.
  induction tr as [|x tr IH]; [congruence|]. intros _ Hall.
  cbn [forallb] in Hall. apply andb_prop in Hall as [Hx Htr].
  destruct tr as [|y tr'].
  - destruct x as [req [e|response]]; [discriminate Hx|reflexivity].
  - unfold lastError in *. cbn [map] in *.
    change (List.last (snd x :: snd y :: map snd tr') (inl (TransportError "")))
      with (List.last (snd y :: map snd tr') (inl (TransportError ""))).
    apply IH; [discriminate|exact Htr].
Qed.

(** X20.  The first iteration's SetRecords, once the listing came back:
    it sends the listing, then one create per record on the creates, then
    one edit per record on the updates, each list in input order.  No edit
    is sent unless every create succeeded, and a failed create fails the
    call.  When every create succeeded, the call returns its input without
    error as soon as no edit failed in transport (an edit the provider
    refused does not fail it), and returns nil with the transport error
    otherwise. *)
Theorem V1_SetRecords_creates_then_updates zone records (st : State World)
  existing updates creates :
  fst (V1.GetRecords ParseDuration serve p zone st) = (existing, None) ->
  V1.SetRecords_partition (V1.existingCoordinatesOf existing) records [] []
    = (updates, creates) ->
  exists trc tru,
    let run := V1.SetRecords RelativeName ParseDuration serve p zone records st in
    let listing := listRequest1 p zone in
    trace (snd run) = trace st ++ (listing, answer serve st listing) :: trc ++ tru /\
    map fst trc
      = map (fun r => createRequest1 RelativeName p r zone) (firstn (length trc) creates) /\
    map fst tru
      = map (fun r => editByNameTypeRequest RelativeName p r zone)
          (firstn (length tru) updates) /\
    (forallb succeeded trc = false ->
     tru = [] /\ fst (fst run) = [] /\ snd (fst run) <> None) /\
    (forallb succeeded trc = true ->
     length trc = length creates /\
     (forallb answered tru = true -> fst run = (records, None)) /\
     (forallb answered tru = false -> fst run = ([], lastError tru))).
Proof.
  intros Hlist Hpart. cbn zeta.
  pose proof (V1_GetRecords_state zone st) as Hst1.
  unfold V1.SetRecords, bind.
  destruct (V1.GetRecords ParseDuration serve p zone st) as [[existing' err] st1].
  cbn [fst snd] in Hlist, Hst1. injection Hlist as -> ->. subst st1.
  rewrite Hpart. unfold V1.SetRecords_apply, bind, V1.AppendRecords, V1.UpdateRecords.
  set (st1 := exchanged serve st (listRequest1 p zone)).
  destruct (V1_AppendRecords_loop_requests zone creates [] st1)
    as (trc & Htrc & Hreqc & Hokc & Hbadc).
  cbn zeta in *.
  destruct (forallb succeeded trc) eqn:Hc.
  - destruct (Hokc eq_refl) as [Hlen Hrun]. clear Hokc Hbadc.
    destruct (V1.AppendRecords_loop RelativeName serve p zone creates [] st1)
      as [[created errc] st2].
    cbn [fst snd] in Htrc, Hrun. injection Hrun as _ ->.
    destruct (V1_UpdateRecords_loop_all_or_nothing RelativeName serve p zone updates [] st2)
      as (tru & Htru & Hrequ & Hoku & Hbadu).
    cbn zeta in *.
    exists trc, tru.
    assert (Htrace : trace (snd (V1.UpdateRecords_loop RelativeName serve p zone updates [] st2))
                     = trace st ++ (listRequest1 p zone, answer serve st (listRequest1 p zone))
                         :: trc ++ tru).
    { rewrite Htru, Htrc. unfold st1. rewrite trace_exchanged, <- !app_assoc. reflexivity. }
    destruct (forallb succeeded tru) eqn:Hu.
    + destruct (Hoku eq_refl) as [_ Hres].
      destruct (V1.UpdateRecords_loop RelativeName serve p zone updates [] st2)
        as [[updated erru] st3].
      cbn [fst snd] in *. injection Hres as _ ->. unfold ret. cbn [fst snd].
      repeat apply conj; try assumption; [intros H; congruence|].
      intros _. repeat apply conj; [exact Hlen|reflexivity|].
      intros Hans. rewrite (forallb_succeeded_answered tru Hu) in Hans. discriminate Hans.
    + destruct (Hbadu eq_refl) as [Hinit Hres].
      assert (Hne : tru <> []) by (intros ->; discriminate Hu).
      assert (Hlast : forallb answered tru = false -> lastError tru <> None).
      { intros Hans He. unfold lastError in He.
        apply forallb_succeeded_answered in Hinit.
        destruct (exists_last Hne) as (init & x & ->).
        rewrite List.removelast_last in Hinit.
        rewrite forallb_app, Hinit in Hans. cbn [forallb andb] in Hans.
        rewrite List.map_app in He. cbn [map] in He. rewrite List.last_last in He.
        destruct x as [req [e|response]]; [discriminate He|discriminate Hans]. }
      destruct (V1.UpdateRecords_loop RelativeName serve p zone updates [] st2)
        as [[updated erru] st3].
      cbn [fst snd] in *. injection Hres as -> ->.
      destruct (lastError tru) as [e|] eqn:He; unfold ret; cbn [fst snd].
      * repeat apply conj; try assumption; [intros H; congruence|].
        intros _. split; [exact Hlen|]. split; [|reflexivity].
        intros Hans. rewrite (lastError_answered tru Hne Hans) in He. discriminate He.
      * repeat apply conj; try assumption; [intros H; congruence|].
        intros _. split; [exact Hlen|]. split; [reflexivity|].
        intros Hans. destruct (Hlast Hans eq_refl).
  - destruct (Hbadc eq_refl) as [Hnil Herr]. clear Hokc Hbadc.
    destruct (V1.AppendRecords_loop RelativeName serve p zone creates [] st1)
      as [[created [e|]] st2]; [|cbn in Herr; congruence].
    cbn [fst snd] in *. subst created.
    exists trc, []. unfold ret. cbn [fst snd]. rewrite app_nil_r.
    repeat apply conj.
    + rewrite Htrc. unfold st1. rewrite trace_exchanged, <- app_assoc. reflexivity.
    + exact Hreqc.
    + reflexivity.
    + intros _. repeat apply conj; [reflexivity|reflexivity|discriminate].
    + intros H; congruence.
Qed.

End V1SetMore.

(** ** The third iteration: what comes back beside an error *)

Section TranslatorErrors.

Variable Addr : Type.
Variable zeroAddr : Addr.
Variable ParseAddr : string -> option Addr.
Variable RelativeName : string -> string -> string.
Variable ParseDuration : string -> option Z.

(** X21.  Whenever the typed translator returns an error, the record
    beside it is the zero value of its kind: an empty RR for a TTL that does
    not parse and for an unsupported type, an empty Address for a content
    that is no address, an empty CAA for flags that are no number.  The SRV
    case is the exception: a priority that is no number comes back as the
    error beside a filled-in SRV record (name and TTL set).  CNAME and TXT
    records never come with an error. *)
Theorem toLibdnsRecord_error_record record zone rec e :
  V3.toLibdnsRecord Addr zeroAddr ParseAddr RelativeName ParseDuration record zone
    = V3.Returns (rec, Some e) ->
  match rec with
  | V3.OfRR _ r =>
      r = V3.mkRR "" 0 "" "" /\
      (ParseDuration (V3.TTL record +:+ "s") = None /\
       e = ParseDurationError (V3.TTL record +:+ "s") \/
       ParseDuration (V3.TTL record +:+ "s") <> None /\
       e = UnsupportedRecordType (V3.Type_ record))
  | V3.OfAddress _ a =>
      a = V3.mkAddress Addr "" 0 zeroAddr /\
      (V3.Type_ record = "A" \/ V3.Type_ record = "AAAA") /\
      ParseAddr (V3.Content record) = None /\
      e = ParseAddrError (V3.Content record)
  | V3.OfCAA _ c =>
      c = V3.mkCAA "" 0 0 "" "" /\
      V3.Type_ record = "CAA" /\
      exists n, snd (Go.Atoi (hd "" (Go.SplitN (V3.Content record) " " 3))) = Some n /\
                e = AtoiError n (hd "" (Go.SplitN (V3.Content record) " " 3))
  | V3.OfSRV _ s =>
      V3.Type_ record = "SRV" /\
      V3.srvName s = RelativeName (V3.Name record) zone /\
      ParseDuration (V3.TTL record +:+ "s") = Some (V3.srvTTL s) /\
      V3.srvPriority s = Go.uint16 (fst (Go.Atoi (V3.Prio record))) /\
      exists n, snd (Go.Atoi (V3.Prio record)) = Some n /\ e = AtoiError n (V3.Prio record)
  | V3.OfCNAME _ _ | V3.OfTXT _ _ => False
  end.
Proof.
  unfold V3.toLibdnsRecord. intros Hrun.
  destruct (ParseDuration (V3.TTL record +:+ "s")) as [ttl|] eqn:Httl.
  2:{ injection Hrun as <- <-. split; [reflexivity|]. left. split; reflexivity. }
  destruct (String.eqb (V3.Type_ record) "A" || String.eqb (V3.Type_ record) "AAAA") eqn:HA.
  { destruct (ParseAddr (V3.Content record)) as [ip|] eqn:Hip; [discriminate|].
    injection Hrun as <- <-. repeat apply conj; try reflexivity.
    apply orb_prop in HA as [H|H]; apply String.eqb_eq in H; auto. }
  destruct (String.eqb (V3.Type_ record) "CAA") eqn:HCAA.
  { apply String.eqb_eq in HCAA. unfold V3.at_index in Hrun.
    destruct (Go.SplitN (V3.Content record) " " 3) as [|part0 parts] eqn:Hparts;
      [discriminate|].
    cbn [nth_error hd] in *.
    destruct (Go.Atoi part0) as [flags [n|]] eqn:Hflags.
    - injection Hrun as <- <-. repeat apply conj; try reflexivity; try assumption.
      exists n. split; reflexivity.
    - destruct parts as [|tag [|value parts]]; discriminate. }
  destruct (String.eqb (V3.Type_ record) "CNAME") eqn:HCNAME; [discriminate|].
  destruct (String.eqb (V3.Type_ record) "SRV") eqn:HSRV.
  { apply String.eqb_eq in HSRV.
    destruct (Go.Atoi (V3.Prio record)) as [priority [n|]] eqn:Hprio; [|discriminate].
    injection Hrun as <- <-. cbn. repeat apply conj; try reflexivity; try assumption.
    exists n. split; reflexivity. }
  destruct (String.eqb (V3.Type_ record) "TXT") eqn:HTXT; [discriminate|].
  injection Hrun as <- <-. split; [reflexivity|]. right. split; [congruence|reflexivity].
Qed.

End TranslatorErrors.

(** ** The further properties at concrete inputs *)

(** X3 at a concrete input: the zone lists a TXT record www.example.com. *)
Lemma SetRecords_partition_by_name_and_type_witness :
  let existing := [libdns.mkRecord "1" "TXT" "www.example.com." "old" (600 * Go.Second) 0] in
  let known := Mock.txt "" "www.example.com." "new" (600 * Go.Second) in
  let fresh := Mock.txt "" "new.example.com." "new" (600 * Go.Second) in
  (forall r,
     In r [known] <->
     In r [known; fresh] /\
     exists e, In e existing /\
       libdns.Name e = libdns.Name r /\ libdns.Type_ e = libdns.Type_ r) /\
  (forall r,
     In r [fresh] <->
     In r [known; fresh] /\
     ~ exists e, In e existing /\
         libdns.Name e = libdns.Name r /\ libdns.Type_ e = libdns.Type_ r) /\
  (length [known] + length [fresh] = length [known; fresh])%nat.
Proof.
  cbn zeta.
  apply (SetRecords_partition_by_name_and_type
           [libdns.mkRecord "1" "TXT" "www.example.com." "old" (600 * Go.Second) 0]
           [Mock.txt "" "www.example.com." "new" (600 * Go.Second);
            Mock.txt "" "new.example.com." "new" (600 * Go.Second)]).
  - repeat constructor.
  - repeat constructor.
  - rewrite SetRecords_partition_spec. cbn [List.filter app].
    rewrite !Contains_existingCoordinates. reflexivity.
Defined.

(** X4 at a concrete input: one listed record with TTL 600. *)
Lemma V1_GetRecords_is_strict_witness :
  let wire := Mock.wireTXT "1" "www.example.com" "v" in
  let run :=
    V1.GetRecords Mock.parseSeconds (Mock.zoneWith [wire]) Mock.provider "example.com."
      (mkState tt []) in
  (Forall (fun w => Mock.parseSeconds (wTTL w +:+ "s") <> None) [wire] ->
   exists listed,
     fst run = (listed, None) /\
     Forall2 (fun w r => exists ttl,
                Mock.parseSeconds (wTTL w +:+ "s") = Some ttl /\ r = listed1 w ttl)
       [wire] listed) /\
  (Exists (fun w => Mock.parseSeconds (wTTL w +:+ "s") = None) [wire] ->
   exists w, In w [wire] /\ Mock.parseSeconds (wTTL w +:+ "s") = None /\
     fst run = ([], Some (ParseDurationError (wTTL w +:+ "s")))).
Proof.
  cbn zeta.
  apply (V1_GetRecords_is_strict Mock.parseSeconds
           (Mock.zoneWith [Mock.wireTXT "1" "www.example.com" "v"]) Mock.provider
           "example.com." (mkState tt [])
           (mkResponse "SUCCESS" "" "" [Mock.wireTXT "1" "www.example.com" "v"]));
    reflexivity.
Defined.

(** The first GetRecords on a listing with one TTL that does not parse. *)
Example V1_GetRecords_bad_ttl :
  fst (V1.GetRecords Mock.parseSeconds
         (Mock.zoneWith [Mock.wireTXT "1" "a.example.com" "v";
                         mkPkbnRecord "w" "2" "b.example.com" "" "0" "soon" "TXT"])
         Mock.provider "example.com." (mkState tt []))
  = ([], Some (ParseDurationError "soons")).
Proof. vm_compute. reflexivity. Qed.

(** X5 at a concrete input: one record requested with 60 seconds comes
    back with 60 seconds. *)
Lemma V1_SetRecords_returns_its_input_witness :
  let records := [Mock.txt "" "www.example.com." "v" (60 * Go.Second)] in
  let run :=
    V1.SetRecords libdns.RelativeName Mock.parseSeconds Mock.emptyZone Mock.provider
      "example.com." records (mkState tt []) in
  fst run = (records, None) /\ fst (fst run) = records.
Proof.
  cbn zeta.
  assert (Hrun :
    fst (V1.SetRecords libdns.RelativeName Mock.parseSeconds Mock.emptyZone Mock.provider
           "example.com." [Mock.txt "" "www.example.com." "v" (60 * Go.Second)]
           (mkState tt []))
    = ([Mock.txt "" "www.example.com." "v" (60 * Go.Second)], None)).
  { unfold V1.SetRecords, bind. 
    replace (V1.GetRecords Mock.parseSeconds Mock.emptyZone Mock.provider "example.com."
               (mkState tt []))
      with (([] : list libdns.Record, @None error),
            mkState tt [(mkRequest "dns/retrieve/example.com"
                           (BodyCredentials Mock.credentials), Mock.success [])])
      by reflexivity.
    rewrite SetRecords_partition_spec. cbn [List.filter app].
    rewrite !Contains_existingCoordinates. reflexivity. }
  split; [exact Hrun|].
  apply (V1_SetRecords_returns_its_input libdns.RelativeName Mock.parseSeconds
           Mock.emptyZone Mock.provider "example.com."
           [Mock.txt "" "www.example.com." "v" (60 * Go.Second)] (mkState tt [])
           (snd (V1.SetRecords libdns.RelativeName Mock.parseSeconds Mock.emptyZone
                   Mock.provider "example.com."
                   [Mock.txt "" "www.example.com." "v" (60 * Go.Second)]
                   (mkState tt [])))).
  etransitivity; [apply surjective_pairing|]. rewrite Hrun. reflexivity.
Defined.


(** The second GetRecords on that listing: TTL 0 and priority 0. *)
Example V2_GetRecords_bad_ttl :
  fst (V2.GetRecords libdns.RelativeName Mock.parseSeconds
         (Mock.zoneWith [mkPkbnRecord "v" "2" "b.example.com" "" "high" "soon" "TXT"])
         Mock.provider "example.com." (mkState tt []))
  = ([libdns.mkRecord "2" "TXT" "b" "v" 0 0], None).
Proof. vm_compute. reflexivity. Qed.

(** X7 at a concrete input: every lookup fails in transport. *)
Lemma AppendRecords_lookup_is_best_effort_witness :
  let records :=
    [Mock.txt "" "a" "1" (600 * Go.Second); Mock.txt "" "b" "2" (60 * Go.Second)] in
  exists tr,
    let run :=
      V2.AppendRecords libdns.RelativeName Mock.parseSeconds lookupsFail Mock.provider
        "example.com." records (mkState tt []) in
    trace (snd run) = trace (mkState tt []) ++ tr /\
    snd (fst run) = None /\
    Forall2 createdFrom records (fst (fst run)) /\
    length (successfulCreates tr) = length records.
Proof.
  cbn zeta.
  apply (AppendRecords_lookup_is_best_effort libdns.RelativeName Mock.parseSeconds
           lookupsFail Mock.provider "example.com."
           [Mock.txt "" "a" "1" (600 * Go.Second); Mock.txt "" "b" "2" (60 * Go.Second)]
           (mkState tt [])).
  intros r w. exists (mkResponse "SUCCESS" "" "" []), w. split; reflexivity.
Defined.

(** AppendRecords when every lookup fails in transport. *)
Example AppendRecords_without_identifiers :
  fst (V2.AppendRecords libdns.RelativeName Mock.parseSeconds lookupsFail Mock.provider
         "example.com."
         [Mock.txt "" "a" "1" (600 * Go.Second); Mock.txt "" "b" "2" (60 * Go.Second)]
         (mkState tt []))
  = ([Mock.txt "" "a" "1" (600 * Go.Second); Mock.txt "" "b" "2" (600 * Go.Second)], None).
Proof. vm_compute. reflexivity. Qed.

(** X9 at a concrete input: the only lookup fails in transport. *)
Lemma SetRecords_fails_before_any_write_witness :
  let r := Mock.txt "" "www" "new" (600 * Go.Second) in
  let lookup := lookupRequest libdns.RelativeName Mock.provider r "example.com." in
  let e := TransportError "no response left" in
  let st1 := mkState [] [(lookup, inl e)] in
  V2.SetRecords libdns.RelativeName Mock.parseSeconds Mock.scripted Mock.provider
    "example.com." [r] (Mock.start []) = (([], Some e), st1) /\
  exists tr,
    trace st1 = trace (Mock.start []) ++ tr /\
    Forall (fun x => exists r', In r' [r] /\
              fst x = lookupRequest libdns.RelativeName Mock.provider r' "example.com.") tr /\
    payloadsOf tr = [].
Proof.
  cbn zeta.
  apply (SetRecords_fails_before_any_write libdns.RelativeName Mock.parseSeconds
           Mock.scripted Mock.provider "example.com."
           [Mock.txt "" "www" "new" (600 * Go.Second)] (Mock.start [])).
  reflexivity.
Defined.

(** X10 at a concrete input: one record with an identifier, one whose
    lookup finds a record, one whose lookup finds none. *)
Lemma SetRecords_complete_on_success_witness :
  let records :=
    [Mock.txt "11" "a" "1" (600 * Go.Second); Mock.txt "" "b" "2" (600 * Go.Second);
     Mock.txt "" "c" "3" (60 * Go.Second)] in
  let st :=
    Mock.start
      [Mock.success [Mock.wireTXT "22" "b.example.com" "old"]; Mock.success [];
       Mock.success []; Mock.success [Mock.wireTXT "33" "c.example.com" "3"];
       Mock.success []; Mock.success []] in
  let results :=
    [Mock.txt "33" "c" "3" (600 * Go.Second); Mock.txt "11" "a" "1" (600 * Go.Second);
     Mock.txt "22" "b" "2" (600 * Go.Second)] in
  exists updates creates created,
    fst (V2.SetRecords_classify libdns.RelativeName Mock.parseSeconds Mock.scripted
           Mock.provider "example.com." records [] [] st)
      = inr (updates, creates) /\
    results = created ++ map floorTTL updates /\
    Forall2 createdFrom creates created /\
    length results = length records.
Proof.
  cbn zeta.
  eapply (SetRecords_complete_on_success libdns.RelativeName Mock.parseSeconds
            Mock.scripted Mock.provider "example.com."
            [Mock.txt "11" "a" "1" (600 * Go.Second); Mock.txt "" "b" "2" (600 * Go.Second);
             Mock.txt "" "c" "3" (60 * Go.Second)]
            (Mock.start
               [Mock.success [Mock.wireTXT "22" "b.example.com" "old"]; Mock.success [];
                Mock.success []; Mock.success [Mock.wireTXT "33" "c.example.com" "3"];
                Mock.success []; Mock.success []])).
  - vm_compute. reflexivity.
  - cbn [trace Mock.start app]. reflexivity.
  - vm_compute. reflexivity.
Defined.

(** X12 at a concrete input: the zone is empty. *)
Lemma DeleteRecords_skips_unmatched_record_witness :
  let record := Mock.txt "" "gone" "" 0 in
  V2.DeleteRecords libdns.RelativeName Mock.parseSeconds Mock.emptyZone Mock.provider
    "example.com." (record :: []) (mkState tt [])
  = V2.DeleteRecords libdns.RelativeName Mock.parseSeconds Mock.emptyZone Mock.provider
      "example.com." []
      (exchanged Mock.emptyZone (mkState tt [])
         (lookupRequest libdns.RelativeName Mock.provider record "example.com.")).
Proof.
  cbn zeta.
  apply (DeleteRecords_skips_unmatched_record libdns.RelativeName Mock.parseSeconds
           Mock.emptyZone Mock.provider "example.com." (Mock.txt "" "gone" "" 0) []
           (mkState tt []) (mkResponse "SUCCESS" "" "" [])); reflexivity.
Defined.

(** X13 at a concrete input: two records with identifiers. *)
Lemma DeleteRecords_by_identifier_witness :
  let records := [Mock.txt "7" "a" "" 0; Mock.txt "8" "b" "" 0] in
  exists tr,
    let run :=
      V2.DeleteRecords libdns.RelativeName Mock.parseSeconds Mock.emptyZone Mock.provider
        "example.com." records (mkState tt []) in
    fst run = (records, None) /\
    trace (snd run) = trace (mkState tt []) ++ tr /\
    map fst tr = map (deleteRequest Mock.provider "example.com.") records.
Proof.
  cbn zeta.
  apply (DeleteRecords_by_identifier libdns.RelativeName Mock.parseSeconds
           Mock.emptyZone Mock.provider "example.com."
           [Mock.txt "7" "a" "" 0; Mock.txt "8" "b" "" 0] (mkState tt [])).
  - repeat constructor; discriminate.
  - intros r w. exists (mkResponse "SUCCESS" "" "" []), w. reflexivity.
Defined.

(** X16 at a concrete input: the CNAME row of the table test, with
    addresses as their text. *)
Lemma toLibdnsRecord_success_fields_witness :
  let wire := V3.mkPkbnRecord "target.example.com." "test.example.com" "" "0" "300" "CNAME" in
  let rec := V3.OfCNAME string (V3.mkCNAME "test" (300 * Go.Second) "target.example.com.") in
  recordName string rec = libdns.RelativeName (V3.Name wire) "example.com" /\
  Mock.parseSeconds (V3.TTL wire +:+ "s") = Some (recordTTL string rec) /\
  V3.Type_ wire = "CNAME" /\
  V3.cnTarget (V3.mkCNAME "test" (300 * Go.Second) "target.example.com.") = V3.Content wire.
Proof.
  cbn zeta.
  apply (toLibdnsRecord_success_fields string "" Some libdns.RelativeName Mock.parseSeconds
           (V3.mkPkbnRecord "target.example.com." "test.example.com" "" "0" "300" "CNAME")
           "example.com"
           (V3.OfCNAME string (V3.mkCNAME "test" (300 * Go.Second) "target.example.com."))).
  reflexivity.
Defined.

(** X17 at a concrete input: one record requested with 60 seconds. *)
Lemma V1_AppendRecords_success_witness :
  let records := [Mock.txt "" "www" "v" (60 * Go.Second)] in
  let run :=
    V1.AppendRecords libdns.RelativeName Mock.emptyZone Mock.provider "example.com."
      records (mkState tt []) in
  fst (fst run) = map floorTTL records /\
  exists tr,
    trace (snd run) = trace (mkState tt []) ++ tr /\
    length (successfulCreates tr) = length records.
Proof.
  cbn zeta.
  apply (V1_AppendRecords_success libdns.RelativeName Mock.emptyZone Mock.provider
           "example.com." [Mock.txt "" "www" "v" (60 * Go.Second)] (mkState tt [])).
  reflexivity.
Defined.

(** A zone that refuses every request: the first iteration's DeleteRecords
    still reports both records as deleted. *)
Example V1_DeleteRecords_refused :
  fst (V1.DeleteRecords libdns.RelativeName (fun _ w => (Mock.failure "ERROR" "Invalid domain.", w))
         Mock.provider "example.com."
         [Mock.txt "" "a" "1" (600 * Go.Second); Mock.txt "" "b" "2" (600 * Go.Second)]
         (mkState tt []))
  = ([Mock.txt "" "a" "1" (600 * Go.Second); Mock.txt "" "b" "2" (600 * Go.Second)], None).
Proof. reflexivity. Qed.

(** X20 at a concrete input: the zone lists a TXT record www.example.com;
    one input record is listed, the other is new. *)
Lemma V1_SetRecords_creates_then_updates_witness :
  let wire := Mock.wireTXT "1" "www.example.com" "old" in
  let known := Mock.txt "" "www.example.com." "new" (600 * Go.Second) in
  let fresh := Mock.txt "" "new.example.com." "v" (600 * Go.Second) in
  let serve := Mock.zoneWith [wire] in
  let st := mkState tt [] in
  (fst (V1.GetRecords Mock.parseSeconds serve Mock.provider "example.com." st)
     = ([listed1 wire (600 * Go.Second)], None) /\
   V1.SetRecords_partition (V1.existingCoordinatesOf [listed1 wire (600 * Go.Second)])
     [known; fresh] [] [] = ([known], [fresh])) /\
  exists trc tru,
    let run :=
      V1.SetRecords libdns.RelativeName Mock.parseSeconds serve Mock.provider
        "example.com." [known; fresh] st in
    let listing := listRequest1 Mock.provider "example.com." in
    trace (snd run) = trace st ++ (listing, answer serve st listing) :: trc ++ tru /\
    map fst trc
      = map (fun r => createRequest1 libdns.RelativeName Mock.provider r "example.com.")
          (firstn (length trc) [fresh]) /\
    map fst tru
      = map (fun r => editByNameTypeRequest libdns.RelativeName Mock.provider r "example.com.")
          (firstn (length tru) [known]) /\
    (forallb succeeded trc = false ->
     tru = [] /\ fst (fst run) = [] /\ snd (fst run) <> None) /\
    (forallb succeeded trc = true ->
     length trc = length [fresh] /\
     (forallb answered tru = true -> fst run = ([known; fresh], None)) /\
     (forallb answered tru = false -> fst run = ([], lastError tru))).
Proof.
  cbn zeta.
  assert (Hlist :
    fst (V1.GetRecords Mock.parseSeconds
           (Mock.zoneWith [Mock.wireTXT "1" "www.example.com" "old"]) Mock.provider
           "example.com." (mkState tt []))
    = ([listed1 (Mock.wireTXT "1" "www.example.com" "old") (600 * Go.Second)], None))
    by reflexivity.
  assert (Hpart :
    V1.SetRecords_partition
      (V1.existingCoordinatesOf
         [listed1 (Mock.wireTXT "1" "www.example.com" "old") (600 * Go.Second)])
      [Mock.txt "" "www.example.com." "new" (600 * Go.Second);
       Mock.txt "" "new.example.com." "v" (600 * Go.Second)] [] []
    = ([Mock.txt "" "www.example.com." "new" (600 * Go.Second)],
       [Mock.txt "" "new.example.com." "v" (600 * Go.Second)])).
  { rewrite SetRecords_partition_spec. cbn [List.filter app].
    rewrite !Contains_existingCoordinates. reflexivity. }
  split; [split; [exact Hlist|exact Hpart]|].
  exact (V1_SetRecords_creates_then_updates libdns.RelativeName Mock.parseSeconds
           (Mock.zoneWith [Mock.wireTXT "1" "www.example.com" "old"]) Mock.provider
           "example.com."
           [Mock.txt "" "www.example.com." "new" (600 * Go.Second);
            Mock.txt "" "new.example.com." "v" (600 * Go.Second)]
           (mkState tt []) _ _ _ Hlist Hpart).
Defined.

(** The first iteration's SetRecords on a zone that refuses every edit:
    the listed record is sent as an edit, the edit is refused, and the call
    still returns its input without error. *)
Example V1_SetRecords_refused_edit :
  let refuseEdits := fun (req : Request) (w : unit) =>
    (if Go.HasPrefix (endpoint req) "dns/retrieve"
     then Mock.success [Mock.wireTXT "1" "www.example.com" "old"]
     else if Go.HasPrefix (endpoint req) "dns/edit"
          then Mock.failure "ERROR" "Edit error: We were unable to edit the DNS record."
          else Mock.success [], w) in
  let known := Mock.txt "" "www.example.com." "new" (600 * Go.Second) in
  fst (V1.SetRecords libdns.RelativeName Mock.parseSeconds refuseEdits Mock.provider
         "example.com." [known] (mkState tt []))
  = ([known], None).
Proof.
  cbn zeta. unfold V1.SetRecords, bind.
  match goal with
  | |- context [V1.GetRecords ?pd ?sv ?pr ?z ?s] =>
      replace (V1.GetRecords pd sv pr z s)
        with (([listed1 (Mock.wireTXT "1" "www.example.com" "old") (600 * Go.Second)],
               @None error),
              mkState tt [(listRequest1 Mock.provider "example.com.",
                           Mock.success [Mock.wireTXT "1" "www.example.com" "old"])])
        by reflexivity
  end.
  rewrite SetRecords_partition_spec. cbn [List.filter app].
  rewrite !Contains_existingCoordinates. reflexivity.
Qed.

(** X21 at a concrete input: an SRV record whose priority is not a number. *)
Lemma toLibdnsRecord_error_record_witness :
  let wire := V3.mkPkbnRecord "1 993 imap.example.com" "_imaps._tcp.example.com" "" "high"
                "300" "SRV" in
  let s := V3.mkSRV "" "" "_imaps._tcp" (300 * Go.Second) 0 0 0 "" in
  V3.toLibdnsRecord string "" Some libdns.RelativeName Mock.parseSeconds wire "example.com"
    = V3.Returns (V3.OfSRV string s, Some (AtoiError Go.ErrSyntax "high")) /\
  V3.Type_ wire = "SRV" /\
  V3.srvName s = libdns.RelativeName (V3.Name wire) "example.com" /\
  Mock.parseSeconds (V3.TTL wire +:+ "s") = Some (V3.srvTTL s) /\
  V3.srvPriority s = Go.uint16 (fst (Go.Atoi (V3.Prio wire))) /\
  exists n, snd (Go.Atoi (V3.Prio wire)) = Some n /\ AtoiError Go.ErrSyntax "high"
                                                      = AtoiError n (V3.Prio wire).
Proof.
  cbn zeta.
  assert (Hrun :
    V3.toLibdnsRecord string "" Some libdns.RelativeName Mock.parseSeconds
      (V3.mkPkbnRecord "1 993 imap.example.com" "_imaps._tcp.example.com" "" "high" "300" "SRV")
      "example.com"
    = V3.Returns (V3.OfSRV string (V3.mkSRV "" "" "_imaps._tcp" (300 * Go.Second) 0 0 0 ""),
                  Some (AtoiError Go.ErrSyntax "high"))) by reflexivity.
  split; [exact Hrun|].
  exact (toLibdnsRecord_error_record string "" Some libdns.RelativeName Mock.parseSeconds
           (V3.mkPkbnRecord "1 993 imap.example.com" "_imaps._tcp.example.com" "" "high"
              "300" "SRV")
           "example.com"
           (V3.OfSRV string (V3.mkSRV "" "" "_imaps._tcp" (300 * Go.Second) 0 0 0 ""))
           (AtoiError Go.ErrSyntax "high") Hrun).
Defined.
